(** * PillSee backend: a shallow embedding of the query pipeline

    The development follows the Python sources of [pillsee-backend/app]:

    - [data/sukl_processor.py]   (CSV loading, record extraction, documents)
    - [database/vector_store.py] (similarity search, validation against the store)
    - [ai/vision_processor.py]   (image recognition post-processing)
    - [ai/text_processor.py]     (RAG answer, confidence heuristic, disclaimers)
    - [workflows/medication_workflow.py] (the LangGraph state machine)
    - [main.py]                  (the two HTTP endpoints)
    - [models.py], [config.py]   (request models, CORS origins)

    Python [str] values are sequences of Unicode code points, [dict]s are
    insertion-ordered association lists, exceptions are an explicit error
    result, and every hosted service or third-party library call (OpenAI,
    Supabase, pandas, chardet, PIL, json) is a field of the record [World]
    over which all theorems quantify.  Scores that Python keeps in [float]s
    are exact rationals here. *)

From Stdlib Require Import List String Ascii Bool Arith NArith ZArith QArith Lia.
From Stdlib Require Import Lqa.
Import ListNotations.

Set Implicit Arguments.

(* ===================================================================== *)
(** ** Python strings *)
(* ===================================================================== *)

Module PyStr.

Definition pystr := list N.

(** Decoder used only to write the source's literals: a Rocq string holds
    the UTF-8 bytes of the literal, a Python [str] holds its code points. *)
Fixpoint utf8_decode (bs : list N) : pystr :=
  match bs with
  | [] => []
  | b0 :: t0 =>
    if (b0 <? 128)%N then b0 :: utf8_decode t0
    else
      match t0 with
      | [] => []
      | b1 :: t1 =>
        if (b0 <? 224)%N then
          ((b0 mod 32) * 64 + b1 mod 64)%N :: utf8_decode t1
        else
          match t1 with
          | [] => []
          | b2 :: t2 =>
            if (b0 <? 240)%N then
              (((b0 mod 16) * 64 + b1 mod 64) * 64 + b2 mod 64)%N
                :: utf8_decode t2
            else
              match t2 with
              | [] => []
              | b3 :: t3 =>
                ((((b0 mod 8) * 64 + b1 mod 64) * 64 + b2 mod 64) * 64
                  + b3 mod 64)%N :: utf8_decode t3
              end
          end
      end
  end.

Definition u (s : string) : pystr :=
  utf8_decode (map N_of_ascii (list_ascii_of_string s)).

Definition nl : pystr := [10%N].

Fixpoint eqb (a b : pystr) : bool :=
  match a, b with
  | [], [] => true
  | x :: a', y :: b' => (x =? y)%N && eqb a' b'
  | _, _ => false
  end.

(** [str.isspace] on one code point (the Unicode white-space characters). *)
Definition is_space (c : N) : bool :=
  ((9 <=? c) && (c <=? 13) || (28 <=? c) && (c <=? 32)
   || (c =? 133) || (c =? 160) || (c =? 5760)
   || (8192 <=? c) && (c <=? 8202)
   || (c =? 8232) || (c =? 8233) || (c =? 8239) || (c =? 8287)
   || (c =? 12288))%N.

Fixpoint lstrip (s : pystr) : pystr :=
  match s with
  | [] => []
  | c :: t => if is_space c then lstrip t else s
  end.

Definition rstrip (s : pystr) : pystr := rev (lstrip (rev s)).

Definition strip (s : pystr) : pystr := rstrip (lstrip s).

Fixpoint startswith (p s : pystr) : bool :=
  match p, s with
  | [], _ => true
  | a :: p', b :: s' => (a =? b)%N && startswith p' s'
  | _ :: _, [] => false
  end.

(** [needle in hay] *)
Fixpoint contains (needle hay : pystr) : bool :=
  startswith needle hay ||
  match hay with
  | [] => false
  | _ :: t => contains needle t
  end.

(** [sep.join(parts)] *)
Fixpoint join (sep : pystr) (parts : list pystr) : pystr :=
  match parts with
  | [] => []
  | [p] => p
  | p :: rest => p ++ sep ++ join sep rest
  end.

(** [any(k in s for k in keys)] *)
Definition any_in (keys : list pystr) (s : pystr) : bool :=
  existsb (fun k => contains k s) keys.

(** Truthiness of a string: [bool(s)]. *)
Definition nonempty (s : pystr) : bool :=
  match s with [] => false | _ => true end.

(** No string occurs twice. *)
Fixpoint nodupb (l : list pystr) : bool :=
  match l with
  | [] => true
  | x :: t => negb (existsb (eqb x) t) && nodupb t
  end.

(** The first entry under a key, in a list of named entries. *)
Fixpoint assoc {A} (k : pystr) (l : list (pystr * A)) : option A :=
  match l with
  | [] => None
  | (k', a) :: t => if eqb k' k then Some a else assoc k t
  end.

End PyStr.

Import PyStr.

(* ===================================================================== *)
(** ** Python values, dictionaries and exceptions *)
(* ===================================================================== *)

Module Py.

(** JSON-shaped values: what [json.loads], the store's JSONB metadata and
    a pydantic [.dict()] can hold. *)
#[warnings="-register-all"]
Inductive pyval :=
| VNone
| VBool (b : bool)
| VNum (q : Q)
| VStr (s : pystr)
| VList (l : list pyval)
| VDict (d : list (pystr * pyval)).

Definition dict := list (pystr * pyval).

(** [bool(v)] *)
Definition truthy (v : pyval) : bool :=
  match v with
  | VNone => false
  | VBool b => b
  | VNum q => negb (Qeq_bool q 0)
  | VStr s => nonempty s
  | VList l => match l with [] => false | _ => true end
  | VDict d => match d with [] => false | _ => true end
  end.

(** [v == s] for a string literal [s]. *)
Definition is_str (s : pystr) (v : pyval) : bool :=
  match v with
  | VStr t => eqb t s
  | _ => false
  end.

Fixpoint dict_get (k : pystr) (d : dict) : option pyval :=
  match d with
  | [] => None
  | (k', v) :: t => if eqb k' k then Some v else dict_get k t
  end.

(** [k in d] *)
Definition dict_has (k : pystr) (d : dict) : bool :=
  match dict_get k d with Some _ => true | None => false end.

(** [d[k] = v]: an existing key keeps its position, a new key goes last. *)
Fixpoint dict_set (k : pystr) (v : pyval) (d : dict) : dict :=
  match d with
  | [] => [(k, v)]
  | (k', v') :: t =>
    if eqb k' k then (k', v) :: t else (k', v') :: dict_set k v t
  end.

(** [d.get(k, default)] *)
Definition dict_get_or (k : pystr) (default : pyval) (d : dict) : pyval :=
  match dict_get k d with Some v => v | None => default end.

(** [d.get(k)] *)
Definition dict_get_none (k : pystr) (d : dict) : pyval :=
  dict_get_or k VNone d.

Inductive exn_class :=
| AttributeError | TypeError | ValueError | KeyError
| FileNotFoundError | JSONDecodeError | ValidationError
| HTTPException (status : nat)
| ServiceError.

Record pyexn := Exn { exn_cls : exn_class; exn_msg : pystr }.

(** A computation that returns or raises. *)
Definition result (A : Type) : Type := (pyexn + A)%type.

Definition ret {A} (a : A) : result A := inr a.
Definition raise {A} (e : pyexn) : result A := inl e.

Definition bind {A B} (c : result A) (k : A -> result B) : result B :=
  match c with
  | inl e => inl e
  | inr a => k a
  end.

(** [try: c  except Exception as e: h e] *)
Definition try_except {A} (c : result A) (h : pyexn -> A) : A :=
  match c with
  | inl e => h e
  | inr a => a
  end.

End Py.

Import Py.

Declare Scope py_scope.
Delimit Scope py_scope with py.
Notation "x <- c ;; k" := (bind c (fun x => k))
  (at level 61, c at next level, right associativity) : py_scope.
Open Scope py_scope.

(* ===================================================================== *)
(** ** models.py *)
(* ===================================================================== *)

Module Models.

(** [class MedicationInfo(BaseModel)]: fourteen [Optional[str]] fields. *)
Record MedicationInfo := {
  name : option pystr;
  active_ingredient : option pystr;
  strength : option pystr;
  form : option pystr;
  manufacturer : option pystr;
  registration_number : option pystr;
  atc_code : option pystr;
  indication : option pystr;
  contraindication : option pystr;
  side_effects : option pystr;
  interactions : option pystr;
  dosage : option pystr;
  price : option pystr;
  prescription_required : option pystr
}.

(** [class TextProcessingResult(BaseModel)] *)
Record TextProcessingResult := {
  answer : pystr;
  tp_sources : list pystr;
  confidence : pystr
}.

(** [class APIResponse(BaseModel)]; [error] and [disclaimer] default to
    the empty string, [data] to the empty dict. *)
Record APIResponse := {
  status : pystr;
  data : dict;
  api_error : pystr;
  api_disclaimer : pystr
}.

(** [Constants.MEDICAL_DISCLAIMER] *)
Definition MEDICAL_DISCLAIMER : pystr :=
  nl ++ u "    UPOZORNĚNÍ: Tyto informace slouží pouze pro informativní účely a nenahrazují "
  ++ nl ++ u "    odbornou lékařskou radu, diagnózu nebo léčbu. Vždy se poraďte s kvalifikovaným "
  ++ nl ++ u "    zdravotnickým odborníkem před užitím jakéhokoliv léku."
  ++ nl ++ u "    ".

End Models.

(* ===================================================================== *)
(** ** pandas tables *)
(* ===================================================================== *)

Module Pandas.

(** A cell of a [DataFrame]: missing (the [NaN] that [read_csv] leaves
    for an empty field, or [None]), a Python [str], or another scalar
    (int64, float64, bool), kept as the text [str(value)] gives, which is
    all the processor ever asks of it. *)
Inductive cell :=
| CNA
| CText (s : pystr)
| CScalar (repr : pystr).

Record DataFrame := {
  df_columns : list pystr;
  df_rows : list (list cell)
}.

(** [pd.notna(value)] *)
Definition notna (c : cell) : bool :=
  match c with CNA => false | _ => true end.

(** [str(value)]; [str(pd.NA)] is the text [<NA>]. *)
Definition str_of (c : cell) : pystr :=
  match c with
  | CNA => u "<NA>"
  | CText s => s
  | CScalar r => r
  end.

(** What [row.get(col, '')] hands back: the default, one scalar, or (for a
    label that occurs several times) a sub-[Series]. *)
Inductive lookup :=
| Default
| Scalar (c : cell)
| SubSeries (cs : list cell).

Fixpoint cells_at (cols : list pystr) (row : list cell) (col : pystr)
  : list cell :=
  match cols with
  | [] => []
  | c :: cols' =>
    let here := match row with [] => CNA | x :: _ => x end in
    let rest := cells_at cols' (tl row) col in
    if eqb c col then here :: rest else rest
  end.

Definition row_get (cols : list pystr) (row : list cell) (col : pystr)
  : lookup :=
  match cells_at cols row col with
  | [] => Default
  | [c] => Scalar c
  | cs => SubSeries cs
  end.

(** The keyword parameters [pandas.read_csv] declares (pandas 1.3 to 2.x);
    its signature has no [**kwargs], so any other keyword is a
    [TypeError] raised before the file is opened. *)
Definition read_csv_params : list pystr :=
  map u [ "sep"; "delimiter"; "header"; "names"; "index_col"; "usecols";
          "squeeze"; "prefix"; "mangle_dupe_cols"; "dtype"; "engine";
          "converters"; "true_values"; "false_values"; "skipinitialspace";
          "skiprows"; "skipfooter"; "nrows"; "na_values"; "keep_default_na";
          "na_filter"; "verbose"; "skip_blank_lines"; "parse_dates";
          "infer_datetime_format"; "keep_date_col"; "date_parser";
          "date_format"; "dayfirst"; "cache_dates"; "iterator"; "chunksize";
          "compression"; "thousands"; "decimal"; "lineterminator";
          "quotechar"; "quoting"; "doublequote"; "escapechar"; "comment";
          "encoding"; "encoding_errors"; "dialect"; "error_bad_lines";
          "warn_bad_lines"; "on_bad_lines"; "delim_whitespace";
          "low_memory"; "memory_map"; "float_precision";
          "storage_options"; "dtype_backend" ]%string.

End Pandas.

Import Pandas.

(* ===================================================================== *)
(** ** The outside world *)
(* ===================================================================== *)

(** Everything the backend reaches through a library or over the network.
    A field returning [result] may raise. *)
Record World := {
  (* config.py: [settings.medical_disclaimer], [settings.max_image_size_mb] *)
  medical_disclaimer : pystr;
  max_image_size_mb : N;
  (* str.lower / str.upper (Unicode case mapping of the runtime) *)
  lower : pystr -> pystr;
  upper : pystr -> pystr;
  (* str(value) for numbers and containers *)
  repr_of : pyval -> pystr;
  (* os.path.exists *)
  os_path_exists : pystr -> bool;
  (* open(path,'rb').read(100000) and chardet.detect: encoding, confidence *)
  chardet_detect : pystr -> result (option pystr * Q);
  (* the parser behind pandas.read_csv: path, encoding, separator *)
  pd_parse : pystr -> pystr -> pystr -> result DataFrame;
  (* MedicationVectorStore(): None when the constructor returns *)
  store_init : option pyexn;
  (* embed_query + client.rpc(match_medications).execute(): the rows *)
  rpc_match : pystr -> nat -> result (list dict);
  (* OpenAI(api_key=...) in VisionProcessor.__init__ *)
  vision_init : option pyexn;
  (* base64.b64decode + PIL: decoded length, image.format.lower(), and the
     base64 of the JPEG re-encoding *)
  image_probe : pystr -> result (N * pystr * pystr);
  (* client.chat.completions.create(...).choices[0].message.content *)
  vision_chat : pystr -> result pystr;
  (* json.loads on the stripped text: None is JSONDecodeError *)
  json_loads : pystr -> option pyval;
  (* pydantic's coercion of a non-str, non-None value into a [str] field *)
  coerce_str : pyval -> option pystr;
  (* names that hasattr finds on a BaseModel instance besides its fields *)
  model_attr : pystr -> bool;
  (* ChatOpenAI(...) in TextProcessor.__init__ *)
  llm_init : option pyexn;
  (* _create_retrieval_chain() and qa_chain.run(query), with the callback *)
  qa_chain_run : pystr -> result pystr
}.

(** Raise what a constructor raised, if it did. *)
Definition construct (r : option pyexn) : result unit :=
  match r with
  | Some e => raise e
  | None => ret tt
  end.

(** [str(v)] inside an f-string. *)
Definition py_str (w : World) (v : pyval) : pystr :=
  match v with
  | VStr s => s
  | VNone => u "None"
  | VBool true => u "True"
  | VBool false => u "False"
  | _ => repr_of w v
  end.

(* ===================================================================== *)
(** ** data/sukl_processor.py *)
(* ===================================================================== *)

Module SuklProcessor.

Import Models.

(** [self.encoding], [self.supported_encodings] *)
Definition encoding : pystr := u "windows-1250".
Definition supported_encodings : list pystr :=
  map u ["windows-1250"; "utf-8"; "iso-8859-2"; "cp1252"]%string.

(** [pd.read_csv(file_path, **kwargs)]: an undeclared keyword is rejected,
    otherwise the file is parsed with the given encoding and separator. *)
Definition read_csv (w : World) (file_path : pystr)
    (kwargs : list (pystr * pyval)) : result DataFrame :=
  match find (fun kw => negb (existsb (eqb (fst kw)) read_csv_params)) kwargs
  with
  | Some (k, _) =>
    raise (Exn TypeError
      (u "read_csv() got an unexpected keyword argument '" ++ k ++ u "'"))
  | None =>
    pd_parse w file_path
      (py_str w (dict_get_or (u "encoding") VNone kwargs))
      (py_str w (dict_get_or (u "sep") (VStr (u ",")) kwargs))
  end.

(** [_detect_encoding] *)
Definition _detect_encoding (w : World) (file_path : pystr) : option pystr :=
  try_except
    (r <- chardet_detect w file_path ;;
     let '(enc, conf) := r in
     ret (if Qlt_le_dec (8 # 10) conf then enc else None))
    (fun _ => None).

(** The values [_clean_czech_text] turns into [pd.NA]. *)
Definition null_literals : list pystr :=
  map u [""; "nan"; "NaN"; "null"; "NULL"]%string.

(** One cell of an object column: [astype(str).str.strip()] then
    [replace([...], pd.NA)]; [astype(str)] prints a missing value as an
    entry of the replaced list. *)
Definition clean_cell (c : cell) : cell :=
  match c with
  | CNA => CNA
  | _ =>
    let s := strip (str_of c) in
    if existsb (eqb s) null_literals then CNA else CText s
  end.

(** [select_dtypes(include=['object'])]: in a parsed table column [i] has
    dtype [object] exactly when it holds a [str]. *)
Definition is_object_column (rows : list (list cell)) (i : nat) : bool :=
  existsb (fun row => match nth i row CNA with CText _ => true | _ => false end)
    rows.

Fixpoint clean_row (rows : list (list cell)) (i : nat) (row : list cell)
  : list cell :=
  match row with
  | [] => []
  | c :: t =>
    (if is_object_column rows i then clean_cell c else c)
      :: clean_row rows (S i) t
  end.

(** [_clean_czech_text]: clean the text columns, then [dropna(how='all')]. *)
Definition _clean_czech_text (df : DataFrame) : DataFrame :=
  let rows := map (clean_row (df_rows df) 0) (df_rows df) in
  {| df_columns := df_columns df;
     df_rows := filter (fun row => existsb notna row) rows |}.

(** One [(encoding, separator)] attempt of the retry loop: [Some] is the
    [return] inside the [try], [None] is falling through or [continue]. *)
Definition try_pair (w : World) (file_path enc sep : pystr)
  : option DataFrame :=
  try_except
    (df <- read_csv w file_path
             [(u "encoding", VStr enc); (u "sep", VStr sep);
              (u "low_memory", VBool false)] ;;
     ret (if 5 <? List.length (df_columns df)
          then Some (_clean_czech_text df) else None))
    (fun _ => None).

Definition separators : list pystr := [u ","; u ";"; [9%N]].

Fixpoint try_separators (w : World) (file_path enc : pystr)
    (seps : list pystr) : option DataFrame :=
  match seps with
  | [] => None
  | sep :: rest =>
    match try_pair w file_path enc sep with
    | Some df => Some df
    | None => try_separators w file_path enc rest
    end
  end.

Fixpoint try_encodings (w : World) (file_path : pystr)
    (encs : list (option pystr)) : option DataFrame :=
  match encs with
  | [] => None
  | None :: rest => try_encodings w file_path rest
  | Some enc :: rest =>
    match try_separators w file_path enc separators with
    | Some df => Some df
    | None => try_encodings w file_path rest
    end
  end.

(** [load_sukl_csv] *)
Definition load_sukl_csv (w : World) (file_path : pystr) : result DataFrame :=
  if negb (os_path_exists w file_path) then
    raise (Exn FileNotFoundError
             (u "SÚKL CSV soubor nenalezen: " ++ file_path))
  else
    let detected_encoding := _detect_encoding w file_path in
    match try_encodings w file_path
            (detected_encoding :: map Some supported_encodings) with
    | Some df => ret df
    | None =>
      (* Fallback s ignore errory *)
      match
        (df <- read_csv w file_path
                 [(u "encoding", VStr encoding); (u "sep", VStr (u ";"));
                  (u "errors", VStr (u "ignore"));
                  (u "low_memory", VBool false)] ;;
         ret (_clean_czech_text df))
      with
      | inr df => ret df
      | inl e =>
        raise (Exn ValueError
                 (u "Nepodařilo se načíst SÚKL data: " ++ exn_msg e))
      end
    end.

(** [column_mapping]: our field name, then the column names it may have. *)
Definition column_mapping : list (pystr * list pystr) :=
  map (fun p => (u (fst p), map u (snd p)))
  [ ("name", ["NAZEV"; "nazev"; "název"]);
    ("active_ingredient", ["UCINNE_LATKY"; "ucinne_latky"; "účinné_látky"]);
    ("strength", ["SILA"; "sila"; "síla"]);
    ("form", ["LEKOVA_FORMA"; "lekova_forma"; "léková_forma"; "FORMA"]);
    ("manufacturer",
       ["DRZITEL_ROZHODNUTI"; "drzitel_rozhodnuti"; "držitel_rozhodnutí"; "DRZ"]);
    ("registration_number",
       ["REGISTRACNI_CISLO"; "registracni_cislo"; "registrační_číslo"; "REG"]);
    ("atc_code", ["ATC_KOD"; "atc_kod"; "atc_kód"; "ATC_WHO"]);
    ("indication", ["INDIKACE"; "indikace"]);
    ("contraindication", ["KONTRAINDIKACE"; "kontraindikace"]);
    ("side_effects",
       ["NEZADOUCI_UCINKY"; "nezadouci_ucinky"; "nežádoucí_účinky"]);
    ("interactions", ["INTERAKCE"; "interakce"]);
    ("dosage", ["DAVKOVANI"; "davkovani"; "dávkování"]);
    ("price", ["CENA"; "cena"]);
    ("prescription_required", ["PREDPISOVOST"; "predpisovost"; "VYDEJ"]);
    ("packaging", ["BALENI"]);
    ("route", ["CESTA"]);
    ("supplement", ["DOPLNEK"]);
    ("container", ["OBAL"]);
    ("code", ["KOD_SUKL"]);
    ("human", ["H"]);
    ("expiration", ["V_PLATDO"]);
    ("unlimited", ["NEOMEZ"]);
    ("ean", ["EAN"]) ]%string.

(** The inner [for col in possible_cols: if col in available_columns: ...;
    break]. *)
Fixpoint first_available (available possible_cols : list pystr)
  : option pystr :=
  match possible_cols with
  | [] => None
  | col :: rest =>
    if existsb (eqb col) available then Some col
    else first_available available rest
  end.

(** [actual_mapping] *)
Fixpoint build_mapping (available : list pystr)
    (mapping : list (pystr * list pystr)) : list (pystr * pystr) :=
  match mapping with
  | [] => []
  | (our_field, possible_cols) :: rest =>
    match first_available available possible_cols with
    | Some col => (our_field, col) :: build_mapping available rest
    | None => build_mapping available rest
    end
  end.

Definition actual_mapping (df : DataFrame) : list (pystr * pystr) :=
  build_mapping (df_columns df) column_mapping.

(** [med_data]: field name to text or [None]. *)
Definition med_dict := list (pystr * option pystr).

Fixpoint med_get (k : pystr) (d : med_dict) : option pystr :=
  match d with
  | [] => None
  | (k', v) :: t => if eqb k' k then v else med_get k t
  end.

(** The conversion of one looked-up value.  [pd.notna] of a sub-Series is
    an array, whose truth value is ambiguous: [ValueError]. *)
Definition convert_value (v : lookup) : result (option pystr) :=
  match v with
  | Default => ret None   (* pd.notna('') and ''.strip() is falsy *)
  | Scalar c =>
    if notna c && nonempty (strip (str_of c))
    then ret (Some (strip (str_of c)))
    else ret None
  | SubSeries _ =>
    raise (Exn ValueError (u "The truth value of a Series is ambiguous."))
  end.

(** [for our_field, sukl_col in actual_mapping.items(): med_data[...] = ...] *)
Fixpoint build_med_data (cols : list pystr) (row : list cell)
    (mapping : list (pystr * pystr)) : result med_dict :=
  match mapping with
  | [] => ret []
  | (our_field, sukl_col) :: rest =>
    v <- convert_value (row_get cols row sukl_col) ;;
    d <- build_med_data cols row rest ;;
    ret ((our_field, v) :: d)
  end.

(** [bool(med_data.get(k))] *)
Definition med_truthy (k : pystr) (d : med_dict) : bool :=
  match med_get k d with
  | Some s => nonempty s
  | None => false
  end.

(** [MedicationInfo] built from [med_data]'s items as keyword arguments:
    the declared fields are read by name,
    the other keys are ignored. *)
Definition MedicationInfo_of (d : med_dict) : MedicationInfo :=
  {| name := med_get (u "name") d;
     active_ingredient := med_get (u "active_ingredient") d;
     strength := med_get (u "strength") d;
     form := med_get (u "form") d;
     manufacturer := med_get (u "manufacturer") d;
     registration_number := med_get (u "registration_number") d;
     atc_code := med_get (u "atc_code") d;
     indication := med_get (u "indication") d;
     contraindication := med_get (u "contraindication") d;
     side_effects := med_get (u "side_effects") d;
     interactions := med_get (u "interactions") d;
     dosage := med_get (u "dosage") d;
     price := med_get (u "price") d;
     prescription_required := med_get (u "prescription_required") d |}.

(** The body of the row loop: [Some] appends a record, [None] is one of
    the two [continue]s or the [except] branch. *)
Definition extract_row (cols : list pystr) (mapping : list (pystr * pystr))
    (row : list cell) : option MedicationInfo :=
  try_except
    (med_data <- build_med_data cols row mapping ;;
     if negb (med_truthy (u "name") med_data) then ret None
     else if negb (med_truthy (u "active_ingredient") med_data)
             && negb (med_truthy (u "atc_code") med_data) then ret None
     else ret (Some (MedicationInfo_of med_data)))
    (fun _ => None).

Fixpoint extract_rows (cols : list pystr) (mapping : list (pystr * pystr))
    (rows : list (list cell)) : list MedicationInfo :=
  match rows with
  | [] => []
  | row :: rest =>
    match extract_row cols mapping row with
    | Some m => m :: extract_rows cols mapping rest
    | None => extract_rows cols mapping rest
    end
  end.

(** [extract_medication_info] *)
Definition extract_medication_info (df : DataFrame) : list MedicationInfo :=
  extract_rows (df_columns df) (actual_mapping df) (df_rows df).

(** [if med.field:] on an [Optional[str]] *)
Definition has (f : option pystr) : bool :=
  match f with
  | Some s => nonempty s
  | None => false
  end.

Definition text_of (f : option pystr) : pystr :=
  match f with Some s => s | None => [] end.

(** [text_parts.append(f"{label}: {value}")] under [if value:] *)
Definition append_if (f : option pystr) (label : string)
    (text_parts : list pystr) : list pystr :=
  if has f then text_parts ++ [u label ++ u ": " ++ text_of f]
  else text_parts.

Record Document := {
  content : pystr;
  metadata : list (pystr * option pystr)
}.

(** The body of the loop of [create_embedding_texts]. *)
Definition embedding_document (med : MedicationInfo) : Document :=
  let text_parts := [] in
  let text_parts := append_if (name med) "Název" text_parts in
  let text_parts :=
    if has (active_ingredient med)
    then text_parts ++ [u "Účinná látka: " ++ text_of (active_ingredient med)]
    else if has (atc_code med)
    then text_parts ++ [u "ATC kód: " ++ text_of (atc_code med)]
    else text_parts in
  let text_parts := append_if (strength med) "Síla" text_parts in
  let text_parts := append_if (form med) "Léková forma" text_parts in
  let text_parts := append_if (manufacturer med) "Výrobce" text_parts in
  let text_parts := append_if (indication med) "Indikace" text_parts in
  let text_parts :=
    append_if (contraindication med) "Kontraindikace" text_parts in
  let text_parts :=
    append_if (side_effects med) "Nežádoucí účinky" text_parts in
  let text_parts := append_if (interactions med) "Interakce" text_parts in
  let text_parts := append_if (dosage med) "Dávkování" text_parts in
  {| content := join nl text_parts;
     metadata :=
       [ (u "name", name med);
         (u "active_ingredient", active_ingredient med);
         (u "registration_number", registration_number med);
         (u "atc_code", atc_code med);
         (u "prescription_required", prescription_required med) ] |}.

(** [create_embedding_texts] *)
Definition create_embedding_texts (medications : list MedicationInfo)
  : list Document :=
  map embedding_document medications.

End SuklProcessor.

(* ===================================================================== *)
(** ** database/vector_store.py *)
(* ===================================================================== *)

(** The marker the vision prompt asks for when a text is not legible. *)
Definition placeholder : pystr := u "není viditelné".

(** A value used as a number ([bool] is a subclass of [int]); [None] when
    arithmetic or ordering on it raises [TypeError]. *)
Definition as_number (v : pyval) : option Q :=
  match v with
  | VNum q => Some q
  | VBool true => Some 1
  | VBool false => Some 0
  | _ => None
  end.

(** The two exceptions the interpreter raises on a value of the wrong
    type; their messages are kept short (Python's start with the name of
    the offending type). *)
Definition type_error : pyexn :=
  Exn TypeError (u "unsupported operand type(s)").

Definition no_attribute (attr : string) : pyexn :=
  Exn AttributeError (u "object has no attribute '" ++ u attr ++ u "'").

(** [max(0.0, x)] *)
Definition max0 (x : Q) : Q := if Qlt_le_dec 0 x then x else 0.

(** A penalty step [max(0.0, confidence - p)]. *)
Definition penalize (confidence : pyval) (p : Q) : result pyval :=
  match as_number confidence with
  | Some c => ret (VNum (max0 (c - p)))
  | None => raise type_error
  end.

Module VectorStore.

(** The loop of [_direct_similarity_search] over [rpc_result.data]. *)
Fixpoint keep_similar (similarity_threshold : Q) (rows : list dict)
  : result (list dict) :=
  match rows with
  | [] => ret []
  | row :: rest =>
    let similarity := dict_get_or (u "similarity") (VNum 0) row in
    match as_number similarity with
    | None => raise type_error
    | Some s =>
      if Qle_bool similarity_threshold s then
        results <- keep_similar similarity_threshold rest ;;
        ret ([ (u "id", dict_get_none (u "id") row);
               (u "content", dict_get_or (u "content") (VStr []) row);
               (u "metadata", dict_get_or (u "metadata") (VDict []) row);
               (u "similarity", similarity) ] :: results)
      else keep_similar similarity_threshold rest
    end
  end.

(** [_direct_similarity_search] (always called with [filters=None]) *)
Definition _direct_similarity_search (w : World) (query : pystr)
    (limit : nat) (similarity_threshold : Q) : list dict :=
  try_except
    (data <- rpc_match w query limit ;;
     match data with
     | [] => ret []
     | _ => keep_similar similarity_threshold data
     end)
    (fun _ => []).

(** [search_medications] *)
Definition search_medications (w : World) (query : pystr) (limit : nat)
    (similarity_threshold : Q) : list dict :=
  if negb (nonempty (strip query)) then []
  else _direct_similarity_search w query limit similarity_threshold.

(** [result["metadata"]] of a search result *)
Definition metadata_of (match_ : dict) : pyval :=
  dict_get_or (u "metadata") VNone match_.

(** [for key, value in best_metadata.items(): if key not in vision_result
    or vision_result[key] == "není viditelné": vision_result[key] = value] *)
Fixpoint backfill (items : dict) (vision_result : dict) : dict :=
  match items with
  | [] => vision_result
  | (key, value) :: rest =>
    backfill rest
      (match dict_get key vision_result with
       | None => dict_set key value vision_result
       | Some old =>
         if is_str placeholder old then dict_set key value vision_result
         else vision_result
       end)
  end.

(** [validate_medication_info] *)
Definition validate_medication_info (w : World) (vision_result : dict)
  : result dict :=
  let name := dict_get_none (u "name") vision_result in
  if negb (truthy name) || is_str placeholder name then ret vision_result
  else
    match name with
    | VStr name_text =>
      search_query <-
        (if negb (is_str placeholder
                    (dict_get_or (u "active_ingredient") (VStr []) vision_result))
         then
           match dict_get (u "active_ingredient") vision_result with
           | None => raise (Exn KeyError (u "'active_ingredient'"))
           | Some ai => ret (name_text ++ u " " ++ py_str w ai)
           end
         else ret name_text) ;;
      let matches := search_medications w search_query 3 (6 # 10) in
      match matches with
      | best_match :: _ =>
        let vision_result :=
          dict_set (u "sukl_matches") (VList (map metadata_of matches))
            vision_result in
        let vision_result :=
          dict_set (u "validated") (VBool true) vision_result in
        match metadata_of best_match with
        | VDict best_metadata => ret (backfill best_metadata vision_result)
        | _ => raise (no_attribute "items")
        end
      | [] =>
        let vision_result :=
          dict_set (u "validated") (VBool false) vision_result in
        ret (dict_set (u "warning")
               (VStr (u "Lék nebyl nalezen v databázi SÚKL. Ověřte správnost informací."))
               vision_result)
      end
    | _ =>
      (* a truthy name that is no str: [+=] or [query.strip()] raises *)
      raise type_error
    end.

End VectorStore.

(* ===================================================================== *)
(** ** ai/vision_processor.py *)
(* ===================================================================== *)

Module VisionProcessor.

(** [class VisionResult(BaseModel)] (models.py).  Attributes hold Python
    values: assignment is not validated, so a field declared [str] can
    later receive anything. *)
Record VisionResult := {
  name : pyval;
  active_ingredient : pyval;
  strength : pyval;
  form : pyval;
  manufacturer : pyval;
  registration_number : pyval;
  confidence_score : pyval;
  warning : pyval;
  validated : pyval;
  sukl_matches : pyval
}.

(** [vision_result.dict()] *)
Definition to_dict (v : VisionResult) : dict :=
  [ (u "name", name v);
    (u "active_ingredient", active_ingredient v);
    (u "strength", strength v);
    (u "form", form v);
    (u "manufacturer", manufacturer v);
    (u "registration_number", registration_number v);
    (u "confidence_score", confidence_score v);
    (u "warning", warning v);
    (u "validated", validated v);
    (u "sukl_matches", sukl_matches v) ].

Definition validation_error (field : pystr) : pyexn :=
  Exn ValidationError (u "validation error for VisionResult: " ++ field).

(** Validation of a [str] field: a [str] is kept, a missing key takes the
    default, [None] is refused, anything else is up to pydantic's
    coercion. *)
Definition str_field (w : World) (key : pystr) (default : option pyval)
    (d : dict) : result pyval :=
  match dict_get key d with
  | None =>
    match default with
    | Some v => ret v
    | None => raise (validation_error key)
    end
  | Some (VStr s) => ret (VStr s)
  | Some VNone => raise (validation_error key)
  | Some v =>
    match coerce_str w v with
    | Some s => ret (VStr s)
    | None => raise (validation_error key)
    end
  end.

(** [Optional[str]] *)
Definition opt_str_field (w : World) (key : pystr) (d : dict)
  : result pyval :=
  match dict_get key d with
  | None | Some VNone => ret VNone
  | Some (VStr s) => ret (VStr s)
  | Some v =>
    match coerce_str w v with
    | Some s => ret (VStr s)
    | None => raise (validation_error key)
    end
  end.

(** [float] with [ge=0.0, le=1.0], required. *)
Definition score_field (key : pystr) (d : dict) : result pyval :=
  match dict_get key d with
  | Some v =>
    match as_number v with
    | Some q =>
      if Qle_bool 0 q && Qle_bool q 1 then ret (VNum q)
      else raise (validation_error key)
    | None => raise (validation_error key)
    end
  | None => raise (validation_error key)
  end.

(** [Optional[bool]] *)
Definition opt_bool_field (key : pystr) (d : dict) : result pyval :=
  match dict_get key d with
  | None | Some VNone => ret VNone
  | Some (VBool b) => ret (VBool b)
  | Some _ => raise (validation_error key)
  end.

(** [Optional[List[Dict[str, Any]]]] *)
Definition opt_matches_field (key : pystr) (d : dict) : result pyval :=
  match dict_get key d with
  | None | Some VNone => ret VNone
  | Some (VList l) =>
    if forallb (fun x => match x with VDict _ => true | _ => false end) l
    then ret (VList l)
    else raise (validation_error key)
  | Some _ => raise (validation_error key)
  end.

(** The constructor called with a dict's items as keyword arguments;
    keys that are no field are ignored. *)
Definition VisionResult_of (w : World) (d : dict) : result VisionResult :=
  n <- str_field w (u "name") None d ;;
  ai <- str_field w (u "active_ingredient") (Some (VStr placeholder)) d ;;
  st <- str_field w (u "strength") (Some (VStr placeholder)) d ;;
  fo <- str_field w (u "form") (Some (VStr placeholder)) d ;;
  ma <- str_field w (u "manufacturer") (Some (VStr placeholder)) d ;;
  rn <- str_field w (u "registration_number") (Some (VStr placeholder)) d ;;
  cs <- score_field (u "confidence_score") d ;;
  wa <- opt_str_field w (u "warning") d ;;
  va <- opt_bool_field (u "validated") d ;;
  sm <- opt_matches_field (u "sukl_matches") d ;;
  ret {| name := n; active_ingredient := ai; strength := st; form := fo;
         manufacturer := ma; registration_number := rn;
         confidence_score := cs; warning := wa; validated := va;
         sukl_matches := sm |}.

(** [_preprocess_image] *)
Definition _preprocess_image (w : World) (image_data : pystr)
  : result pystr :=
  match
    (if startswith (u "data:image") image_data then ret image_data
     else if startswith (u "/9j/") image_data
             || startswith (u "iVBORw0KGgo") image_data then
       probe <- image_probe w image_data ;;
       let '(size, format_type, reencoded) := probe in
       if (max_image_size_mb w * 1024 * 1024 <? size)%N then
         raise (Exn ValueError (u "Obrázek je příliš velký"))
       else if eqb format_type (u "jpeg") then
         ret (u "data:image/jpeg;base64," ++ image_data)
       else if eqb format_type (u "png") then
         ret (u "data:image/png;base64," ++ image_data)
       else ret (u "data:image/jpeg;base64," ++ reencoded)
     else raise (Exn ValueError (u "Nerozpoznaný formát obrázku")))
  with
  | inr url => ret url
  | inl e =>
    raise (Exn ValueError (u "Nepodařilo se zpracovat obrázek: " ++ exn_msg e))
  end.

(** [_parse_vision_response] *)
Definition _parse_vision_response (w : World) (response_text : pystr)
  : result dict :=
  match json_loads w (strip response_text) with
  | Some (VDict result) =>
    let result :=
      if dict_has (u "name") result then result
      else dict_set (u "name") (VStr placeholder) result in
    let result :=
      if dict_has (u "confidence_score") result then result
      else dict_set (u "confidence_score") (VNum 0) result in
    ret result
  | Some _ =>
    (* valid JSON that is no object: the membership test or the item
       assignment raises, and not a JSONDecodeError *)
    raise type_error
  | None =>
    let result :=
      [ (u "name", VStr placeholder);
        (u "active_ingredient", VStr placeholder);
        (u "strength", VStr placeholder);
        (u "form", VStr placeholder);
        (u "manufacturer", VStr placeholder);
        (u "registration_number", VStr placeholder);
        (u "confidence_score", VNum (3 # 10));
        (u "extracted_text", VStr response_text) ] in
    let text_lower := lower w response_text in
    if any_in [u "paralen"; u "brufen"; u "aspirin"] text_lower
    then ret (dict_set (u "confidence_score") (VNum (5 # 10)) result)
    else ret result
  end.

(** Nearest integer, ties to the even one. *)
Definition round_half_even (q : Q) : Z :=
  let n := Qnum q in
  let d := Z.pos (Qden q) in
  let fl := (n / d)%Z in
  match (2 * (n mod d) ?= d)%Z with
  | Lt => fl
  | Gt => (fl + 1)%Z
  | Eq => if Z.even fl then fl else (fl + 1)%Z
  end.

(** [round(x, 2)] *)
Definition round2 (x : Q) : Q := round_half_even (x * 100) # 100.

(** [not v or v == "není viditelné"] *)
Definition missing (v : pyval) : bool :=
  negb (truthy v) || is_str placeholder v.

(** [_validate_recognition_quality] *)
Definition _validate_recognition_quality (result_data : dict)
  : result dict :=
  let confidence := dict_get_or (u "confidence_score") (VNum 0) result_data in
  let name := dict_get_or (u "name") (VStr []) result_data in
  let active_ingredient :=
    dict_get_or (u "active_ingredient") (VStr []) result_data in
  st <- (if missing name then
           confidence <- penalize confidence (3 # 10) ;;
           ret (confidence,
                dict_set (u "warning")
                  (VStr (u "Nepodařilo se rozpoznat název léku")) result_data)
         else ret (confidence, result_data)) ;;
  let '(confidence, result_data) := st in
  confidence <- (if missing active_ingredient
                 then penalize confidence (2 # 10)
                 else ret confidence) ;;
  match as_number confidence with
  | None => raise type_error
  | Some c =>
    let result_data :=
      if Qlt_le_dec c (4 # 10) then
        dict_set (u "warning")
          (VStr (u "Velmi nízká spolehlivost rozpoznání. Zkuste obrázek s lepším osvětlením nebo z jiného úhlu."))
          result_data
      else if Qlt_le_dec c (6 # 10) then
        dict_set (u "warning")
          (VStr (u "Nízká spolehlivost rozpoznání. Doporučujeme ověřit informace."))
          result_data
      else if Qlt_le_dec c (8 # 10) then
        dict_set (u "warning")
          (VStr (u "Střední spolehlivost rozpoznání. Zkontrolujte správnost údajů."))
          result_data
      else result_data in
    ret (dict_set (u "confidence_score") (VNum (round2 c)) result_data)
  end.

(** [process_medication_image] *)
Definition process_medication_image (w : World) (image_data : pystr)
  : VisionResult :=
  try_except
    (processed_image <- _preprocess_image w image_data ;;
     content <- vision_chat w processed_image ;;
     result_data <- _parse_vision_response w content ;;
     result_data <- _validate_recognition_quality result_data ;;
     VisionResult_of w result_data)
    (fun e =>
       {| name := VStr (u "Chyba při rozpoznání");
          active_ingredient := VStr placeholder;
          strength := VStr placeholder;
          form := VStr placeholder;
          manufacturer := VStr placeholder;
          registration_number := VStr placeholder;
          confidence_score := VNum 0;
          warning :=
            VStr (u "Nepodařilo se rozpoznat lék z obrázku: " ++ exn_msg e);
          validated := VNone;
          sukl_matches := VNone |}).

(** The ten declared fields, by name. *)
Definition set_field (key : pystr) (value : pyval) (v : VisionResult)
  : option VisionResult :=
  let 'Build_VisionResult n ai st fo ma rn cs wa va sm := v in
  if eqb key (u "name") then
    Some (Build_VisionResult value ai st fo ma rn cs wa va sm)
  else if eqb key (u "active_ingredient") then
    Some (Build_VisionResult n value st fo ma rn cs wa va sm)
  else if eqb key (u "strength") then
    Some (Build_VisionResult n ai value fo ma rn cs wa va sm)
  else if eqb key (u "form") then
    Some (Build_VisionResult n ai st value ma rn cs wa va sm)
  else if eqb key (u "manufacturer") then
    Some (Build_VisionResult n ai st fo value rn cs wa va sm)
  else if eqb key (u "registration_number") then
    Some (Build_VisionResult n ai st fo ma value cs wa va sm)
  else if eqb key (u "confidence_score") then
    Some (Build_VisionResult n ai st fo ma rn value wa va sm)
  else if eqb key (u "warning") then
    Some (Build_VisionResult n ai st fo ma rn cs value va sm)
  else if eqb key (u "validated") then
    Some (Build_VisionResult n ai st fo ma rn cs wa value sm)
  else if eqb key (u "sukl_matches") then
    Some (Build_VisionResult n ai st fo ma rn cs wa va value)
  else None.

(** [for key, value in validation_result.items(): if hasattr(vision_result,
    key): setattr(vision_result, key, value)].  The object is updated in
    place, so what was assigned before a failing [setattr] stays. *)
Fixpoint update_attrs (w : World) (items : dict) (v : VisionResult)
  : VisionResult * option pyexn :=
  match items with
  | [] => (v, None)
  | (key, value) :: rest =>
    match set_field key value v with
    | Some v' => update_attrs w rest v'
    | None =>
      if model_attr w key then
        (* hasattr holds for a method name, and pydantic's __setattr__
           refuses what is not a field *)
        (v, Some (Exn ValueError (u "object has no field " ++ key)))
      else update_attrs w rest v
    end
  end.

(** What a caller may pass where a [VisionResult] is expected. *)
Inductive pyobj :=
| OVal (v : pyval)
| OVision (r : VisionResult).

Definition with_warning (value : pyval) (v : VisionResult) : VisionResult :=
  let 'Build_VisionResult n ai st fo ma rn cs _ va sm := v in
  Build_VisionResult n ai st fo ma rn cs value va sm.

(** [validate_against_sukl]; the first test reads [vision_result.name]
    outside the [try]. *)
Definition validate_against_sukl (w : World) (vision_result : pyobj)
  : result VisionResult :=
  match vision_result with
  | OVal _ => raise (no_attribute "name")
  | OVision v =>
    if missing (name v) then ret v
    else
      match VectorStore.validate_medication_info w (to_dict v) with
      | inr validation_result =>
        match update_attrs w validation_result v with
        | (v', None) => ret v'
        | (v', Some _) =>
          ret (with_warning
                 (VStr (u "Nepodařilo se ověřit informace v databázi SÚKL")) v')
        end
      | inl _ =>
        ret (with_warning
               (VStr (u "Nepodařilo se ověřit informace v databázi SÚKL")) v)
      end
  end.

End VisionProcessor.

(* ===================================================================== *)
(** ** ai/text_processor.py *)
(* ===================================================================== *)

Module TextProcessor.

Import Models.

(** [_preprocess_query] *)
Definition _preprocess_query (w : World) (query : pystr) : pystr :=
  let processed := strip query in
  let query_lower := lower w processed in
  if any_in [u "co je"; u "jaký je"; u "co to je"] query_lower then
    u "Informace o léku: " ++ processed
  else if contains (u "účinná látka") query_lower
          || contains (u "obsahuje") query_lower then
    u "Účinná látka léku: " ++ processed
  else if any_in [u "dávkování"; u "kolik"; u "jak často"] query_lower then
    u "Dávkování léku: " ++ processed
  else if contains (u "interakce") query_lower
          || contains (u "užívat s") query_lower then
    u "Lékové interakce: " ++ processed
  else processed.

(** [_get_source_documents]: the metadata of the top-5 matches. *)
Definition _get_source_documents (w : World) (query : pystr) : list pyval :=
  map VectorStore.metadata_of
    (VectorStore.search_medications w query 5 (6 # 10)).

Definition positive_indicators : list pystr :=
  map u ["účinná látka"; "indikace"; "dávkování"; "síla"; "tablety";
         "mg"; "ml"]%string.

(** [sum(1 for indicator in positive_indicators if indicator in
    response_lower)] *)
Definition found_indicators (response_lower : pystr) : nat :=
  List.length
    (filter (fun indicator => contains indicator response_lower)
       positive_indicators).

(** [_assess_response_confidence] *)
Definition _assess_response_confidence (w : World) (response : pystr)
    (sources : list pyval) : pystr :=
  if List.length (strip response) <? 50 then u "low"
  else
    match sources with
    | [] => u "low"
    | _ =>
      if List.length sources <? 2 then u "medium"
      else
        let response_lower := lower w response in
        let found := found_indicators response_lower in
        if 4 <=? found then u "high"
        else if 2 <=? found then u "medium"
        else u "low"
    end.

(** [_add_medical_disclaimers] *)
Definition _add_medical_disclaimers (w : World) (answer : pystr) : pystr :=
  let disclaimer := medical_disclaimer w in
  strip answer ++ nl ++ nl ++ u "---" ++ nl ++ strip disclaimer.

(** [[source.get("name", "Neznámý zdroj") for source in sources]] checked
    against [List[str]] by the result model. *)
Fixpoint source_names (w : World) (sources : list pyval)
  : result (list pystr) :=
  match sources with
  | [] => ret []
  | VDict source :: rest =>
    match dict_get_or (u "name") (VStr (u "Neznámý zdroj")) source with
    | VStr s => names <- source_names w rest ;; ret (s :: names)
    | VNone => raise (Exn ValidationError (u "sources: none is not an allowed value"))
    | v =>
      match coerce_str w v with
      | Some s => names <- source_names w rest ;; ret (s :: names)
      | None => raise (Exn ValidationError (u "sources: str type expected"))
      end
    end
  | _ :: _ => raise (no_attribute "get")
  end.

(** [process_text_query] *)
Definition process_text_query (w : World) (query : pystr)
  : TextProcessingResult :=
  try_except
    (let processed_query := _preprocess_query w query in
     result <- qa_chain_run w processed_query ;;
     let sources := _get_source_documents w processed_query in
     let confidence := _assess_response_confidence w result sources in
     let enhanced_answer := _add_medical_disclaimers w result in
     names <- source_names w sources ;;
     ret {| answer := enhanced_answer;
            tp_sources := names;
            confidence := confidence |})
    (fun e =>
       {| answer :=
            u "Omlouvám se, nastala chyba při zpracování dotazu: "
            ++ exn_msg e ++ nl ++ nl
            ++ u "Prosím zkuste přeformulovat dotaz nebo kontaktujte lékárnu.";
          tp_sources := [];
          confidence := u "low" |}).

(** [process_medication_comparison] *)
Definition process_medication_comparison (w : World)
    (medication1 medication2 : pystr) : TextProcessingResult :=
  let query :=
    u "Porovnání léků " ++ medication1 ++ u " a " ++ medication2
    ++ u " - účinné látky, indikace, rozdíly" in
  process_text_query w query.

(** The banner [search_by_symptoms] puts in front of the answer. *)
Definition symptom_banner : pystr :=
  u "⚠️ **DŮLEŽITÉ VAROVÁNÍ**: Tyto informace nejsou lékařskou radou!".

(** [search_by_symptoms] *)
Definition search_by_symptoms (w : World) (symptoms : pystr)
  : TextProcessingResult :=
  let warning_query :=
    nl ++ u "        UPOZORNĚNÍ: Následující informace NEJSOU lékařská diagnóza ani doporučení léčby."
    ++ nl ++ u "        "
    ++ nl ++ u "        Hledám léky které se OBECNĚ používají při symptomech: "
    ++ symptoms
    ++ nl ++ u "        "
    ++ nl ++ u "        DŮLEŽITÉ: Vždy se poraďte s lékařem před užitím jakéhokoliv léku."
    ++ nl ++ u "        " in
  let result := process_text_query w warning_query in
  (* result.answer = ...; result.confidence = "low" *)
  {| answer := symptom_banner ++ nl ++ nl ++ answer result;
     tp_sources := tp_sources result;
     confidence := u "low" |}.

End TextProcessor.

(* ===================================================================== *)
(** ** workflows/medication_workflow.py *)
(* ===================================================================== *)

Module Workflow.

(** [class MedicationState(TypedDict)], with every key present as both
    endpoints build it. *)
Record MedicationState := {
  query : pystr;
  query_type : pystr;
  image_data : option pystr;
  extracted_text : option pystr;
  medication_info : pyval;
  safety_warnings : list pyval;
  disclaimer : pystr;
  confidence_score : pyval;
  sources : list pyval;
  error : option pystr
}.

Definition set_extracted_text (x : option pystr) (s : MedicationState) :=
  {| query := query s; query_type := query_type s;
     image_data := image_data s; extracted_text := x;
     medication_info := medication_info s;
     safety_warnings := safety_warnings s; disclaimer := disclaimer s;
     confidence_score := confidence_score s; sources := sources s;
     error := error s |}.

Definition set_medication_info (x : pyval) (s : MedicationState) :=
  {| query := query s; query_type := query_type s;
     image_data := image_data s; extracted_text := extracted_text s;
     medication_info := x;
     safety_warnings := safety_warnings s; disclaimer := disclaimer s;
     confidence_score := confidence_score s; sources := sources s;
     error := error s |}.

Definition set_safety_warnings (x : list pyval) (s : MedicationState) :=
  {| query := query s; query_type := query_type s;
     image_data := image_data s; extracted_text := extracted_text s;
     medication_info := medication_info s;
     safety_warnings := x; disclaimer := disclaimer s;
     confidence_score := confidence_score s; sources := sources s;
     error := error s |}.

Definition set_disclaimer (x : pystr) (s : MedicationState) :=
  {| query := query s; query_type := query_type s;
     image_data := image_data s; extracted_text := extracted_text s;
     medication_info := medication_info s;
     safety_warnings := safety_warnings s; disclaimer := x;
     confidence_score := confidence_score s; sources := sources s;
     error := error s |}.

Definition set_confidence_score (x : pyval) (s : MedicationState) :=
  {| query := query s; query_type := query_type s;
     image_data := image_data s; extracted_text := extracted_text s;
     medication_info := medication_info s;
     safety_warnings := safety_warnings s; disclaimer := disclaimer s;
     confidence_score := x; sources := sources s;
     error := error s |}.

Definition set_sources (x : list pyval) (s : MedicationState) :=
  {| query := query s; query_type := query_type s;
     image_data := image_data s; extracted_text := extracted_text s;
     medication_info := medication_info s;
     safety_warnings := safety_warnings s; disclaimer := disclaimer s;
     confidence_score := confidence_score s; sources := x;
     error := error s |}.

Definition set_error (x : pystr) (s : MedicationState) :=
  {| query := query s; query_type := query_type s;
     image_data := image_data s; extracted_text := extracted_text s;
     medication_info := medication_info s;
     safety_warnings := safety_warnings s; disclaimer := disclaimer s;
     confidence_score := confidence_score s; sources := sources s;
     error := Some x |}.

(** A stage body: it updates the state dict in place and returns or
    raises; what it wrote before raising stays written. *)
Definition body (A : Type) : Type :=
  MedicationState -> MedicationState * result A.

Definition done {A} (a : A) : body A := fun s => (s, ret a).

Definition and_then {A B} (c : body A) (k : A -> body B) : body B :=
  fun s =>
    match c s with
    | (s', inr a) => k a s'
    | (s', inl e) => (s', inl e)
    end.

(** A computation that does not touch the state. *)
Definition pure {A} (c : result A) : body A := fun s => (s, c).

Definition read : body MedicationState := fun s => (s, ret s).

Definition write (f : MedicationState -> MedicationState) : body unit :=
  fun s => (f s, ret tt).

(** [try: c; return state  except Exception as e: h e; return state] *)
Definition stage (c : body unit)
    (h : pyexn -> MedicationState -> MedicationState)
  : MedicationState -> MedicationState :=
  fun s =>
    match c s with
    | (s', inr _) => s'
    | (s', inl e) => h e s'
    end.

(** [bool(state.get("error"))] *)
Definition has_error (s : MedicationState) : bool :=
  match error s with
  | Some e => nonempty e
  | None => false
  end.

(** A body that never takes a populated [error] away. *)
Definition keeps_error {A} (c : body A) : Prop :=
  forall s, has_error s = true -> has_error (fst (c s)) = true.

End Workflow.

Notation "x <~ c ;; k" := (Workflow.and_then c (fun x => k))
  (at level 61, c at next level, right associativity) : py_scope.
Notation "c ;;; k" := (Workflow.and_then c (fun _ => k))
  (at level 61, right associativity) : py_scope.

Module MedicationWorkflow.

Import Workflow.

Definition append_warning (x : pyval) (s : MedicationState) :=
  set_safety_warnings (safety_warnings s ++ [x]) s.

Definition opt_val (o : option pystr) : pyval :=
  match o with Some s => VStr s | None => VNone end.

(** [extract_medication_from_image] *)
Definition extract_medication_from_image (w : World)
  : MedicationState -> MedicationState :=
  stage
    (state <~ read ;;
     if negb (truthy (opt_val (image_data state))) then
       write (set_error (u "Chybí obrázek pro zpracování"))
     else
       pure (construct (vision_init w)) ;;;
       let vision_result :=
         VisionProcessor.process_medication_image w
           (match image_data state with Some d => d | None => [] end) in
       write (set_medication_info
                (VDict (VisionProcessor.to_dict vision_result))) ;;;
       write (set_confidence_score
                (VisionProcessor.confidence_score vision_result)) ;;;
       write (set_extracted_text
                (Some (u "Název: "
                       ++ py_str w (VisionProcessor.name vision_result)))) ;;;
       (if truthy (VisionProcessor.warning vision_result) then
          write (append_warning (VisionProcessor.warning vision_result))
        else done tt) ;;;
       (* the log line formats the score with [:.2f] *)
       pure (match as_number (VisionProcessor.confidence_score vision_result)
             with
             | Some _ => ret tt
             | None => raise type_error
             end))
    (fun e => set_error (u "Chyba při rozpoznání obrázku: " ++ exn_msg e)).

(** [state.get("medication_info", {})] followed by [.get(...)]: every key
    of the state is present, so the default is never used, and only a dict
    has [get]. *)
Definition info_dict (state : MedicationState) : result dict :=
  match medication_info state with
  | VDict info => ret info
  | _ => raise (no_attribute "get")
  end.

(** The search query [search_sukl_database] settles on. *)
Definition search_query_of (state : MedicationState) : result pyval :=
  if eqb (query_type state) (u "image") then
    info <- info_dict state ;;
    if truthy (dict_get_none (u "name") info)
    then ret (dict_get_none (u "name") info)
    else ret (opt_val (extracted_text state))
  else ret (VStr (query state)).

(** A value on which [.strip()], [.lower()] or [.upper()] is called. *)
Definition as_str (attr : string) (v : pyval) : result pystr :=
  match v with
  | VStr s => ret s
  | _ => raise (no_attribute attr)
  end.

(** The enrichment loop over [best_metadata.items()] when
    [state["medication_info"]] is a dict. *)
Fixpoint enrich (items : dict) (info : dict) : dict :=
  match items with
  | [] => info
  | (key, value) :: rest =>
    enrich rest
      (if truthy value
          && (negb (dict_has key info)
              || is_str placeholder (dict_get_none key info))
       then dict_set key value info
       else info)
  end.

(** The same loop for any truthy [state["medication_info"]]: on a value
    that is no dict the first item with a truthy value raises. *)
Definition merge_metadata (best_metadata : pyval) (info : pyval)
  : result pyval :=
  match best_metadata with
  | VDict items =>
    match info with
    | VDict d => ret (VDict (enrich items d))
    | _ =>
      if existsb (fun kv => truthy (snd kv)) items then raise type_error
      else ret info
    end
  | _ => raise (no_attribute "items")
  end.

(** [[metadata.get("name", "SÚKL databáze") for metadata in ...]] *)
Fixpoint source_labels (metadatas : list pyval) : result (list pyval) :=
  match metadatas with
  | [] => ret []
  | VDict metadata :: rest =>
    labels <- source_labels rest ;;
    ret (dict_get_or (u "name") (VStr (u "SÚKL databáze")) metadata :: labels)
  | _ :: _ => raise (no_attribute "get")
  end.

Definition confidence_to_score (confidence : pystr) : Q :=
  if eqb confidence (u "high") then 9 # 10
  else if eqb confidence (u "medium") then 7 # 10
  else 4 # 10.

(** [search_sukl_database] *)
Definition search_sukl_database (w : World)
  : MedicationState -> MedicationState :=
  stage
    (pure (construct (store_init w)) ;;;
     state <~ read ;;
     search_query <~ pure (search_query_of state) ;;
     search_query <~ pure (as_str "strip" search_query) ;;
     if negb (nonempty (strip search_query)) then
       write (set_error (u "Chybí dotaz pro vyhledání v databázi"))
     else if eqb (query_type state) (u "text") then
       pure (construct (llm_init w)) ;;;
       let result := TextProcessor.process_text_query w search_query in
       let result_sources :=
         map VStr (Models.tp_sources result) in
       write (set_medication_info
                (VDict [ (u "answer", VStr (Models.answer result));
                         (u "sources", VList result_sources);
                         (u "confidence", VStr (Models.confidence result)) ])) ;;;
       write (set_sources result_sources) ;;;
       write (set_confidence_score
                (VNum (confidence_to_score (Models.confidence result))))
     else
       let search_results :=
         VectorStore.search_medications w search_query 5 (6 # 10) in
       match search_results with
       | best_match :: _ =>
         let best_metadata := VectorStore.metadata_of best_match in
         (if truthy (medication_info state) then
            merged <~ pure (merge_metadata best_metadata
                              (medication_info state)) ;;
            write (set_medication_info merged)
          else write (set_medication_info best_metadata)) ;;;
         labels <~ pure (source_labels
                           (map VectorStore.metadata_of
                              (firstn 3 search_results))) ;;
         write (set_sources labels) ;;;
         state <~ read ;;
         if truthy (medication_info state) then
           pure (construct (vision_init w)) ;;;
           validated_info <~
             pure (VisionProcessor.validate_against_sukl w
                     (VisionProcessor.OVal (medication_info state))) ;;
           write (set_medication_info
                    (VDict (VisionProcessor.to_dict validated_info)))
         else done tt
       | [] =>
         write (append_warning
                  (VStr (u "Informace o tomto léku nebyly nalezeny v databázi SÚKL")))
       end)
    (fun e =>
       set_error (u "Chyba při vyhledávání v databázi: " ++ exn_msg e)).

(** The four checks of [add_safety_disclaimers], in order, building the
    local list; the [.get] on [medication_info] and the two [.lower()]
    calls can raise. *)
Definition own_warnings (w : World) (state : MedicationState)
  : result (list pyval) :=
  let safety_warnings := [] in
  info <- info_dict state ;;
  let safety_warnings :=
    if truthy (dict_get_none (u "contraindication") info)
    then safety_warnings
         ++ [VStr (u "⚠️ Zkontrolujte kontraindikace před užitím")]
    else safety_warnings in
  let safety_warnings :=
    if truthy (dict_get_none (u "interactions") info)
    then safety_warnings
         ++ [VStr (u "⚠️ Informujte se o možných interakcích s jinými léky")]
    else safety_warnings in
  prescription_req <-
    as_str "lower" (dict_get_or (u "prescription_required") (VStr []) info) ;;
  let safety_warnings :=
    if contains (u "předpis") (lower w prescription_req)
    then safety_warnings ++ [VStr (u "⚠️ Tento lék vyžaduje lékařský předpis")]
    else safety_warnings in
  med_name <- as_str "lower" (dict_get_or (u "name") (VStr []) info) ;;
  let med_name := lower w med_name in
  let safety_warnings :=
    if any_in [u "antibio"; u "kortiko"; u "psycho"] med_name
    then safety_warnings
         ++ [VStr (u "⚠️ Tento typ léku vyžaduje zvláštní pozornost při užívání")]
    else safety_warnings in
  ret safety_warnings.

Definition disclaimer_addendum : pystr :=
  nl ++ u "        "
  ++ nl ++ u "        Informace pocházejí z oficiální databáze SÚKL, ale mohou se změnit. "
  ++ nl ++ u "        Pro nejaktuálnější informace kontaktujte lékárnu nebo lékaře."
  ++ nl ++ u "        ".

Definition fallback_disclaimer : pystr :=
  nl ++ u "        UPOZORNĚNÍ: Tyto informace slouží pouze pro informativní účely a nenahrazují "
  ++ nl ++ u "        odbornou lékařskou radu. Vždy se poraďte s lékařem před užitím léků."
  ++ nl ++ u "        ".

(** [add_safety_disclaimers] *)
Definition add_safety_disclaimers (w : World)
  : MedicationState -> MedicationState :=
  stage
    (state <~ read ;;
     safety_warnings <~ pure (own_warnings w state) ;;
     write (set_safety_warnings safety_warnings) ;;;
     let disclaimer := medical_disclaimer w ++ disclaimer_addendum in
     write (set_disclaimer (strip disclaimer)))
    (fun _ => set_disclaimer fallback_disclaimer).

(** [validate_and_enhance_info].  [medication_info] is the dict the state
    holds, so the upper-cased name is visible in the state at once. *)
Definition validate_and_enhance_info (w : World)
  : MedicationState -> MedicationState :=
  stage
    (state <~ read ;;
     medication_info <~ pure (info_dict state) ;;
     let missing_fields :=
       filter (fun field => negb (truthy (dict_get_none field medication_info)))
         [u "name"; u "active_ingredient"] in
     (match missing_fields with
      | [] => done tt
      | _ =>
        c <~ pure (penalize (confidence_score state) (2 # 10)) ;;
        write (set_confidence_score c)
      end) ;;;
     medication_info <~
       (if truthy (dict_get_none (u "name") medication_info) then
          n <~ pure (as_str "upper" (dict_get_none (u "name") medication_info)) ;;
          let medication_info :=
            dict_set (u "name") (VStr (strip (upper w n))) medication_info in
          write (set_medication_info (VDict medication_info)) ;;;
          done medication_info
        else done medication_info) ;;
     let strength := dict_get_or (u "strength") (VStr []) medication_info in
     let form := dict_get_or (u "form") (VStr []) medication_info in
     (if truthy strength && truthy form then
        f <~ pure (as_str "lower" form) ;;
        if contains (u "tablety") (lower w f) then
          (* ["mg" not in strength] needs a container *)
          match strength with
          | VStr _ | VList _ | VDict _ => done tt
          | _ => pure (raise type_error)
          end
        else done tt
      else done tt) ;;;
     write (set_medication_info (VDict medication_info)))
    (fun _ s => s).

(** *** The graph *)

Inductive target :=
| To (node : pystr)
| END.

(** What [StateGraph] collects: nodes, entry point, edges and, per source
    node, a routing function with its path map. *)
Record StateGraph := {
  nodes : list (pystr * (MedicationState -> MedicationState));
  entry_point : option pystr;
  edges : list (pystr * target);
  branches :
    list (pystr * ((MedicationState -> pystr) * list (pystr * pystr)))
}.

Definition new_graph : StateGraph :=
  {| nodes := []; entry_point := None; edges := []; branches := [] |}.

Definition add_node (key : pystr) (action : MedicationState -> MedicationState)
    (g : StateGraph) : StateGraph :=
  {| nodes := nodes g ++ [(key, action)]; entry_point := entry_point g;
     edges := edges g; branches := branches g |}.

Definition set_entry_point (key : pystr) (g : StateGraph) : StateGraph :=
  {| nodes := nodes g; entry_point := Some key;
     edges := edges g; branches := branches g |}.

Definition add_edge (start_key : pystr) (end_key : target) (g : StateGraph)
  : StateGraph :=
  {| nodes := nodes g; entry_point := entry_point g;
     edges := edges g ++ [(start_key, end_key)]; branches := branches g |}.

Definition add_conditional_edges (source : pystr)
    (path : MedicationState -> pystr) (path_map : list (pystr * pystr))
    (g : StateGraph) : StateGraph :=
  {| nodes := nodes g; entry_point := entry_point g; edges := edges g;
     branches := branches g ++ [(source, (path, path_map))] |}.

(** [route_query] *)
Definition route_query (state : MedicationState) : pystr :=
  if eqb (query_type state) (u "image") then u "extract_image"
  else u "search_database".

(** [create_medication_workflow], call by call.  [route_query] is added
    both as a node and as the routing function of that node; it returns a
    node name, not a state update, so as a node it is taken to write
    nothing to the state (LangGraph itself is not part of the sources). *)
Definition create_medication_workflow (w : World) : StateGraph :=
  let workflow := new_graph in
  let workflow :=
    add_node (u "extract_image") (extract_medication_from_image w) workflow in
  let workflow :=
    add_node (u "search_database") (search_sukl_database w) workflow in
  let workflow :=
    add_node (u "validate_info") (validate_and_enhance_info w) workflow in
  let workflow :=
    add_node (u "add_disclaimers") (add_safety_disclaimers w) workflow in
  let workflow := set_entry_point (u "route_query") workflow in
  let workflow := add_node (u "route_query") (fun state => state) workflow in
  let workflow :=
    add_conditional_edges (u "route_query") route_query
      [ (u "extract_image", u "extract_image");
        (u "search_database", u "search_database") ] workflow in
  let workflow :=
    add_edge (u "extract_image") (To (u "search_database")) workflow in
  let workflow :=
    add_edge (u "search_database") (To (u "validate_info")) workflow in
  let workflow :=
    add_edge (u "validate_info") (To (u "add_disclaimers")) workflow in
  let workflow := add_edge (u "add_disclaimers") END workflow in
  workflow.

(** Where the compiled graph goes after [current] has run. *)
Definition next_of (g : StateGraph) (current : pystr) (s : MedicationState)
  : option target :=
  match assoc current (branches g) with
  | Some (path, path_map) =>
    match assoc (path s) path_map with
    | Some n => Some (To n)
    | None => None
    end
  | None => assoc current (edges g)
  end.

(** Running the graph from [current]: the final state and the nodes that
    ran, in order; [None] when the step budget is used up or the graph
    has no way on. *)
Fixpoint run (g : StateGraph) (fuel : nat) (current : pystr)
    (s : MedicationState) : option (MedicationState * list pystr) :=
  match fuel with
  | O => None
  | S fuel' =>
    match assoc current (nodes g) with
    | None => None
    | Some action =>
      let s' := action s in
      match next_of g current s' with
      | None => None
      | Some END => Some (s', [current])
      | Some (To n) =>
        match run g fuel' n s' with
        | Some (s'', ran) => Some (s'', current :: ran)
        | None => None
        end
      end
    end
  end.

Definition invoke (g : StateGraph) (fuel : nat) (s : MedicationState)
  : option (MedicationState * list pystr) :=
  match entry_point g with
  | Some e => run g fuel e s
  | None => None
  end.

(** The nodes of the two paths, in the order the edges chain them. *)
Definition image_path : list pystr :=
  [u "route_query"; u "extract_image"; u "search_database";
   u "validate_info"; u "add_disclaimers"].

Definition text_path : list pystr :=
  [u "route_query"; u "search_database"; u "validate_info";
   u "add_disclaimers"].

(** LangGraph's default [recursion_limit]. *)
Definition recursion_limit : nat := 25.

(** [medication_workflow.invoke(initial_state)] *)
Definition medication_workflow (w : World) (s : MedicationState)
  : result MedicationState :=
  match invoke (create_medication_workflow w) recursion_limit s with
  | Some (final_state, _) => ret final_state
  | None => raise (Exn ServiceError (u "GraphRecursionError"))
  end.

End MedicationWorkflow.

(* ===================================================================== *)
(** ** main.py *)
(* ===================================================================== *)

Module Main.

Import Models Workflow MedicationWorkflow.

Definition error_response (message : string) : APIResponse :=
  {| status := u "error"; data := []; api_error := u message;
     api_disclaimer := [] |}.

Definition initial_state (query : pystr) (query_type : string)
    (image_data : option pystr) : MedicationState :=
  {| Workflow.query := query;
     Workflow.query_type := u query_type;
     Workflow.image_data := image_data;
     extracted_text := None;
     medication_info := VNone;
     safety_warnings := [];
     disclaimer := [];
     confidence_score := VNum 0;
     sources := [];
     error := None |}.

(** [if final_state.get("error"): raise HTTPException(500, ...)] *)
Definition check_error (final_state : MedicationState) : result unit :=
  match error final_state with
  | Some e =>
    if nonempty e then raise (Exn (HTTPException 500) e) else ret tt
  | None => ret tt
  end.

(** [text_query] *)
Definition text_query (w : World) (query : pystr) : APIResponse :=
  try_except
    (_ <- (if negb (nonempty (strip query))
           then raise (Exn (HTTPException 400) (u "Dotaz nemůže být prázdný"))
           else ret tt) ;;
     final_state <- medication_workflow w (initial_state query "text" None) ;;
     _ <- check_error final_state ;;
     let medication_info := Workflow.medication_info final_state in
     let response_data :=
       match medication_info with
       | VDict d =>
         if dict_has (u "answer") d then d
         else [ (u "medication_info", medication_info);
                (u "confidence_score", confidence_score final_state);
                (u "sources", VList (sources final_state)) ]
       | _ =>
         [ (u "medication_info", medication_info);
           (u "confidence_score", confidence_score final_state);
           (u "sources", VList (sources final_state)) ]
       end in
     let disclaimer := disclaimer final_state in
     ret {| status := u "success"; data := response_data; api_error := [];
            api_disclaimer := strip disclaimer |})
    (fun _ =>
       error_response
         "Nastala chyba při zpracování dotazu. Zkuste to prosím znovu.").

(** [image_query]; [data] must be a dict for the response model. *)
Definition image_query (w : World) (image_data : pystr) : APIResponse :=
  try_except
    (_ <- (if negb (nonempty (strip image_data))
           then raise (Exn (HTTPException 400) (u "Obrázek nemůže být prázdný"))
           else ret tt) ;;
     final_state <-
       medication_workflow w (initial_state [] "image" (Some image_data)) ;;
     _ <- check_error final_state ;;
     response_data <-
       match Workflow.medication_info final_state with
       | VDict d => ret d
       | _ => raise (Exn ValidationError (u "data: value is not a valid dict"))
       end ;;
     let disclaimer := disclaimer final_state in
     ret {| status := u "success"; data := response_data; api_error := [];
            api_disclaimer := strip disclaimer |})
    (fun _ =>
       error_response
         "Nastala chyba při zpracování obrázku. Zkuste to prosím znovu s lepším osvětlením.").

End Main.

(* ===================================================================== *)
(** ** Concrete worlds *)
(* ===================================================================== *)

Module Sample.

(** [str.lower] on Basic Latin, Latin-1 and Latin Extended-A letters,
    which cover Czech; other code points are left alone. *)
Definition lower_char (c : N) : N :=
  (if (65 <=? c) && (c <=? 90) then c + 32
   else if (192 <=? c) && (c <=? 222) && negb (c =? 215) then c + 32
   else if (256 <=? c) && (c <=? 311) && N.even c then c + 1
   else if (313 <=? c) && (c <=? 328) && N.odd c then c + 1
   else if (330 <=? c) && (c <=? 375) && N.even c then c + 1
   else if (377 <=? c) && (c <=? 382) && N.odd c then c + 1
   else c)%N.

Definition upper_char (c : N) : N :=
  (if (97 <=? c) && (c <=? 122) then c - 32
   else if (224 <=? c) && (c <=? 254) && negb (c =? 247) then c - 32
   else if (256 <=? c) && (c <=? 311) && N.odd c then c - 1
   else if (313 <=? c) && (c <=? 328) && N.even c then c - 1
   else if (330 <=? c) && (c <=? 375) && N.odd c then c - 1
   else if (377 <=? c) && (c <=? 382) && N.even c then c - 1
   else c)%N.

Definition unavailable : pyexn := Exn ServiceError (u "service unavailable").

(** A world in which the configuration is the default one and every
    service is down. *)
Definition offline : World :=
  {| medical_disclaimer := Models.MEDICAL_DISCLAIMER;
     max_image_size_mb := 10;
     lower := map lower_char;
     upper := map upper_char;
     repr_of := fun _ => u "?";
     os_path_exists := fun _ => false;
     chardet_detect := fun _ => raise unavailable;
     pd_parse := fun _ _ _ => raise unavailable;
     store_init := None;
     rpc_match := fun _ _ => raise unavailable;
     vision_init := None;
     image_probe := fun _ => raise unavailable;
     vision_chat := fun _ => raise unavailable;
     json_loads := fun _ => None;
     coerce_str := fun _ => None;
     model_attr := fun _ => false;
     llm_init := None;
     qa_chain_run := fun _ => raise unavailable |}.

Definition with_rpc (f : pystr -> nat -> result (list dict)) (w : World)
  : World :=
  {| medical_disclaimer := medical_disclaimer w;
     max_image_size_mb := max_image_size_mb w;
     lower := lower w; upper := upper w; repr_of := repr_of w;
     os_path_exists := os_path_exists w;
     chardet_detect := chardet_detect w; pd_parse := pd_parse w;
     store_init := store_init w; rpc_match := f;
     vision_init := vision_init w; image_probe := image_probe w;
     vision_chat := vision_chat w; json_loads := json_loads w;
     coerce_str := coerce_str w; model_attr := model_attr w;
     llm_init := llm_init w; qa_chain_run := qa_chain_run w |}.

Definition with_qa (f : pystr -> result pystr) (w : World) : World :=
  {| medical_disclaimer := medical_disclaimer w;
     max_image_size_mb := max_image_size_mb w;
     lower := lower w; upper := upper w; repr_of := repr_of w;
     os_path_exists := os_path_exists w;
     chardet_detect := chardet_detect w; pd_parse := pd_parse w;
     store_init := store_init w; rpc_match := rpc_match w;
     vision_init := vision_init w; image_probe := image_probe w;
     vision_chat := vision_chat w; json_loads := json_loads w;
     coerce_str := coerce_str w; model_attr := model_attr w;
     llm_init := llm_init w; qa_chain_run := f |}.

Definition with_file (exists_ : pystr -> bool)
    (parse : pystr -> pystr -> pystr -> result DataFrame) (w : World)
  : World :=
  {| medical_disclaimer := medical_disclaimer w;
     max_image_size_mb := max_image_size_mb w;
     lower := lower w; upper := upper w; repr_of := repr_of w;
     os_path_exists := exists_;
     chardet_detect := chardet_detect w; pd_parse := parse;
     store_init := store_init w; rpc_match := rpc_match w;
     vision_init := vision_init w; image_probe := image_probe w;
     vision_chat := vision_chat w; json_loads := json_loads w;
     coerce_str := coerce_str w; model_attr := model_attr w;
     llm_init := llm_init w; qa_chain_run := qa_chain_run w |}.

Definition with_vision (chat : pystr -> result pystr)
    (loads : pystr -> option pyval) (w : World) : World :=
  {| medical_disclaimer := medical_disclaimer w;
     max_image_size_mb := max_image_size_mb w;
     lower := lower w; upper := upper w; repr_of := repr_of w;
     os_path_exists := os_path_exists w;
     chardet_detect := chardet_detect w; pd_parse := pd_parse w;
     store_init := store_init w; rpc_match := rpc_match w;
     vision_init := vision_init w; image_probe := image_probe w;
     vision_chat := chat; json_loads := loads;
     coerce_str := coerce_str w; model_attr := model_attr w;
     llm_init := llm_init w; qa_chain_run := qa_chain_run w |}.

(** One stored document, as [create_embedding_texts] writes its metadata. *)
Definition paralen_metadata : dict :=
  [ (u "name", VStr (u "PARALEN 500MG"));
    (u "active_ingredient", VStr (u "Paracetamolum"));
    (u "registration_number", VStr (u "16/123/69-C"));
    (u "atc_code", VNone);
    (u "prescription_required", VNone) ].

Definition paralen_row : dict :=
  [ (u "id", VStr (u "1"));
    (u "content", VStr (u "Název: PARALEN 500MG"));
    (u "metadata", VDict paralen_metadata);
    (u "similarity", VNum (9 # 10)) ].

(** The store answers every query with the PARALEN document. *)
Definition stocked : World := with_rpc (fun _ _ => ret [paralen_row]) offline.

(** The PARALEN record of the processor's tests. *)
Definition paralen : Models.MedicationInfo :=
  {| Models.name := Some (u "PARALEN 500MG");
     Models.active_ingredient := Some (u "Paracetamolum");
     Models.strength := Some (u "500 mg");
     Models.form := Some (u "Potahované tablety");
     Models.manufacturer := None;
     Models.registration_number := None;
     Models.atc_code := None;
     Models.indication := None;
     Models.contraindication := None;
     Models.side_effects := None;
     Models.interactions := None;
     Models.dosage := None;
     Models.price := None;
     Models.prescription_required := None |}.

(** The table of [test_extract_medication_info_with_missing_data]: one
    complete row, one with an empty name, one with no name and an empty
    active ingredient. *)
Definition test_table : DataFrame :=
  {| df_columns := [u "NAZEV"; u "UCINNE_LATKY"; u "SILA"];
     df_rows :=
       [ [CText (u "PARALEN 500MG"); CText (u "Paracetamolum");
          CText (u "500 mg")];
         [CText []; CText (u "Ibuprofenum"); CText (u "400 mg")];
         [CNA; CText []; CText (u "200 mg")] ] |}.

(** The file of [test_encoding_detection]: a header and one line, two
    comma-separated fields.  It exists, and parses under every encoding:
    into two columns with the comma, into one column otherwise. *)
Definition two_columns : DataFrame :=
  {| df_columns := [u "NAZEV"; u "UCINNE_LATKY"];
     df_rows := [[CText (u "Paralen"); CText (u "Paracetamol")]] |}.

Definition one_column : DataFrame :=
  {| df_columns := [u "NAZEV,UCINNE_LATKY"];
     df_rows := [[CText (u "Paralen,Paracetamol")]] |}.

Definition narrow_file : World :=
  with_file (fun _ => true)
    (fun _ _ sep => if eqb sep (u ",") then ret two_columns else ret one_column)
    offline.

(** What [_parse_vision_response] builds from a reply that is no JSON. *)
Definition unreadable : dict :=
  [ (u "name", VStr placeholder);
    (u "active_ingredient", VStr placeholder);
    (u "strength", VStr placeholder);
    (u "form", VStr placeholder);
    (u "manufacturer", VStr placeholder);
    (u "registration_number", VStr placeholder);
    (u "confidence_score", VNum (3 # 10));
    (u "extracted_text", VStr (u "PARALEN")) ].

(** A recognition with a legible name only. *)
Definition name_only : VisionProcessor.VisionResult :=
  {| VisionProcessor.name := VStr (u "PARALEN");
     VisionProcessor.active_ingredient := VStr placeholder;
     VisionProcessor.strength := VStr (u "500 mg");
     VisionProcessor.form := VStr placeholder;
     VisionProcessor.manufacturer := VStr placeholder;
     VisionProcessor.registration_number := VStr placeholder;
     VisionProcessor.confidence_score := VNum (5 # 10);
     VisionProcessor.warning := VNone;
     VisionProcessor.validated := VNone;
     VisionProcessor.sukl_matches := VNone |}.

(** The state [image_query] would start from, without the payload. *)
Definition no_image : Workflow.MedicationState :=
  Main.initial_state [] "image" None.

(** The state after a recognition of [name_only]. *)
Definition recognized : Workflow.MedicationState :=
  {| Workflow.query := [];
     Workflow.query_type := u "image";
     Workflow.image_data := Some (u "data:image/png;base64,iVBORw0KGgo");
     Workflow.extracted_text := Some (u "Název: PARALEN");
     Workflow.medication_info := VDict (VisionProcessor.to_dict name_only);
     Workflow.safety_warnings :=
       [VStr (u "Nízká spolehlivost rozpoznání. Doporučujeme ověřit informace.")];
     Workflow.disclaimer := [];
     Workflow.confidence_score := VNum (5 # 10);
     Workflow.sources := [];
     Workflow.error := None |}.

(** [MedicationVectorStore()] raises: the Supabase settings are missing. *)
Definition no_store : World :=
  {| medical_disclaimer := medical_disclaimer offline;
     max_image_size_mb := max_image_size_mb offline;
     lower := lower offline; upper := upper offline;
     repr_of := repr_of offline;
     os_path_exists := os_path_exists offline;
     chardet_detect := chardet_detect offline; pd_parse := pd_parse offline;
     store_init :=
       Some (Exn ValueError
               (u "SUPABASE_URL a SUPABASE_ANON_KEY environment variables musí být nastavené"));
     rpc_match := rpc_match offline;
     vision_init := vision_init offline; image_probe := image_probe offline;
     vision_chat := vision_chat offline; json_loads := json_loads offline;
     coerce_str := coerce_str offline; model_attr := model_attr offline;
     llm_init := llm_init offline; qa_chain_run := qa_chain_run offline |}.

(** The vision model reads the name only, with confidence 0.5, and the
    store's best match carries its prescription flag as a JSON boolean. *)
Definition flagged_metadata : dict :=
  [ (u "name", VStr (u "PARALEN 500MG"));
    (u "prescription_required", VBool true) ].

Definition quoted (s : string) : pystr := [34%N] ++ u s ++ [34%N].

Definition flagged_reply : pystr :=
  u "{" ++ quoted "name" ++ u ": " ++ quoted "PARALEN" ++ u ", "
  ++ quoted "confidence_score" ++ u ": 0.5}".

Definition flagged : World :=
  with_vision
    (fun _ => ret flagged_reply)
    (fun text =>
       if eqb text flagged_reply
       then Some (VDict [ (u "name", VStr (u "PARALEN"));
                          (u "confidence_score", VNum (5 # 10)) ])
       else None)
    (with_rpc
       (fun _ _ => ret [ [ (u "id", VStr (u "1"));
                           (u "content", VStr (u "Název: PARALEN 500MG"));
                           (u "metadata", VDict flagged_metadata);
                           (u "similarity", VNum (9 # 10)) ] ])
       offline).

Definition png_payload : pystr := u "data:image/png;base64,iVBORw0KGgo".

(** An answer of more than 50 characters naming four of the indicators. *)
Definition rich_answer : pystr :=
  u "PARALEN 500MG: účinná látka paracetamol, tablety 500 mg, dávkování 1-2 tablety.".

End Sample.

(* ===================================================================== *)
(** ** The specification's wording of three components *)
(* ===================================================================== *)

Module Spec.

Import Models.

(** *** Document Builder (4.2)

    One "Label: value" line per present field, in the fixed order name,
    active_ingredient-or-atc_code, strength, form, manufacturer,
    indication, contraindication, side_effects, interactions, dosage. *)

Definition present (f : option pystr) : bool :=
  match f with
  | Some [] | None => false
  | Some _ => true
  end.

(** The second slot: the ATC code stands in for an absent active
    ingredient. *)
Definition ingredient_slot (med : MedicationInfo) : string * option pystr :=
  if present (active_ingredient med)
  then ("Účinná látka"%string, active_ingredient med)
  else ("ATC kód"%string, atc_code med).

Definition slots (med : MedicationInfo) : list (string * option pystr) :=
  [ ("Název", name med);
    ingredient_slot med;
    ("Síla", strength med);
    ("Léková forma", form med);
    ("Výrobce", manufacturer med);
    ("Indikace", indication med);
    ("Kontraindikace", contraindication med);
    ("Nežádoucí účinky", side_effects med);
    ("Interakce", interactions med);
    ("Dávkování", dosage med) ]%string.

Definition line (slot : string * option pystr) : list pystr :=
  match snd slot with
  | Some (c :: value) => [u (fst slot) ++ u ": " ++ c :: value]
  | _ => []
  end.

Definition content (med : MedicationInfo) : pystr :=
  join nl (flat_map line (slots med)).

(** *** Confidence heuristic (4.4) *)

Inductive level := Low | Medium | High.

Definition level_name (l : level) : pystr :=
  match l with
  | Low => u "low"
  | Medium => u "medium"
  | High => u "high"
  end.

Definition rank (l : level) : nat :=
  match l with Low => 0 | Medium => 1 | High => 2 end.

(** At least 4 distinct keyword hits give high, at least 2 medium. *)
Definition by_hits (hits : nat) : level :=
  if 4 <=? hits then High
  else if 2 <=? hits then Medium
  else Low.

(** How many of the domain keywords occur in the lowercased answer. *)
Definition keyword_hits (w : World) (answer : pystr) : nat :=
  List.length
    (filter (fun k => contains k (lower w answer))
       TextProcessor.positive_indicators).

Definition confidence (w : World) (answer : pystr) (sources : nat) : level :=
  if List.length (strip answer) <? 50 then Low
  else if sources =? 0 then Low
  else if sources <? 2 then Medium
  else by_hits (keyword_hits w answer).

(** *** Quality adjustment (4.5)

    Subtract 0.3 when the name is missing, a further 0.2 when the active
    ingredient is missing, never below 0.0; round to 2 decimal places. *)
Definition adjusted (name_missing ingredient_missing : bool) (c : Q) : Q :=
  let c := if name_missing then max0 (c - (3 # 10)) else c in
  let c := if ingredient_missing then max0 (c - (2 # 10)) else c in
  VisionProcessor.round2 c.

(** *** AddDisclaimers (4.6): the warnings the stage can produce *)
Definition stage_warnings : list pyval :=
  [ VStr (u "⚠️ Zkontrolujte kontraindikace před užitím");
    VStr (u "⚠️ Informujte se o možných interakcích s jinými léky");
    VStr (u "⚠️ Tento lék vyžaduje lékařský předpis");
    VStr (u "⚠️ Tento typ léku vyžaduje zvláštní pozornost při užívání") ].

(** The keys the cross-validation step sets on every result. *)
Definition bookkeeping : list pystr :=
  [u "sukl_matches"; u "validated"; u "warning"].

(** *** Record validity (3, 4.1)

    A field is present in a row when one of its known column names is a
    column of the table and the row's cell there is non-null and
    non-blank after trimming. *)

Fixpoint cell_of (cols : list pystr) (row : list cell) (col : pystr)
  : option cell :=
  match cols with
  | [] => None
  | c :: cols' =>
    if eqb c col then Some (match row with [] => CNA | x :: _ => x end)
    else cell_of cols' (tl row) col
  end.

Definition aliases (field : pystr) : list pystr :=
  match assoc field SuklProcessor.column_mapping with
  | Some names => names
  | None => []
  end.

Definition cell_text (c : cell) : option pystr :=
  match c with
  | CNA => None
  | _ =>
    match strip (str_of c) with
    | [] => None
    | text => Some text
    end
  end.

(** The text a row holds under a column, if any. *)
Definition stored (cols : list pystr) (row : list cell) (col : pystr)
  : option pystr :=
  match cell_of cols row col with
  | Some c => cell_text c
  | None => None
  end.

Definition field_value (df : DataFrame) (row : list cell) (field : string)
  : option pystr :=
  match SuklProcessor.first_available (df_columns df) (aliases (u field)) with
  | Some col => stored (df_columns df) row col
  | None => None
  end.

Definition is_some {A} (o : option A) : bool :=
  match o with Some _ => true | None => false end.

(** name present AND (active_ingredient present OR atc_code present) *)
Definition valid (df : DataFrame) (row : list cell) : bool :=
  is_some (field_value df row "name")
  && (is_some (field_value df row "active_ingredient")
      || is_some (field_value df row "atc_code")).

Definition record (df : DataFrame) (row : list cell) : MedicationInfo :=
  {| name := field_value df row "name";
     active_ingredient := field_value df row "active_ingredient";
     strength := field_value df row "strength";
     form := field_value df row "form";
     manufacturer := field_value df row "manufacturer";
     registration_number := field_value df row "registration_number";
     atc_code := field_value df row "atc_code";
     indication := field_value df row "indication";
     contraindication := field_value df row "contraindication";
     side_effects := field_value df row "side_effects";
     interactions := field_value df row "interactions";
     dosage := field_value df row "dosage";
     price := field_value df row "price";
     prescription_required := field_value df row "prescription_required" |}.

End Spec.

(* ===================================================================== *)
(** ** models.py: the request models *)
(* ===================================================================== *)

Module Requests.

(** What pydantic reports for a field it refuses, whether a constraint of
    the field or a [ValueError] of its validator. *)
Definition refused (message : string) : pyexn :=
  Exn ValidationError (u message).

(** [TextQuery.validate_query] *)
Definition validate_query (v : pystr) : result pystr :=
  if negb (nonempty (strip v)) then
    raise (Exn ValueError (u "Dotaz nemůže být prázdný"))
  else ret (strip v).

(** [TextQuery(query=v)]: the constraints [min_length=1, max_length=500]
    of the field are checked on the value as sent, then the validator
    runs. *)
Definition TextQuery (v : pystr) : result pystr :=
  if List.length v <? 1 then
    raise (refused "query: String should have at least 1 character")
  else if 500 <? List.length v then
    raise (refused "query: String should have at most 500 characters")
  else
    match validate_query v with
    | inr query => ret query
    | inl e => raise (Exn ValidationError (u "query: " ++ exn_msg e))
    end.

(** The signatures [validate_image_data] accepts at the start of the
    payload. *)
Definition signatures : list pystr :=
  [u "data:image"; u "/9j/"; u "iVBORw0KGgo"].

(** [ImageQuery.validate_image_data]; [startswith] is given the tuple of
    signatures and looks at the value before it is stripped. *)
Definition validate_image_data (v : pystr) : result pystr :=
  if negb (nonempty (strip v)) then
    raise (Exn ValueError (u "Obrázek nemůže být prázdný"))
  else if negb (existsb (fun p => startswith p v) signatures) then
    raise (Exn ValueError (u "Neplatný formát obrázku"))
  else ret (strip v).

(** [ImageQuery(image_data=v)] *)
Definition ImageQuery (v : pystr) : result pystr :=
  match validate_image_data v with
  | inr image_data => ret image_data
  | inl e => raise (Exn ValidationError (u "image_data: " ++ exn_msg e))
  end.

End Requests.

(* ===================================================================== *)
(** ** database/vector_store.py: the two named searches *)
(* ===================================================================== *)

Module Store.

(** [search_by_name] *)
Definition search_by_name (w : World) (name : pystr) : list dict :=
  VectorStore.search_medications w (u "název " ++ name) 10 (6 # 10).

(** [search_by_active_ingredient] *)
Definition search_by_active_ingredient (w : World)
    (active_ingredient : pystr) : list dict :=
  VectorStore.search_medications w (u "účinná látka " ++ active_ingredient)
    15 (7 # 10).

(** [similarity >= similarity_threshold] read back from a returned
    result. *)
Definition similar_enough (similarity_threshold : Q) (result : dict) : bool :=
  match dict_get (u "similarity") result with
  | Some v =>
    match as_number v with
    | Some s => Qle_bool similarity_threshold s
    | None => false
    end
  | None => false
  end.

(** *** Ingest.  Every exception ends in [return False], so a step that
    raises is [None] here, whatever it raised. *)

Section Ingest.

(** [self.embeddings.embed_documents(texts)] and
    [self.service_client.table(...).insert(records).execute().data]. *)
Variable embed_documents : list pyval -> option (list pyval).
Variable insert : list dict -> option (list dict).

(** [[doc["content"] for doc in documents]] *)
Fixpoint texts_of (documents : list dict) : option (list pyval) :=
  match documents with
  | [] => Some []
  | doc :: rest =>
    match dict_get (u "content") doc with
    | Some text =>
      match texts_of rest with
      | Some texts => Some (text :: texts)
      | None => None
      end
    | None => None
    end
  end.

(** The loop that builds [records]; [embeddings[i]] is the head of what
    is left of the embeddings. *)
Fixpoint records_of (documents : list dict) (embeddings : list pyval)
  : option (list dict) :=
  match documents with
  | [] => Some []
  | doc :: rest =>
    match dict_get (u "content") doc, dict_get (u "metadata") doc, embeddings
    with
    | Some text, Some metadata, embedding :: embeddings' =>
      match records_of rest embeddings' with
      | Some records =>
        Some ([ (u "content", text); (u "metadata", metadata);
                (u "embedding", embedding) ] :: records)
      | None => None
      end
    | _, _, _ => None
    end
  end.

(** [_direct_bulk_insert] *)
Definition _direct_bulk_insert (documents : list dict) : bool :=
  match texts_of documents with
  | Some texts =>
    match embed_documents texts with
    | Some embeddings =>
      match records_of documents embeddings with
      | Some records =>
        match insert records with
        | Some (_ :: _) => true
        | _ => false
        end
      | None => false
      end
    | None => false
    end
  | None => false
  end.

(** [ingest_sukl_data] *)
Definition ingest_sukl_data (documents : list dict) : bool :=
  match documents with
  | [] => false
  | _ => _direct_bulk_insert documents
  end.

End Ingest.

(** The dictionary [create_embedding_texts] appends for a document. *)
Definition as_dict (doc : SuklProcessor.Document) : dict :=
  [ (u "content", VStr (SuklProcessor.content doc));
    (u "metadata",
     VDict (map (fun kv => (fst kv, MedicationWorkflow.opt_val (snd kv)))
              (SuklProcessor.metadata doc))) ].

End Store.

(* ===================================================================== *)
(** ** config.py *)
(* ===================================================================== *)

Module Config.

(** [s.split(sep)] for a one-character separator. *)
Fixpoint split (sep : N) (s : pystr) : list pystr :=
  match s with
  | [] => [[]]
  | c :: t =>
    if (c =? sep)%N then [] :: split sep t
    else
      match split sep t with
      | part :: parts => (c :: part) :: parts
      | [] => [[c]]
      end
  end.

(** [Settings.cors_origins] *)
Definition cors_origins (allowed_origins : pystr) : list pystr :=
  map strip (split 44 allowed_origins).

(** The default of [allowed_origins]. *)
Definition allowed_origins : pystr :=
  u "http://localhost:3000,https://pillsee.vercel.app".

End Config.

(* ===================================================================== *)
(** ** What a stage leaves alone *)
(* ===================================================================== *)

Module Frame.

Import Workflow.

(** A body whose state after is always related to its state before. *)
Definition keeps {A} (R : MedicationState -> MedicationState -> Prop)
    (c : body A) : Prop :=
  forall s, R s (fst (c s)).

(** Every key but [medication_info] and [confidence_score] is as before. *)
Definition same_bookkeeping (s s' : MedicationState) : Prop :=
  query s' = query s
  /\ query_type s' = query_type s
  /\ image_data s' = image_data s
  /\ extracted_text s' = extracted_text s
  /\ safety_warnings s' = safety_warnings s
  /\ disclaimer s' = disclaimer s
  /\ sources s' = sources s
  /\ error s' = error s.

(** [confidence_score] is as before. *)
Definition same_score (s s' : MedicationState) : Prop :=
  confidence_score s' = confidence_score s.

End Frame.

(* ===================================================================== *)
(** ** More sample data *)
(* ===================================================================== *)

Module Cases.

Import Models.

(** The values of the declared fields of a record, in order. *)
Definition fields (med : MedicationInfo) : list (option pystr) :=
  [ name med; active_ingredient med; strength med; form med;
    manufacturer med; registration_number med; atc_code med;
    indication med; contraindication med; side_effects med;
    interactions med; dosage med; price med; prescription_required med ].

(** An export of six columns as the parser hands it over: padded text, a
    numeric column, and a line whose fields are all empty or null
    literals. *)
Definition export : DataFrame :=
  {| df_columns :=
       map u ["NAZEV"; "UCINNE_LATKY"; "SILA"; "LEKOVA_FORMA"; "ATC_WHO";
              "CENA"]%string;
     df_rows :=
       [ [CText (u " PARALEN 500MG "); CText (u "Paracetamolum");
          CText (u "500 mg"); CText (u "Potahované tablety");
          CText (u "N02BE01"); CScalar (u "45.5")];
         [CText (u "nan"); CNA; CText (u "  "); CNA; CText (u "NULL"); CNA];
         [CText (u "IBALGIN"); CNA; CText (u "400 mg"); CNA;
          CText (u "M01AE01"); CScalar (u "89")] ] |}.

(** A file that parses into [export] with the semicolon and into a single
    column with any other separator. *)
Definition semicolon_file : World :=
  Sample.with_file (fun _ => true)
    (fun _ _ sep =>
       if eqb sep (u ";") then ret export else ret Sample.one_column)
    Sample.offline.

(** A table in which the label of the name column occurs twice. *)
Definition doubled : DataFrame :=
  {| df_columns := [u "NAZEV"; u "UCINNE_LATKY"; u "NAZEV"];
     df_rows :=
       [ [CText (u "PARALEN 500MG"); CText (u "Paracetamolum");
          CText (u "PARALEN")] ] |}.

(** A table with the name column under two of its spellings. *)
Definition both_spellings : DataFrame :=
  {| df_columns := [u "nazev"; u "NAZEV"; u "UCINNE_LATKY"];
     df_rows :=
       [ [CText (u "paralen"); CText (u "PARALEN 500MG");
          CText (u "Paracetamolum")] ] |}.

(** The three warnings [_validate_recognition_quality] attaches by the
    level of the score. *)
Definition tier_warnings : list pyval :=
  [ VStr (u "Velmi nízká spolehlivost rozpoznání. Zkuste obrázek s lepším osvětlením nebo z jiného úhlu.");
    VStr (u "Nízká spolehlivost rozpoznání. Doporučujeme ověřit informace.");
    VStr (u "Střední spolehlivost rozpoznání. Zkontrolujte správnost údajů.") ].

(** The names of the fields of [VisionResult], in the order of
    [vision_result.dict()]. *)
Definition field_keys : list pystr :=
  map u ["name"; "active_ingredient"; "strength"; "form"; "manufacturer";
         "registration_number"; "confidence_score"; "warning"; "validated";
         "sukl_matches"]%string.

(** The vision model answers in prose that names a known product, not in
    JSON. *)
Definition prose_reply : World :=
  Sample.with_vision (fun _ => ret (u "Na obrázku je Paralen 500 mg."))
    (fun _ => None) Sample.offline.

End Cases.

(* ===================================================================== *)
(** ** Facts about strings and dictionaries *)
(* ===================================================================== *)

Unset Implicit Arguments.

Lemma eqb_eq (a b : pystr) : eqb a b = true <-> a = b.
Proof.
  revert b; induction a as [|x a IH]; intros [|y b]; simpl; split;
    try congruence; try reflexivity.
  - intros H. apply andb_true_iff in H as [Hx Hab].
    apply N.eqb_eq in Hx. apply IH in Hab. congruence.
  - intros H. injection H as -> ->.
    rewrite N.eqb_refl. simpl. now apply IH.
Qed.

Lemma eqb_refl (a : pystr) : eqb a a = true.
Proof. now apply eqb_eq. Qed.

Lemma eqb_neq (a b : pystr) : eqb a b = false <-> a <> b.
Proof.
  split.
  - intros H E. apply eqb_eq in E. congruence.
  - intros H. destruct (eqb a b) eqn:E; [|reflexivity].
    apply eqb_eq in E. contradiction.
Qed.

Lemma startswith_app (p s : pystr) : startswith p (p ++ s) = true.
Proof.
  induction p as [|c p IH]; simpl.
  - reflexivity.
  - now rewrite N.eqb_refl.
Qed.

Lemma dict_get_set (k k' : pystr) (v : pyval) (d : dict) :
  dict_get k (dict_set k' v d) =
  if eqb k' k then Some v else dict_get k d.
Proof.
  induction d as [|[k0 v0] d IH]; simpl.
  - destruct (eqb k' k); reflexivity.
  - destruct (eqb k0 k') eqn:E0; simpl.
    + apply eqb_eq in E0. subst k0.
      destruct (eqb k' k); reflexivity.
    + destruct (eqb k0 k) eqn:E1.
      * apply eqb_eq in E1. subst k0.
        destruct (eqb k' k) eqn:E2; [|reflexivity].
        apply eqb_eq in E2. subst k'. rewrite eqb_refl in E0. discriminate.
      * exact IH.
Qed.

Lemma dict_set_nonempty (k : pystr) (v : pyval) (d : dict) :
  dict_set k v d <> [].
Proof.
  destruct d as [|[k0 v0] d]; simpl; [discriminate|].
  destruct (eqb k0 k); discriminate.
Qed.

Lemma truthy_dict (d : dict) : d <> [] -> truthy (VDict d) = true.
Proof. destruct d; [congruence | reflexivity]. Qed.

Lemma is_str_true (s : pystr) (x : pyval) : is_str s x = true -> x = VStr s.
Proof.
  destruct x; simpl; try discriminate. intros H. apply eqb_eq in H. now subst.
Qed.

(** A sequence that returned: its first step returned too. *)
Lemma bind_inr {A B} (c : result A) (k : A -> result B) (b : B) :
  bind c k = inr b -> exists a, c = inr a /\ k a = inr b.
Proof.
  destruct c as [e|a]; simpl; [discriminate|]. intros H. now exists a.
Qed.

(* ===================================================================== *)
(** ** Document Builder *)
(* ===================================================================== *)

Lemma append_if_line (f : option pystr) (label : string)
    (parts : list pystr) :
  SuklProcessor.append_if f label parts = parts ++ Spec.line (label, f).
Proof.
  unfold SuklProcessor.append_if, SuklProcessor.has, Spec.line.
  destruct f as [[|c s]|]; simpl; rewrite ?app_nil_r; reflexivity.
Qed.

Lemma ingredient_line (med : Models.MedicationInfo) (parts : list pystr) :
  (if SuklProcessor.has (Models.active_ingredient med)
   then parts ++ [u "Účinná látka: "
                  ++ SuklProcessor.text_of (Models.active_ingredient med)]
   else if SuklProcessor.has (Models.atc_code med)
   then parts ++ [u "ATC kód: " ++ SuklProcessor.text_of (Models.atc_code med)]
   else parts)
  = parts ++ Spec.line (Spec.ingredient_slot med).
Proof.
  unfold Spec.ingredient_slot, Spec.line, SuklProcessor.has.
  destruct (Models.active_ingredient med) as [[|c s]|];
    destruct (Models.atc_code med) as [[|c' s']|];
    simpl; rewrite ?app_nil_r; reflexivity.
Qed.

(** C8.  For every MedicationRecord the content built by
    [create_embedding_texts] is the newline-join of one "Label: value"
    line per present field, in the order name, active ingredient or else
    ATC code, strength, form, manufacturer, indication, contraindication,
    side effects, interactions, dosage; absent fields give no line.  The
    PARALEN record with name, active ingredient, strength and form yields
    exactly its four lines in that order. *)
Theorem document_content_lines :
  (forall med : Models.MedicationInfo,
     SuklProcessor.content (SuklProcessor.embedding_document med)
     = Spec.content med)
  /\ map SuklProcessor.content
       (SuklProcessor.create_embedding_texts [Sample.paralen])
     = [ join nl [ u "Název: PARALEN 500MG";
                   u "Účinná látka: Paracetamolum";
                   u "Síla: 500 mg";
                   u "Léková forma: Potahované tablety" ] ].
Proof.
  split.
  - intros med.
    unfold SuklProcessor.embedding_document, Spec.content, Spec.slots.
    cbn [SuklProcessor.content flat_map].
    rewrite ingredient_line, !append_if_line.
    rewrite <- !app_assoc, app_nil_r. reflexivity.
  - vm_compute. reflexivity.
Qed.

(* ===================================================================== *)
(** ** Answer Synthesizer *)
(* ===================================================================== *)

Lemma by_hits_monotone (h1 h2 : nat) :
  (h1 <= h2)%nat ->
  (Spec.rank (Spec.by_hits h1) <= Spec.rank (Spec.by_hits h2))%nat.
Proof.
  intros H. unfold Spec.by_hits.
  destruct (Nat.leb_spec 4 h1), (Nat.leb_spec 4 h2),
           (Nat.leb_spec 2 h1), (Nat.leb_spec 2 h2); simpl; lia.
Qed.

Lemma assess_is_spec (w : World) (response : pystr) (sources : list pyval) :
  TextProcessor._assess_response_confidence w response sources
  = Spec.level_name (Spec.confidence w response (List.length sources)).
Proof.
  unfold TextProcessor._assess_response_confidence, Spec.confidence,
    Spec.keyword_hits, TextProcessor.found_indicators, Spec.by_hits.
  destruct (List.length (strip response) <? 50); [reflexivity|].
  destruct sources as [|s0 [|s1 rest]]; try reflexivity.
  change (List.length (s0 :: s1 :: rest) =? 0) with false.
  change (List.length (s0 :: s1 :: rest) <? 2) with false.
  cbv iota.
  destruct (4 <=? _); [reflexivity|].
  destruct (2 <=? _); reflexivity.
Qed.

(** C5.  The confidence heuristic is the function of the specification:
    under 50 characters after trimming gives low, otherwise no source
    gives low, otherwise fewer than 2 sources give medium, otherwise the
    number of distinct keywords found in the lowercased answer decides
    (4 or more high, 2 or 3 medium, 0 or 1 low).  With at least 50
    characters and at least 2 sources the result depends on the hit count
    alone and is monotonic in it. *)
Theorem confidence_heuristic :
  (forall (w : World) (response : pystr) (sources : list pyval),
     TextProcessor._assess_response_confidence w response sources
     = Spec.level_name (Spec.confidence w response (List.length sources)))
  /\ (forall (w : World) (response : pystr) (sources : list pyval),
        (50 <= List.length (strip response))%nat ->
        (2 <= List.length sources)%nat ->
        TextProcessor._assess_response_confidence w response sources
        = Spec.level_name (Spec.by_hits (Spec.keyword_hits w response)))
  /\ (forall h1 h2 : nat,
        (h1 <= h2)%nat ->
        (Spec.rank (Spec.by_hits h1) <= Spec.rank (Spec.by_hits h2))%nat)
  /\ (forall h : nat,
        ((h <= 1)%nat -> Spec.by_hits h = Spec.Low)
        /\ ((2 <= h <= 3)%nat -> Spec.by_hits h = Spec.Medium)
        /\ ((4 <= h)%nat -> Spec.by_hits h = Spec.High)).
Proof.
  split; [exact assess_is_spec|].
  split.
  - intros w response sources Hlen Hsrc.
    rewrite assess_is_spec. unfold Spec.confidence.
    destruct (Nat.ltb_spec (List.length (strip response)) 50); [lia|].
    destruct (Nat.eqb_spec (List.length sources) 0); [lia|].
    destruct (Nat.ltb_spec (List.length sources) 2); [lia|].
    reflexivity.
  - split; [exact by_hits_monotone|].
    intros h. unfold Spec.by_hits.
    destruct (Nat.leb_spec 4 h), (Nat.leb_spec 2 h);
      repeat split; intros; try reflexivity; lia.
Qed.

Lemma confidence_heuristic_witness :
  (50 <= List.length (strip Sample.rich_answer))%nat
  /\ (2 <= List.length [VNone; VNone])%nat
  /\ TextProcessor._assess_response_confidence Sample.offline
       Sample.rich_answer [VNone; VNone]
     = u "high".
Proof.
  assert (Hlen : (50 <= List.length (strip Sample.rich_answer))%nat)
    by (vm_compute; repeat constructor).
  assert (Hsrc : (2 <= List.length [VNone; VNone])%nat)
    by (simpl; repeat constructor).
  split; [exact Hlen|]. split; [exact Hsrc|].
  rewrite (proj1 (proj2 confidence_heuristic) Sample.offline
             Sample.rich_answer [VNone; VNone] Hlen Hsrc).
  vm_compute. reflexivity.
Defined.

(** C9.  For every symptom string the symptom-search wrapper returns
    confidence "low" and an answer that begins with the fixed bold warning
    banner, whatever the underlying pipeline computed and whether it
    succeeded or fell back to its apology answer. *)
Theorem symptom_search_override (w : World) (symptoms : pystr) :
  Models.confidence (TextProcessor.search_by_symptoms w symptoms) = u "low"
  /\ startswith TextProcessor.symptom_banner
       (Models.answer (TextProcessor.search_by_symptoms w symptoms)) = true.
Proof.
  unfold TextProcessor.search_by_symptoms.
  cbn [Models.confidence Models.answer].
  split; [reflexivity|]. apply startswith_app.
Qed.

(* ===================================================================== *)
(** ** Record Normalizer: extraction *)
(* ===================================================================== *)

Lemma existsb_eqb_In (x : pystr) (l : list pystr) :
  existsb (eqb x) l = true <-> In x l.
Proof.
  rewrite existsb_exists. split.
  - intros [y [Hy E]]. apply eqb_eq in E. now subst.
  - intros H. exists x. split; [exact H | apply eqb_refl].
Qed.

Lemma nodupb_sound (l : list pystr) : nodupb l = true -> NoDup l.
Proof.
  induction l as [|x t IH]; simpl; intros H; constructor.
  - apply andb_true_iff in H as [H _]. intros Hin.
    apply existsb_eqb_In in Hin. rewrite Hin in H. discriminate.
  - apply IH. now apply andb_true_iff in H as [_ H].
Qed.

Section Row.

Variable cols : list pystr.
Hypothesis cols_unique : NoDup cols.

Lemma cells_at_absent (cs : list pystr) (row : list cell) (col : pystr) :
  ~ In col cs -> cells_at cs row col = [].
Proof.
  revert row. induction cs as [|c cs IH]; intros row H; simpl; [reflexivity|].
  destruct (eqb c col) eqn:E.
  - apply eqb_eq in E. subst. exfalso. apply H. now left.
  - apply IH. intros Hin. apply H. now right.
Qed.

Lemma cells_at_unique (cs : list pystr) (row : list cell) (col : pystr) :
  NoDup cs ->
  cells_at cs row col =
  match Spec.cell_of cs row col with Some c => [c] | None => [] end.
Proof.
  intros Hnd. revert row.
  induction Hnd as [|c cs Hnotin Hnd IH]; intros row; simpl; [reflexivity|].
  destruct (eqb c col) eqn:E.
  - apply eqb_eq in E. subst c. now rewrite cells_at_absent.
  - apply IH.
Qed.

Lemma convert_scalar (c : cell) :
  SuklProcessor.convert_value (Scalar c) = ret (Spec.cell_text c).
Proof.
  unfold SuklProcessor.convert_value, Spec.cell_text, notna.
  destruct c; simpl; try reflexivity;
    destruct (strip _); reflexivity.
Qed.

(** With unique column labels a lookup is never a sub-Series, so the
    conversion cannot raise. *)
Lemma convert_row_get (row : list cell) (col : pystr) :
  SuklProcessor.convert_value (row_get cols row col)
  = ret (Spec.stored cols row col).
Proof.
  unfold row_get, Spec.stored.
  rewrite (cells_at_unique cols row col cols_unique).
  destruct (Spec.cell_of cols row col) as [c|]; [apply convert_scalar|].
  reflexivity.
Qed.

Lemma build_med_data_total (row : list cell)
    (mapping : list (pystr * pystr)) :
  SuklProcessor.build_med_data cols row mapping
  = ret (map (fun fc => (fst fc, Spec.stored cols row (snd fc))) mapping).
Proof.
  induction mapping as [|[f col] rest IH]; simpl; [reflexivity|].
  rewrite convert_row_get. simpl. rewrite IH. reflexivity.
Qed.

End Row.

Lemma med_get_stored (cols : list pystr) (row : list cell)
    (mapping : list (pystr * pystr)) (f : pystr) :
  SuklProcessor.med_get f
    (map (fun fc => (fst fc, Spec.stored cols row (snd fc))) mapping)
  = match assoc f mapping with
    | Some col => Spec.stored cols row col
    | None => None
    end.
Proof.
  induction mapping as [|[f' col] rest IH]; simpl; [reflexivity|].
  destruct (eqb f' f); [reflexivity | exact IH].
Qed.

Lemma assoc_build_absent (available : list pystr)
    (mapping : list (pystr * list pystr)) (f : pystr) :
  ~ In f (map fst mapping) ->
  assoc f (SuklProcessor.build_mapping available mapping)
  = None.
Proof.
  induction mapping as [|[f' names] rest IH]; simpl; intros H; [reflexivity|].
  assert (Hne : eqb f' f = false).
  { apply eqb_neq. intros E. apply H. now left. }
  assert (IH' := IH (fun Hin => H (or_intror Hin))).
  destruct (SuklProcessor.first_available available names); simpl;
    rewrite ?Hne; exact IH'.
Qed.

(** The resolved column of a field is the first of its known names that
    the table has. *)
Lemma assoc_build_mapping (available : list pystr)
    (mapping : list (pystr * list pystr)) (f : pystr) :
  NoDup (map fst mapping) ->
  assoc f (SuklProcessor.build_mapping available mapping)
  = match assoc f mapping with
    | Some names => SuklProcessor.first_available available names
    | None => None
    end.
Proof.
  induction mapping as [|[f' names] rest IH]; simpl; intros Hnd;
    [reflexivity|].
  inversion Hnd as [|? ? Hnotin Hnd']; subst.
  destruct (eqb f' f) eqn:E.
  - apply eqb_eq in E. subst f'.
    destruct (SuklProcessor.first_available available names) eqn:Ef; simpl.
    + now rewrite eqb_refl.
    + now apply assoc_build_absent.
  - destruct (SuklProcessor.first_available available names); simpl;
      rewrite ?E; now apply IH.
Qed.

Lemma column_mapping_keys : NoDup (map fst SuklProcessor.column_mapping).
Proof. apply nodupb_sound. vm_compute. reflexivity. Qed.

Lemma stored_nonempty (cols : list pystr) (row : list cell) (col : pystr) :
  Spec.stored cols row col <> Some [].
Proof.
  unfold Spec.stored, Spec.cell_text.
  destruct (Spec.cell_of cols row col) as [[| |]|]; try discriminate;
    destruct (strip _); discriminate.
Qed.

Lemma med_data_field (df : DataFrame) (row : list cell) (field : string) :
  SuklProcessor.med_get (u field)
    (map (fun fc => (fst fc, Spec.stored (df_columns df) row (snd fc)))
       (SuklProcessor.actual_mapping df))
  = Spec.field_value df row field.
Proof.
  rewrite med_get_stored.
  unfold SuklProcessor.actual_mapping, Spec.field_value, Spec.aliases.
  rewrite (assoc_build_mapping _ _ _ column_mapping_keys).
  destruct (assoc (u field) SuklProcessor.column_mapping);
    reflexivity.
Qed.

Lemma field_value_nonempty (df : DataFrame) (row : list cell)
    (field : string) :
  Spec.field_value df row field <> Some [].
Proof.
  unfold Spec.field_value.
  destruct (SuklProcessor.first_available _ _) as [col|]; [|discriminate].
  apply stored_nonempty.
Qed.

Lemma med_truthy_field (df : DataFrame) (row : list cell) (field : string) :
  SuklProcessor.med_truthy (u field)
    (map (fun fc => (fst fc, Spec.stored (df_columns df) row (snd fc)))
       (SuklProcessor.actual_mapping df))
  = Spec.is_some (Spec.field_value df row field).
Proof.
  unfold SuklProcessor.med_truthy. rewrite med_data_field.
  pose proof (field_value_nonempty df row field) as H.
  destruct (Spec.field_value df row field) as [[|c s]|]; try reflexivity.
  now contradiction H.
Qed.

Lemma extract_row_spec (df : DataFrame) (row : list cell) :
  NoDup (df_columns df) ->
  SuklProcessor.extract_row (df_columns df) (SuklProcessor.actual_mapping df)
    row
  = if Spec.valid df row then Some (Spec.record df row) else None.
Proof.
  intros Hnd. unfold SuklProcessor.extract_row.
  rewrite (build_med_data_total _ Hnd). cbn [bind ret].
  rewrite !med_truthy_field. unfold Spec.valid.
  destruct (Spec.is_some (Spec.field_value df row "name")); simpl;
    [|reflexivity].
  destruct (Spec.is_some (Spec.field_value df row "active_ingredient")); simpl.
  - unfold SuklProcessor.MedicationInfo_of, Spec.record.
    now rewrite !med_data_field.
  - destruct (Spec.is_some (Spec.field_value df row "atc_code")); simpl;
      [|reflexivity].
    unfold SuklProcessor.MedicationInfo_of, Spec.record.
    now rewrite !med_data_field.
Qed.

(** C4.  For every row of a parsed table (a table with unique column
    labels, as [read_csv] produces), extraction yields a MedicationRecord
    exactly when the mapped name is present (non-null and non-blank after
    trimming) and the active ingredient or the ATC code is present; the
    extracted list is the records of the valid rows, in order, so every
    other row is dropped and no valid row is. *)
Theorem extraction_keeps_exactly_valid_rows (df : DataFrame) :
  NoDup (df_columns df) ->
  (forall row : list cell,
     (exists med,
        SuklProcessor.extract_row (df_columns df)
          (SuklProcessor.actual_mapping df) row = Some med)
     <-> Spec.valid df row = true)
  /\ SuklProcessor.extract_medication_info df
     = map (Spec.record df) (filter (Spec.valid df) (df_rows df)).
Proof.
  intros Hnd. split.
  - intros row. rewrite (extract_row_spec df row Hnd).
    destruct (Spec.valid df row); split; intros H;
      try reflexivity; try discriminate.
    + now eexists.
    + destruct H as [med H]. discriminate.
  - unfold SuklProcessor.extract_medication_info.
    induction (df_rows df) as [|row rows IH]; simpl; [reflexivity|].
    rewrite (extract_row_spec df row Hnd).
    destruct (Spec.valid df row); simpl; now rewrite IH.
Qed.

Lemma extraction_keeps_exactly_valid_rows_witness :
  NoDup (df_columns Sample.test_table)
  /\ map Models.name (SuklProcessor.extract_medication_info Sample.test_table)
     = [Some (u "PARALEN 500MG")].
Proof.
  assert (Hnd : NoDup (df_columns Sample.test_table))
    by (apply nodupb_sound; vm_compute; reflexivity).
  split; [exact Hnd|].
  rewrite (proj2 (extraction_keeps_exactly_valid_rows Sample.test_table Hnd)).
  vm_compute. reflexivity.
Defined.

(* ===================================================================== *)
(** ** Record Normalizer: loading *)
(* ===================================================================== *)

(** The keywords of the retry loop are all parameters of [read_csv]. *)
Lemma read_csv_declared (w : World) (file_path enc sep : pystr) :
  SuklProcessor.read_csv w file_path
    [(u "encoding", VStr enc); (u "sep", VStr sep);
     (u "low_memory", VBool false)]
  = pd_parse w file_path enc sep.
Proof. reflexivity. Qed.

(** [errors] is not one: the fallback call is refused before it reads. *)
Lemma read_csv_errors_keyword (w : World) (file_path : pystr) :
  SuklProcessor.read_csv w file_path
    [(u "encoding", VStr SuklProcessor.encoding); (u "sep", VStr (u ";"));
     (u "errors", VStr (u "ignore")); (u "low_memory", VBool false)]
  = raise (Exn TypeError
             (u "read_csv() got an unexpected keyword argument 'errors'")).
Proof. reflexivity. Qed.

Section Narrow.

Variable w : World.
Variable file_path : pystr.
Hypothesis narrow :
  forall enc sep df,
    pd_parse w file_path enc sep = inr df ->
    (List.length (df_columns df) <= 5)%nat.

Lemma try_pair_narrow (enc sep : pystr) :
  SuklProcessor.try_pair w file_path enc sep = None.
Proof.
  unfold SuklProcessor.try_pair. rewrite read_csv_declared.
  destruct (pd_parse w file_path enc sep) as [e|df] eqn:E; [reflexivity|].
  apply narrow in E. cbn [bind ret try_except].
  destruct (Nat.ltb_spec 5 (List.length (df_columns df))); [lia|reflexivity].
Qed.

Lemma try_separators_narrow (enc : pystr) (seps : list pystr) :
  SuklProcessor.try_separators w file_path enc seps = None.
Proof.
  induction seps as [|sep rest IH]; cbn [SuklProcessor.try_separators];
    [reflexivity|].
  now rewrite try_pair_narrow.
Qed.

Lemma try_encodings_narrow (encs : list (option pystr)) :
  SuklProcessor.try_encodings w file_path encs = None.
Proof.
  induction encs as [|[enc|] rest IH]; cbn [SuklProcessor.try_encodings];
    [reflexivity| |exact IH].
  now rewrite try_separators_narrow.
Qed.

End Narrow.

(** C7.  What [load_sukl_csv] does: for a path that does not resolve it
    raises FileNotFoundError; for a file that exists and parses into at
    most 5 columns under every encoding and delimiter, the retry loop
    accepts nothing and the forced windows-1250/semicolon fallback, which
    passes [errors='ignore'] to [read_csv], fails on that keyword, so the
    loader raises ValueError where the specification promises a table. *)
Theorem load_outcome (w : World) (file_path : pystr) :
  (os_path_exists w file_path = false ->
   SuklProcessor.load_sukl_csv w file_path
   = raise (Exn FileNotFoundError
              (u "SÚKL CSV soubor nenalezen: " ++ file_path)))
  /\ (os_path_exists w file_path = true ->
      (forall enc sep df,
         pd_parse w file_path enc sep = inr df ->
         (List.length (df_columns df) <= 5)%nat) ->
      SuklProcessor.load_sukl_csv w file_path
      = raise (Exn ValueError
                 (u "Nepodařilo se načíst SÚKL data: "
                  ++ u "read_csv() got an unexpected keyword argument 'errors'"))).
Proof.
  unfold SuklProcessor.load_sukl_csv. split; intros Hex.
  - now rewrite Hex.
  - intros Hnarrow. rewrite Hex. cbn [negb].
    rewrite (try_encodings_narrow w file_path Hnarrow).
    rewrite read_csv_errors_keyword. reflexivity.
Qed.

Lemma load_outcome_witness :
  os_path_exists Sample.narrow_file (u "test.csv") = true
  /\ (forall enc sep df,
        pd_parse Sample.narrow_file (u "test.csv") enc sep = inr df ->
        (List.length (df_columns df) <= 5)%nat)
  /\ exists message,
       SuklProcessor.load_sukl_csv Sample.narrow_file (u "test.csv")
       = raise (Exn ValueError message).
Proof.
  assert (Hex : os_path_exists Sample.narrow_file (u "test.csv") = true)
    by reflexivity.
  assert (Hnarrow : forall enc sep df,
            pd_parse Sample.narrow_file (u "test.csv") enc sep = inr df ->
            (List.length (df_columns df) <= 5)%nat).
  { intros enc sep df. cbn [pd_parse Sample.narrow_file Sample.with_file].
    destruct (eqb sep (u ",")); intros H; injection H as <-; simpl; lia. }
  split; [exact Hex|]. split; [exact Hnarrow|].
  eexists.
  exact (proj2 (load_outcome Sample.narrow_file (u "test.csv")) Hex Hnarrow).
Defined.

(* ===================================================================== *)
(** ** Image Extractor *)
(* ===================================================================== *)

Import VisionProcessor.

(** *** Arithmetic of the score *)

Lemma max0_nonneg (x : Q) : 0 <= max0 x.
Proof.
  unfold max0. destruct (Qlt_le_dec 0 x) as [H|H].
  - now apply Qlt_le_weak.
  - apply Qle_refl.
Qed.

Lemma max0_le_1 (x : Q) : x <= 1 -> max0 x <= 1.
Proof.
  intros H. unfold max0. destruct (Qlt_le_dec 0 x); [exact H|].
  discriminate.
Qed.

Lemma penalty_le_1 (c p : Q) : c <= 1 -> 0 <= p -> max0 (c - p) <= 1.
Proof.
  intros Hc Hp. apply max0_le_1.
  apply Qle_trans with (y := c); [|exact Hc].
  setoid_replace c with (c - 0) at 2 by ring.
  unfold Qminus. apply Qplus_le_r. apply Qopp_le_compat. exact Hp.
Qed.

Lemma round_half_even_range (x : Q) :
  0 <= x -> x <= 1 -> (0 <= round_half_even (x * 100) <= 100)%Z.
Proof.
  destruct x as [n d]. unfold Qle. simpl Qnum. simpl Qden. intros H0 H1.
  unfold round_half_even. simpl Qnum. simpl Qden.
  rewrite Pos.mul_1_r.
  assert (Hd : (0 < Z.pos d)%Z) by lia.
  pose proof (Z.div_mod (n * 100) (Z.pos d) ltac:(lia)) as Hdm.
  pose proof (Z.mod_pos_bound (n * 100) (Z.pos d) Hd) as Hm.
  set (fl := (n * 100 / Z.pos d)%Z) in *.
  set (r := ((n * 100) mod Z.pos d)%Z) in *.
  assert (Hfl0 : (0 <= fl)%Z) by nia.
  assert (Hfl : (fl <= 100)%Z) by nia.
  destruct (Z.compare_spec (2 * r) (Z.pos d)) as [E|E|E].
  - destruct (Z.even fl); [lia|]. nia.
  - lia.
  - nia.
Qed.

Lemma round2_range (x : Q) :
  0 <= x -> x <= 1 -> 0 <= round2 x /\ round2 x <= 1.
Proof.
  intros H0 H1. pose proof (round_half_even_range x H0 H1) as H.
  unfold round2, Qle. simpl. lia.
Qed.

(** *** Quality adjustment *)

Lemma adjusted_range (a b : bool) (c : Q) :
  0 <= c -> c <= 1 -> 0 <= Spec.adjusted a b c /\ Spec.adjusted a b c <= 1.
Proof.
  intros H0 H1. unfold Spec.adjusted.
  assert (Ha : 0 <= (if a then max0 (c - (3 # 10)) else c)
               /\ (if a then max0 (c - (3 # 10)) else c) <= 1).
  { destruct a; [|now split].
    split; [apply max0_nonneg | apply penalty_le_1; [exact H1 | discriminate]]. }
  destruct Ha as [Ha0 Ha1].
  apply round2_range.
  - destruct b; [apply max0_nonneg | exact Ha0].
  - destruct b; [apply penalty_le_1; [exact Ha1 | discriminate] | exact Ha1].
Qed.

Lemma dict_get_or_some (k : pystr) (default v : pyval) (d : dict) :
  dict_get k d = Some v -> dict_get_or k default d = v.
Proof. unfold dict_get_or. now intros ->. Qed.

Lemma quality_adjustment (result_data : dict) (c : Q) :
  dict_get (u "confidence_score") result_data = Some (VNum c) ->
  exists result_data',
    _validate_recognition_quality result_data = ret result_data'
    /\ dict_get (u "confidence_score") result_data'
       = Some (VNum (Spec.adjusted
                       (missing (dict_get_or (u "name") (VStr []) result_data))
                       (missing (dict_get_or (u "active_ingredient") (VStr [])
                                      result_data))
                       c)).
Proof.
  intros Hc. unfold _validate_recognition_quality.
  rewrite (dict_get_or_some _ _ _ _ Hc).
  unfold Spec.adjusted, penalize.
  destruct (missing (dict_get_or (u "name") (VStr []) result_data));
    destruct (missing (dict_get_or (u "active_ingredient") (VStr [])
                            result_data));
    cbn [as_number bind ret];
    eexists; (split; [reflexivity|]);
    rewrite dict_get_set, eqb_refl; reflexivity.
Qed.

(** *** Dictionaries with unique keys *)

Lemma dict_get_none_notin (k : pystr) (d : dict) :
  dict_get k d = None -> ~ In k (map fst d).
Proof.
  induction d as [|[k0 v0] d IH]; simpl; intros H; [tauto|].
  destruct (eqb k0 k) eqn:E; [discriminate|].
  apply eqb_neq in E. intros [E'|Hin]; [congruence|]. now apply IH.
Qed.

Lemma dict_set_keys (k : pystr) (v : pyval) (d : dict) :
  map fst (dict_set k v d)
  = match dict_get k d with
    | Some _ => map fst d
    | None => map fst d ++ [k]
    end.
Proof.
  induction d as [|[k0 v0] d IH]; simpl; [reflexivity|].
  destruct (eqb k0 k) eqn:E; simpl; [reflexivity|].
  rewrite IH. destruct (dict_get k d); reflexivity.
Qed.

Lemma dict_set_unique (k : pystr) (v : pyval) (d : dict) :
  NoDup (map fst d) -> NoDup (map fst (dict_set k v d)).
Proof.
  intros Hnd. rewrite dict_set_keys.
  destruct (dict_get k d) eqn:E; [exact Hnd|].
  apply dict_get_none_notin in E.
  apply NoDup_app; [exact Hnd | repeat constructor; simpl; tauto |].
  intros x Hx [->|[]]. contradiction.
Qed.

Lemma in_dict_get (k : pystr) (v : pyval) (d : dict) :
  NoDup (map fst d) -> In (k, v) d -> dict_get k d = Some v.
Proof.
  induction d as [|[k0 v0] d IH]; simpl; intros Hnd Hin; [tauto|].
  inversion Hnd as [|? ? Hnotin Hnd']; subst.
  destruct Hin as [E|Hin].
  - injection E as -> ->. now rewrite eqb_refl.
  - destruct (eqb k0 k) eqn:E; [|now apply IH].
    apply eqb_eq in E. subst k0. exfalso. apply Hnotin.
    change k with (fst (k, v)). now apply in_map.
Qed.

(** *** Backfill from the best match *)

Lemma backfill_unique (items vision_result : dict) :
  NoDup (map fst vision_result) ->
  NoDup (map fst (VectorStore.backfill items vision_result)).
Proof.
  revert vision_result.
  induction items as [|[key value] rest IH]; intros d Hnd; simpl; [exact Hnd|].
  apply IH. destruct (dict_get key d) as [old|].
  - destruct (is_str placeholder old); [now apply dict_set_unique | exact Hnd].
  - now apply dict_set_unique.
Qed.

(** A value that is present and is not the placeholder survives. *)
Lemma backfill_keeps (items vision_result : dict) (k : pystr) (x : pyval) :
  dict_get k vision_result = Some x ->
  is_str placeholder x = false ->
  dict_get k (VectorStore.backfill items vision_result) = Some x.
Proof.
  revert vision_result.
  induction items as [|[key value] rest IH]; intros d Hget Hreal; simpl;
    [exact Hget|].
  apply IH; [|exact Hreal].
  destruct (eqb key k) eqn:E.
  - apply eqb_eq in E. subst key. rewrite Hget, Hreal. exact Hget.
  - destruct (dict_get key d) as [old|];
      [destruct (is_str placeholder old)|];
      rewrite ?dict_get_set, ?E; exact Hget.
Qed.

(** *** Validation against the store *)

Lemma validate_medication_info_keeps (w : World) (d d' : dict)
    (k : pystr) (x : pyval) :
  VectorStore.validate_medication_info w d = inr d' ->
  existsb (eqb k) Spec.bookkeeping = false ->
  dict_get k d = Some x ->
  is_str placeholder x = false ->
  dict_get k d' = Some x.
Proof.
  intros Hrun Hk Hget Hreal.
  assert (Hm : eqb (u "sukl_matches") k = false
               /\ eqb (u "validated") k = false
               /\ eqb (u "warning") k = false).
  { unfold Spec.bookkeeping in Hk. cbn [existsb] in Hk.
    apply orb_false_iff in Hk as [H1 Hk].
    apply orb_false_iff in Hk as [H2 Hk].
    apply orb_false_iff in Hk as [H3 _].
    repeat split; apply eqb_neq; intros E; subst k;
      rewrite eqb_refl in *; discriminate. }
  destruct Hm as [Hm1 [Hm2 Hm3]].
  unfold VectorStore.validate_medication_info in Hrun.
  destruct (negb (truthy (dict_get_none (u "name") d))
            || is_str placeholder (dict_get_none (u "name") d)).
  { injection Hrun as <-. exact Hget. }
  destruct (dict_get_none (u "name") d) as [| | |name_text| |];
    try discriminate.
  destruct (if negb (is_str placeholder
                       (dict_get_or (u "active_ingredient") (VStr []) d))
            then _ else _) as [e|search_query]; [discriminate|].
  cbn [bind] in Hrun.
  destruct (VectorStore.search_medications w search_query 3 (6 # 10))
    as [|best_match matches].
  - injection Hrun as <-. rewrite !dict_get_set, Hm3, Hm2. exact Hget.
  - destruct (VectorStore.metadata_of best_match) as [| | | | |best_metadata];
      try discriminate.
    injection Hrun as <-. apply backfill_keeps; [|exact Hreal].
    rewrite !dict_get_set, Hm2, Hm1. exact Hget.
Qed.

Lemma validate_medication_info_unique (w : World) (d d' : dict) :
  VectorStore.validate_medication_info w d = inr d' ->
  NoDup (map fst d) -> NoDup (map fst d').
Proof.
  intros Hrun Hnd.
  unfold VectorStore.validate_medication_info in Hrun.
  destruct (negb (truthy (dict_get_none (u "name") d))
            || is_str placeholder (dict_get_none (u "name") d)).
  { injection Hrun as <-. exact Hnd. }
  destruct (dict_get_none (u "name") d) as [| | |name_text| |];
    try discriminate.
  destruct (if negb (is_str placeholder
                       (dict_get_or (u "active_ingredient") (VStr []) d))
            then _ else _) as [e|search_query]; [discriminate|].
  cbn [bind] in Hrun.
  destruct (VectorStore.search_medications w search_query 3 (6 # 10))
    as [|best_match matches].
  - injection Hrun as <-. now repeat apply dict_set_unique.
  - destruct (VectorStore.metadata_of best_match) as [| | | | |best_metadata];
      try discriminate.
    injection Hrun as <-. apply backfill_unique.
    now repeat apply dict_set_unique.
Qed.

(** *** Cross-validation of a recognition result *)

Lemma set_field_to_dict (key : pystr) (value : pyval) (v v' : VisionResult) :
  set_field key value v = Some v' ->
  to_dict v' = dict_set key value (to_dict v).
Proof.
  destruct v as [n ai st fo ma rn cs wa va sm].
  cbv beta iota delta [set_field].
  repeat match goal with
  | |- (if eqb key ?lit then _ else _) = _ -> _ =>
    let E := fresh "E" in
    destruct (eqb key lit) eqn:E;
    [ apply eqb_eq in E; subst key; intros H; injection H as <-;
      vm_compute; reflexivity |]
  end.
  discriminate.
Qed.

Lemma to_dict_unique (v : VisionResult) : NoDup (map fst (to_dict v)).
Proof. apply nodupb_sound. reflexivity. Qed.

Lemma update_attrs_keeps (w : World) (items : dict) (v v' : VisionResult)
    (e : option pyexn) (k : pystr) (x : pyval) :
  update_attrs w items v = (v', e) ->
  (forall value, In (k, value) items -> value = x) ->
  dict_get k (to_dict v) = Some x ->
  dict_get k (to_dict v') = Some x.
Proof.
  revert v. induction items as [|[key value] rest IH]; intros v Hrun Hall Hget.
  - simpl in Hrun. injection Hrun as <- _. exact Hget.
  - cbn [update_attrs] in Hrun.
    destruct (set_field key value v) as [v1|] eqn:Eset.
    + apply (IH v1 Hrun); [intros value' Hin; apply Hall; now right|].
      rewrite (set_field_to_dict _ _ _ _ Eset), dict_get_set.
      destruct (eqb key k) eqn:E; [|exact Hget].
      apply eqb_eq in E. subst key. f_equal. apply Hall. now left.
    + destruct (model_attr w key).
      * injection Hrun as <- _. exact Hget.
      * apply (IH v Hrun); [intros value' Hin; apply Hall; now right|exact Hget].
Qed.

Lemma with_warning_to_dict (x : pyval) (v : VisionResult) :
  to_dict (with_warning x v) = dict_set (u "warning") x (to_dict v).
Proof. destruct v. vm_compute. reflexivity. Qed.

Lemma validate_against_sukl_total (w : World) (v : VisionResult) :
  exists v', validate_against_sukl w (OVision v) = ret v'.
Proof.
  unfold validate_against_sukl.
  destruct (missing (name v)); [now exists v|].
  destruct (VectorStore.validate_medication_info w (to_dict v))
    as [e|validation_result]; [now eexists|].
  destruct (update_attrs w validation_result v) as [v' [e|]];
    now eexists.
Qed.

(** A field other than warning, validated and sukl_matches whose value is
    not the placeholder keeps it through the cross-validation step. *)
Lemma validate_against_sukl_keeps (w : World) (v v' : VisionResult)
    (k : pystr) (x : pyval) :
  validate_against_sukl w (OVision v) = ret v' ->
  existsb (eqb k) Spec.bookkeeping = false ->
  dict_get k (to_dict v) = Some x ->
  is_str placeholder x = false ->
  dict_get k (to_dict v') = Some x.
Proof.
  intros Hrun Hk Hget Hreal.
  assert (Hw : eqb (u "warning") k = false).
  { apply eqb_neq. intros E. subst k. discriminate. }
  unfold validate_against_sukl in Hrun.
  destruct (missing (name v)); [injection Hrun as <-; exact Hget|].
  destruct (VectorStore.validate_medication_info w (to_dict v))
    as [e|validation_result] eqn:Erun.
  - injection Hrun as <-.
    rewrite with_warning_to_dict, dict_get_set, Hw. exact Hget.
  - assert (Hkept : dict_get k validation_result = Some x)
      by exact (validate_medication_info_keeps w _ _ k x Erun Hk Hget Hreal).
    assert (Hnd : NoDup (map fst validation_result))
      by exact (validate_medication_info_unique w _ _ Erun (to_dict_unique v)).
    assert (Hall : forall value, In (k, value) validation_result -> value = x).
    { intros value Hin. apply (in_dict_get _ _ _ Hnd) in Hin. congruence. }
    destruct (update_attrs w validation_result v) as [v1 [e|]] eqn:Eupd;
      injection Hrun as <-;
      rewrite ?with_warning_to_dict, ?dict_get_set, ?Hw;
      exact (update_attrs_keeps w _ _ _ _ k x Eupd Hall Hget).
Qed.

(** *** The result model keeps the score in range *)

Lemma score_field_range (key : pystr) (d : dict) (x : pyval) :
  score_field key d = inr x -> exists c, x = VNum c /\ 0 <= c /\ c <= 1.
Proof.
  unfold score_field.
  destruct (dict_get key d) as [v|]; [|discriminate].
  destruct (as_number v) as [q|]; [|discriminate].
  destruct (Qle_bool 0 q) eqn:E0; [|discriminate].
  destruct (Qle_bool q 1) eqn:E1; [|discriminate].
  simpl. intros H. injection H as <-.
  exists q. repeat split; now apply Qle_bool_iff.
Qed.

Lemma VisionResult_of_range (w : World) (d : dict) (v : VisionResult) :
  VisionResult_of w d = inr v ->
  exists c, confidence_score v = VNum c /\ 0 <= c /\ c <= 1.
Proof.
  unfold VisionResult_of. intros H.
  repeat (apply bind_inr in H; destruct H as [? [? H]]).
  injection H as <-. cbn [confidence_score].
  eapply score_field_range. eassumption.
Qed.

Lemma recognition_score_range (w : World) (image_data : pystr) :
  exists c,
    confidence_score (process_medication_image w image_data) = VNum c
    /\ 0 <= c /\ c <= 1.
Proof.
  unfold process_medication_image.
  destruct (_ <- _preprocess_image w image_data ;; _) as [e|v] eqn:E;
    cbn [try_except].
  - exists 0. split; [reflexivity|]. split; unfold Qle; simpl; lia.
  - do 4 (apply bind_inr in E; destruct E as [? [? E]]).
    eapply VisionResult_of_range. eassumption.
Qed.



(* ===================================================================== *)
(** ** Query Router *)
(* ===================================================================== *)

Import Workflow MedicationWorkflow.

(** *** Which nodes run *)

Lemma route_image (state : MedicationState) :
  query_type state = u "image" -> route_query state = u "extract_image".
Proof. intros H. unfold route_query. now rewrite H, eqb_refl. Qed.

Lemma route_other (state : MedicationState) :
  query_type state <> u "image" -> route_query state = u "search_database".
Proof.
  intros H. unfold route_query. apply eqb_neq in H. now rewrite H.
Qed.

Opaque extract_medication_from_image search_sukl_database
  validate_and_enhance_info add_safety_disclaimers route_query.

(** An image query runs all five nodes, whatever the stages write. *)
Lemma invoke_image (w : World) (state : MedicationState) (fuel : nat) :
  query_type state = u "image" ->
  (5 <= fuel)%nat ->
  invoke (create_medication_workflow w) fuel state
  = Some (add_safety_disclaimers w
            (validate_and_enhance_info w
               (search_sukl_database w
                  (extract_medication_from_image w state))),
          image_path).
Proof.
  intros Hkind Hfuel.
  destruct fuel as [|[|[|[|[|fuel]]]]]; try lia.
  unfold invoke, create_medication_workflow.
  cbn. rewrite (route_image state Hkind). cbn. reflexivity.
Qed.

Lemma invoke_text (w : World) (state : MedicationState) (fuel : nat) :
  query_type state <> u "image" ->
  (4 <= fuel)%nat ->
  invoke (create_medication_workflow w) fuel state
  = Some (add_safety_disclaimers w
            (validate_and_enhance_info w
               (search_sukl_database w state)),
          text_path).
Proof.
  intros Hkind Hfuel.
  destruct fuel as [|[|[|[|fuel]]]]; try lia.
  unfold invoke, create_medication_workflow.
  cbn. rewrite (route_other state Hkind). cbn. reflexivity.
Qed.

Transparent extract_medication_from_image search_sukl_database
  validate_and_enhance_info add_safety_disclaimers route_query.

(** *** A populated error stays populated *)

Lemma keeps_and_then {A B} (c : body A) (k : A -> body B) :
  keeps_error c -> (forall a, keeps_error (k a)) ->
  keeps_error (and_then c k).
Proof.
  intros Hc Hk s Hs. unfold and_then. specialize (Hc s Hs).
  destruct (c s) as [s' [e|a]]; [exact Hc|]. now apply Hk.
Qed.

Lemma keeps_pure {A} (c : result A) : keeps_error (pure c).
Proof. intros s Hs. exact Hs. Qed.

Lemma keeps_read : keeps_error read.
Proof. intros s Hs. exact Hs. Qed.

Lemma keeps_done {A} (a : A) : keeps_error (done a).
Proof. intros s Hs. exact Hs. Qed.

Lemma keeps_write (f : MedicationState -> MedicationState) :
  (forall s, has_error s = true -> has_error (f s) = true) ->
  keeps_error (write f).
Proof. intros Hf s Hs. now apply Hf. Qed.

Lemma keeps_stage (c : body unit)
    (h : pyexn -> MedicationState -> MedicationState) :
  keeps_error c ->
  (forall e s, has_error s = true -> has_error (h e s) = true) ->
  forall s, has_error s = true -> has_error (stage c h s) = true.
Proof.
  intros Hc Hh s Hs. unfold stage. specialize (Hc s Hs).
  destruct (c s) as [s' [e|[]]]; [now apply Hh | exact Hc].
Qed.

(** Walks a stage body: every write either leaves [error] alone or sets
    it to a non-empty message. *)
Ltac keep_error :=
  repeat first
    [ apply keeps_pure | apply keeps_read | apply keeps_done
    | apply keeps_and_then; [|intros ?]
    | apply keeps_write; intros ? ?; first [assumption | reflexivity]
    | progress cbv zeta
    | match goal with
      | |- keeps_error (if ?b then _ else _) => destruct b
      | |- keeps_error (match ?x with _ => _ end) => destruct x
      end ].

Lemma search_keeps_error (w : World) (s : MedicationState) :
  has_error s = true -> has_error (search_sukl_database w s) = true.
Proof.
  apply keeps_stage; [|reflexivity].
  keep_error.
Qed.

Lemma validate_keeps_error (w : World) (s : MedicationState) :
  has_error s = true -> has_error (validate_and_enhance_info w s) = true.
Proof.
  apply keeps_stage; [|intros e s' H; exact H].
  keep_error.
Qed.

Lemma disclaimers_keep_error (w : World) (s : MedicationState) :
  has_error s = true -> has_error (add_safety_disclaimers w s) = true.
Proof.
  apply keeps_stage; [|intros e s' H; exact H].
  keep_error.
Qed.

Lemma extract_without_image (w : World) (s : MedicationState) :
  truthy (opt_val (image_data s)) = false ->
  extract_medication_from_image w s
  = set_error (u "Chybí obrázek pro zpracování") s.
Proof.
  intros H. unfold extract_medication_from_image, stage.
  cbv beta iota delta [and_then read ret]. rewrite H. reflexivity.
Qed.




(** *** SearchDatabase on an image query *)

Lemma image_is_not_text : eqb (u "image") (u "text") = false.
Proof. vm_compute. reflexivity. Qed.

Lemma enrich_nonempty (items info : dict) :
  info <> [] -> enrich items info <> [].
Proof.
  revert info. induction items as [|[key value] rest IH]; intros info H;
    simpl; [exact H|].
  apply IH. destruct (truthy value && _); [apply dict_set_nonempty | exact H].
Qed.

(** The merge never overwrites a value that is present and is not the
    placeholder. *)
Lemma enrich_keeps (items info : dict) (k : pystr) (x : pyval) :
  dict_get k info = Some x ->
  is_str placeholder x = false ->
  dict_get k (enrich items info) = Some x.
Proof.
  revert info.
  induction items as [|[key value] rest IH]; intros info Hget Hreal;
    simpl; [exact Hget|].
  apply IH; [|exact Hreal].
  destruct (eqb key k) eqn:E.
  - apply eqb_eq in E. subst key.
    unfold dict_has, dict_get_none, dict_get_or. rewrite Hget, Hreal.
    simpl. rewrite andb_false_r. exact Hget.
  - destruct (truthy value && _); rewrite ?dict_get_set, ?E; exact Hget.
Qed.

(** C3, on the code.  On an image query whose recognition result is a
    non-empty dict and whose search finds a match, the stage merges the
    best match's metadata without overwriting a populated real value, and
    then hands that dict to [validate_against_sukl], which reads
    [vision_result.name] on it: the AttributeError lands in the stage's
    handler, so the stage always ends with [error] set, where the
    specification has it complete without. *)
Theorem image_search_with_match_sets_error
    (w : World) (state : MedicationState) (info : dict) (q : pystr) :
  query_type state = u "image" ->
  medication_info state = VDict info ->
  info <> [] ->
  search_query_of state = ret (VStr q) ->
  VectorStore.search_medications w q 5 (6 # 10) <> [] ->
  exists message,
    error (search_sukl_database w state) = Some message.
Proof.
  intros Hkind Hinfo Hne Hq Hfound.
  unfold search_sukl_database, stage.
  cbv beta iota delta [and_then pure read write done ret].
  destruct (construct (store_init w)) as [e|[]]; [now eexists|].
  rewrite Hq. cbv beta iota delta [ret as_str].
  destruct (negb (nonempty (strip q))); [now eexists|].
  rewrite Hkind, image_is_not_text.
  destruct (VectorStore.search_medications w q 5 (6 # 10))
    as [|best_match others]; [congruence|].
  rewrite Hinfo, (truthy_dict info Hne).
  unfold merge_metadata.
  destruct (VectorStore.metadata_of best_match) as [| | | | |items];
    try (now eexists).
  cbv beta iota delta [ret].
  destruct (source_labels _) as [e|labels]; [now eexists|].
  cbn [medication_info set_sources set_medication_info].
  rewrite (truthy_dict _ (enrich_nonempty items info Hne)).
  destruct (construct (vision_init w)) as [e|[]]; now eexists.
Qed.

Lemma image_search_with_match_sets_error_witness :
  query_type Sample.recognized = u "image"
  /\ medication_info Sample.recognized
     = VDict (VisionProcessor.to_dict Sample.name_only)
  /\ VisionProcessor.to_dict Sample.name_only <> []
  /\ search_query_of Sample.recognized = ret (VStr (u "PARALEN"))
  /\ VectorStore.search_medications Sample.stocked (u "PARALEN") 5 (6 # 10)
     <> []
  /\ exists message,
       error (search_sukl_database Sample.stocked Sample.recognized)
       = Some message.
Proof.
  assert (H1 : query_type Sample.recognized = u "image") by reflexivity.
  assert (H2 : medication_info Sample.recognized
               = VDict (VisionProcessor.to_dict Sample.name_only))
    by reflexivity.
  assert (H3 : VisionProcessor.to_dict Sample.name_only <> [])
    by discriminate.
  assert (H4 : search_query_of Sample.recognized = ret (VStr (u "PARALEN")))
    by (vm_compute; reflexivity).
  assert (H5 : VectorStore.search_medications Sample.stocked (u "PARALEN") 5
                 (6 # 10) <> [])
    by (vm_compute; discriminate).
  repeat (split; [assumption|]).
  exact (image_search_with_match_sets_error Sample.stocked Sample.recognized
           (VisionProcessor.to_dict Sample.name_only) (u "PARALEN")
           H1 H2 H3 H4 H5).
Defined.

(** The run of that input: the active ingredient was backfilled from the
    store, the name was kept, and the stage ended in its handler. *)
Lemma image_search_failing_input :
  let after := search_sukl_database Sample.stocked Sample.recognized in
  error after
  = Some (u "Chyba při vyhledávání v databázi: object has no attribute 'name'")
  /\ (exists info,
        medication_info after = VDict info
        /\ dict_get (u "name") info = Some (VStr (u "PARALEN"))
        /\ dict_get (u "active_ingredient") info
           = Some (VStr (u "Paracetamolum"))
        /\ dict_get (u "validated") info = Some VNone).
Proof.
  split; [vm_compute; reflexivity|].
  eexists. split; [vm_compute; reflexivity|].
  repeat split; vm_compute; reflexivity.
Qed.

(** *** AddDisclaimers and the warnings of earlier stages *)

(** The stage's checks read [medication_info] only. *)
Lemma own_warnings_frame (w : World) (state : MedicationState)
    (earlier : list pyval) :
  own_warnings w (set_safety_warnings earlier state) = own_warnings w state.
Proof. reflexivity. Qed.

Lemma incl_append_if {A} (b : bool) (l m : list A) (a : A) :
  incl l m -> In a m -> incl (if b then l ++ [a] else l) m.
Proof.
  intros Hl Ha. destruct b; [|exact Hl].
  apply incl_app; [exact Hl|]. intros x [<-|[]]. exact Ha.
Qed.

Lemma own_warnings_fixed (w : World) (state : MedicationState)
    (own : list pyval) :
  own_warnings w state = ret own -> incl own Spec.stage_warnings.
Proof.
  unfold own_warnings. intros H.
  apply bind_inr in H. destruct H as [info [_ H]].
  apply bind_inr in H. destruct H as [prescription_req [_ H]].
  apply bind_inr in H. destruct H as [med_name [_ H]].
  injection H as <-. cbv zeta. unfold Spec.stage_warnings.
  match goal with
  | |- incl (if ?b then ?l ++ [?a] else _) ?m =>
    apply (incl_append_if b l m a);
    [|right; right; right; left; reflexivity]
  end.
  match goal with
  | |- incl (if ?b then ?l ++ [?a] else _) ?m =>
    apply (incl_append_if b l m a); [|right; right; left; reflexivity]
  end.
  match goal with
  | |- incl (if ?b then ?l ++ [?a] else _) ?m =>
    apply (incl_append_if b l m a); [|right; left; reflexivity]
  end.
  match goal with
  | |- incl (if ?b then _ else _) _ => destruct b
  end.
  - intros x [<-|[]]. left. reflexivity.
  - intros x [].
Qed.

(** When do the checks return?  When [medication_info] is a dict whose
    [prescription_required] and [name], if present, are strings. *)
Lemma own_warnings_return (w : World) (state : MedicationState)
    (info : dict) (prescription_req med_name : pystr) :
  medication_info state = VDict info ->
  dict_get_or (u "prescription_required") (VStr []) info
  = VStr prescription_req ->
  dict_get_or (u "name") (VStr []) info = VStr med_name ->
  exists own, own_warnings w state = ret own.
Proof.
  intros Hinfo Hp Hn. unfold own_warnings, info_dict.
  rewrite Hinfo. cbn [bind ret]. rewrite Hp. cbn [as_str bind ret].
  rewrite Hn. cbn [as_str bind ret]. now eexists.
Qed.

Lemma disclaimers_stage_outcome (w : World) (state : MedicationState) :
  add_safety_disclaimers w state
  = match own_warnings w state with
    | inr own =>
      set_disclaimer (strip (medical_disclaimer w ++ disclaimer_addendum))
        (set_safety_warnings own state)
    | inl _ => set_disclaimer fallback_disclaimer state
    end.
Proof.
  unfold add_safety_disclaimers, stage.
  cbv beta iota delta [and_then pure read write ret].
  destruct (own_warnings w state); reflexivity.
Qed.




(* ===================================================================== *)
(** ** Endpoints and the disclaimer *)
(* ===================================================================== *)

Lemma success_is_not_error : u "success" <> u "error".
Proof. vm_compute. discriminate. Qed.

(** Either endpoint answers with its fixed error response or with status
    "success". *)
Lemma text_query_outcome (w : World) (query : pystr) :
  Main.text_query w query
  = Main.error_response
      "Nastala chyba při zpracování dotazu. Zkuste to prosím znovu."
  \/ Models.status (Main.text_query w query) = u "success".
Proof.
  unfold Main.text_query.
  match goal with
  | |- context [try_except ?c _] => destruct c as [e|response] eqn:E
  end; [left; reflexivity | right].
  cbn [try_except].
  do 3 (apply bind_inr in E; destruct E as [? [? E]]).
  injection E as <-. reflexivity.
Qed.

Lemma image_query_outcome (w : World) (image_data : pystr) :
  Main.image_query w image_data
  = Main.error_response
      "Nastala chyba při zpracování obrázku. Zkuste to prosím znovu s lepším osvětlením."
  \/ Models.status (Main.image_query w image_data) = u "success".
Proof.
  unfold Main.image_query.
  match goal with
  | |- context [try_except ?c _] => destruct c as [e|response] eqn:E
  end; [left; reflexivity | right].
  cbn [try_except].
  do 4 (apply bind_inr in E; destruct E as [? [? E]]).
  injection E as <-. reflexivity.
Qed.

(** C2, on the code.  The response an endpoint returns when an error
    occurs has an empty disclaimer field, and the answer
    [process_text_query] returns when retrieval or generation raises is
    the bare apology text: no rule and no disclaimer are appended.  The
    specification wants the disclaimer on both. *)
Theorem error_paths_drop_disclaimer (w : World) :
  (forall query : pystr,
     Models.status (Main.text_query w query) = u "error" ->
     Models.api_disclaimer (Main.text_query w query) = [])
  /\ (forall image_data : pystr,
        Models.status (Main.image_query w image_data) = u "error" ->
        Models.api_disclaimer (Main.image_query w image_data) = [])
  /\ (forall (query : pystr) (e : pyexn),
        qa_chain_run w (TextProcessor._preprocess_query w query) = raise e ->
        Models.answer (TextProcessor.process_text_query w query)
        = u "Omlouvám se, nastala chyba při zpracování dotazu: "
          ++ exn_msg e ++ nl ++ nl
          ++ u "Prosím zkuste přeformulovat dotaz nebo kontaktujte lékárnu.").
Proof.
  split; [|split].
  - intros query H.
    destruct (text_query_outcome w query) as [E|E].
    + rewrite E. reflexivity.
    + rewrite E in H. now apply success_is_not_error in H.
  - intros image_data H.
    destruct (image_query_outcome w image_data) as [E|E].
    + rewrite E. reflexivity.
    + rewrite E in H. now apply success_is_not_error in H.
  - intros query e H. unfold TextProcessor.process_text_query.
    cbv zeta. rewrite H. reflexivity.
Qed.

Lemma error_paths_drop_disclaimer_witness :
  (Models.status (Main.text_query Sample.no_store (u "Paralen")) = u "error"
   /\ Models.api_disclaimer (Main.text_query Sample.no_store (u "Paralen"))
      = [])
  /\ (qa_chain_run Sample.offline
        (TextProcessor._preprocess_query Sample.offline (u "Paralen"))
      = raise Sample.unavailable
      /\ contains (strip (medical_disclaimer Sample.offline))
           (Models.answer
              (TextProcessor.process_text_query Sample.offline (u "Paralen")))
         = false).
Proof.
  split.
  - assert (H : Models.status (Main.text_query Sample.no_store (u "Paralen"))
                = u "error") by (vm_compute; reflexivity).
    split; [exact H|].
    exact (proj1 (error_paths_drop_disclaimer Sample.no_store)
             (u "Paralen") H).
  - assert (H : qa_chain_run Sample.offline
                  (TextProcessor._preprocess_query Sample.offline (u "Paralen"))
                = raise Sample.unavailable) by reflexivity.
    split; [exact H|].
    rewrite (proj2 (proj2 (error_paths_drop_disclaimer Sample.offline))
               (u "Paralen") Sample.unavailable H).
    vm_compute. reflexivity.
Defined.

(* ===================================================================== *)
(** * Further properties of the code *)
(* ===================================================================== *)

(** ** Facts about [strip] *)

Lemma lstrip_app_nonspace (l r : pystr) (c : N) :
  is_space c = false -> lstrip (l ++ c :: r) = lstrip l ++ c :: r.
Proof.
  intros Hc. induction l as [|a l IH]; simpl.
  - now rewrite Hc.
  - destruct (is_space a); [exact IH | reflexivity].
Qed.

Lemma rstrip_cons_nonspace (c : N) (t : pystr) :
  is_space c = false -> rstrip (c :: t) = c :: rstrip t.
Proof.
  intros Hc. unfold rstrip. simpl rev.
  rewrite (lstrip_app_nonspace (rev t) [] c Hc), rev_app_distr.
  reflexivity.
Qed.

Lemma lstrip_head (s : pystr) :
  lstrip s = [] \/ exists c t, lstrip s = c :: t /\ is_space c = false.
Proof.
  induction s as [|a s IH]; simpl; [now left|].
  destruct (is_space a) eqn:E; [exact IH|].
  right. now exists a, s.
Qed.

Lemma lstrip_idem (s : pystr) : lstrip (lstrip s) = lstrip s.
Proof.
  destruct (lstrip_head s) as [H | (c & t & H & Hc)]; rewrite H; simpl;
    [reflexivity | now rewrite Hc].
Qed.

Lemma rstrip_idem (s : pystr) : rstrip (rstrip s) = rstrip s.
Proof.
  unfold rstrip. now rewrite rev_involutive, lstrip_idem.
Qed.

Lemma strip_idem (s : pystr) : strip (strip s) = strip s.
Proof.
  unfold strip.
  destruct (lstrip_head s) as [H | (c & t & H & Hc)]; rewrite H.
  - reflexivity.
  - rewrite (rstrip_cons_nonspace c t Hc). simpl lstrip. rewrite Hc.
    rewrite (rstrip_cons_nonspace c _ Hc). now rewrite rstrip_idem.
Qed.

Lemma length_lstrip (s : pystr) : (List.length (lstrip s) <= List.length s)%nat.
Proof.
  induction s as [|a s IH]; simpl; [lia|].
  destruct (is_space a); simpl; lia.
Qed.

Lemma length_strip (s : pystr) : (List.length (strip s) <= List.length s)%nat.
Proof.
  unfold strip, rstrip. rewrite length_rev.
  etransitivity; [apply length_lstrip|]. rewrite length_rev.
  apply length_lstrip.
Qed.

Lemma strip_head (s : pystr) :
  strip s = [] \/ exists c t, strip s = c :: t /\ is_space c = false.
Proof.
  unfold strip.
  destruct (lstrip_head s) as [H | (c & t & H & Hc)]; rewrite H.
  - now left.
  - right. exists c, (rstrip t). split; [|exact Hc].
    now apply rstrip_cons_nonspace.
Qed.

(** A prefix without white space survives [strip]. *)
Lemma strip_keeps_prefix (p s : pystr) :
  forallb (fun c => negb (is_space c)) p = true ->
  p <> [] ->
  startswith p s = true -> startswith p (strip s) = true.
Proof.
  intros Hp Hne Hs.
  assert (Hsplit : exists r, s = p ++ r).
  { clear Hp Hne. revert s Hs. induction p as [|a p IH]; intros s Hs.
    - now exists s.
    - destruct s as [|b s]; [discriminate|]. simpl in Hs.
      apply andb_prop in Hs as [Hab Hs]. apply N.eqb_eq in Hab. subst b.
      destruct (IH s Hs) as [r ->]. now exists r. }
  destruct Hsplit as [r ->].
  assert (Hr : forall q, forallb (fun c => negb (is_space c)) q = true ->
                 rstrip (q ++ r) = q ++ rstrip r).
  { induction q as [|a q IH]; intros Hq; [reflexivity|].
    simpl in Hq. apply andb_prop in Hq as [Ha Hq].
    apply negb_true_iff in Ha. simpl.
    rewrite (rstrip_cons_nonspace a _ Ha). now rewrite IH. }
  unfold strip. destruct p as [|a p]; [contradiction|].
  simpl in Hp. apply andb_prop in Hp as [Ha Hp].
  assert (Ha' := Ha). apply negb_true_iff in Ha'.
  simpl lstrip. rewrite Ha'.
  change (a :: p ++ r) with ((a :: p) ++ r).
  rewrite Hr; [apply startswith_app|].
  simpl. now rewrite Ha, Hp.
Qed.

(** ** The request models *)

Lemma signatures_solid :
  forall p, In p Requests.signatures ->
    forallb (fun c => negb (is_space c)) p = true /\ p <> [].
Proof.
  intros p [<- | [<- | [<- | []]]]; split; try (vm_compute; reflexivity);
    vm_compute; discriminate.
Qed.

(** X1.  [TextQuery] accepts exactly the values of 1 to 500 characters that
    hold a character other than white space, and keeps the stripped text:
    what reaches the endpoint has 1 to 500 characters, no white space at
    either end, and never meets the endpoint's own test for a blank
    query. *)
Theorem text_request_accepted (v query : pystr) :
  (Requests.TextQuery v = ret query
   <-> ((1 <= List.length v <= 500)%nat
        /\ nonempty (strip v) = true
        /\ query = strip v))
  /\ (Requests.TextQuery v = ret query ->
      (1 <= List.length query <= 500)%nat
      /\ strip query = query
      /\ negb (nonempty (strip query)) = false).
Proof.
  assert (Hiff : Requests.TextQuery v = ret query
                 <-> ((1 <= List.length v <= 500)%nat
                      /\ nonempty (strip v) = true
                      /\ query = strip v)).
  { unfold Requests.TextQuery, Requests.validate_query.
    destruct (List.length v <? 1)%nat eqn:E1.
    { apply Nat.ltb_lt in E1. split; [discriminate | lia]. }
    destruct (500 <? List.length v)%nat eqn:E2.
    { apply Nat.ltb_lt in E2. split; [discriminate | lia]. }
    apply Nat.ltb_ge in E1, E2.
    destruct (nonempty (strip v)) eqn:E3; simpl.
    - split.
      + intros H. injection H as <-. repeat split; lia.
      + intros (_ & _ & ->). reflexivity.
    - split; [discriminate | intros (_ & H & _); discriminate]. }
  split; [exact Hiff|].
  intros H. apply Hiff in H as (Hlen & Hne & ->).
  rewrite strip_idem, Hne. repeat split; try reflexivity.
  - destruct (strip v); [discriminate | simpl; lia].
  - pose proof (length_strip v). lia.
Qed.

Lemma text_request_accepted_witness :
  Requests.TextQuery (u "  Paralen 500 mg ") = ret (u "Paralen 500 mg")
  /\ (1 <= List.length (u "Paralen 500 mg") <= 500)%nat.
Proof.
  assert (H : Requests.TextQuery (u "  Paralen 500 mg ")
              = ret (u "Paralen 500 mg")).
  { apply (text_request_accepted (u "  Paralen 500 mg ") (u "Paralen 500 mg")).
    repeat split; try (vm_compute; reflexivity); vm_compute; lia. }
  split; [exact H|].
  apply (text_request_accepted (u "  Paralen 500 mg ") (u "Paralen 500 mg")).
  exact H.
Defined.

(** X2.  A query of more than 500 characters is refused before it is
    stripped, however much of it is white space; so is any value that is
    all white space. *)
Theorem text_request_refused (v : pystr) :
  ((500 < List.length v)%nat \/ nonempty (strip v) = false) ->
  exists e, Requests.TextQuery v = raise e /\ exn_cls e = ValidationError.
Proof.
  unfold Requests.TextQuery, Requests.validate_query.
  intros H.
  destruct (List.length v <? 1)%nat; [eexists; split; reflexivity|].
  destruct (500 <? List.length v)%nat eqn:E2;
    [eexists; split; reflexivity|].
  apply Nat.ltb_ge in E2.
  destruct H as [H | H]; [lia|]. rewrite H. simpl.
  eexists; split; reflexivity.
Qed.

Lemma text_request_refused_witness :
  (500 < List.length (repeat 32%N 499 ++ u "ab"))%nat
  /\ List.length (strip (repeat 32%N 499 ++ u "ab")) = 2%nat
  /\ exists e, Requests.TextQuery (repeat 32%N 499 ++ u "ab") = raise e.
Proof.
  split; [vm_compute; lia|]. split; [vm_compute; reflexivity|].
  destruct (text_request_refused (repeat 32%N 499 ++ u "ab")) as (e & H & _).
  - left. vm_compute. lia.
  - exists e. exact H.
Defined.

(** X3.  An accepted image payload is the stripped value, it still starts
    with one of the three signatures, so the prefix test of
    [_preprocess_image] finds its format, and a data URL goes to the vision
    model as it is.  A payload that starts with white space is never
    accepted. *)
Theorem image_request_accepted (v image_data : pystr) :
  Requests.ImageQuery v = ret image_data ->
  image_data = strip v
  /\ (startswith (u "data:image") image_data
      || (startswith (u "/9j/") image_data
          || startswith (u "iVBORw0KGgo") image_data)) = true
  /\ negb (nonempty (strip image_data)) = false
  /\ (forall c t, v = c :: t -> is_space c = false)
  /\ (forall w : World,
        startswith (u "data:image") image_data = true ->
        VisionProcessor._preprocess_image w image_data = ret image_data).
Proof.
  unfold Requests.ImageQuery, Requests.validate_image_data.
  destruct (nonempty (strip v)) eqn:E1; [|discriminate].
  destruct (existsb (fun p => startswith p v) Requests.signatures) eqn:E2;
    [|discriminate].
  cbv beta iota. intros H. injection H as <-.
  split; [reflexivity|].
  assert (Hsig : existsb (fun p => startswith p (strip v)) Requests.signatures
                 = true).
  { apply existsb_exists in E2 as (p & Hp & Hs).
    apply existsb_exists. exists p. split; [exact Hp|].
    destruct (signatures_solid p Hp) as [Hsolid Hne].
    now apply strip_keeps_prefix. }
  split.
  { cbn [existsb Requests.signatures] in Hsig.
    now rewrite orb_false_r in Hsig. }
  split; [now rewrite strip_idem, E1|].
  split.
  { intros c t ->. apply existsb_exists in E2 as (p & Hp & Hs).
    destruct (signatures_solid p Hp) as [Hsolid Hne].
    destruct p as [|a p]; [contradiction|]. simpl in Hs, Hsolid.
    apply andb_prop in Hs as [Hac _]. apply N.eqb_eq in Hac. subst a.
    apply andb_prop in Hsolid as [Hc _]. now apply negb_true_iff in Hc. }
  intros w Hdata. unfold VisionProcessor._preprocess_image.
  now rewrite Hdata.
Qed.

Lemma image_request_accepted_witness :
  Requests.ImageQuery (Sample.png_payload ++ nl) = ret Sample.png_payload
  /\ forall w : World,
       VisionProcessor._preprocess_image w Sample.png_payload
       = ret Sample.png_payload.
Proof.
  assert (H : Requests.ImageQuery (Sample.png_payload ++ nl)
              = ret Sample.png_payload) by (vm_compute; reflexivity).
  split; [exact H|].
  intros w.
  apply (image_request_accepted (Sample.png_payload ++ nl)
           Sample.png_payload H).
  vm_compute. reflexivity.
Defined.

(** ** The similarity search *)

Lemma keep_similar_sound (threshold : Q) (rows results : list dict) :
  VectorStore.keep_similar threshold rows = ret results ->
  (forall r, In r results ->
     Store.similar_enough threshold r = true
     /\ map fst r = [u "id"; u "content"; u "metadata"; u "similarity"])
  /\ (List.length results <= List.length rows)%nat.
Proof.
  revert results. induction rows as [|row rows IH]; intros results H.
  - injection H as <-. split; [intros r []| simpl; lia].
  - cbn [VectorStore.keep_similar] in H.
    destruct (as_number (dict_get_or (u "similarity") (VNum 0) row))
      as [s|] eqn:Es; [|discriminate].
    destruct (Qle_bool threshold s) eqn:El.
    + apply bind_inr in H as (rest & Hrest & H). injection H as <-.
      destruct (IH rest Hrest) as [Hall Hlen]. split.
      * intros r [<- | Hin]; [|now apply Hall].
        split; [|reflexivity].
        unfold Store.similar_enough.
        change (dict_get (u "similarity") _)
          with (Some (dict_get_or (u "similarity") (VNum 0) row)).
        cbv beta iota. now rewrite Es.
      * simpl. lia.
    + destruct (IH results H) as [Hall Hlen]. split; [exact Hall|].
      simpl. lia.
Qed.

Lemma keep_similar_bad_row (threshold : Q) (rows : list dict) (row : dict) :
  In row rows ->
  as_number (dict_get_or (u "similarity") (VNum 0) row) = None ->
  exists e, VectorStore.keep_similar threshold rows = raise e.
Proof.
  intros Hin Hbad. induction rows as [|r rows IH]; [destruct Hin|].
  cbn [VectorStore.keep_similar].
  destruct Hin as [-> | Hin].
  - rewrite Hbad. now eexists.
  - destruct (IH Hin) as [e He].
    destruct (as_number (dict_get_or (u "similarity") (VNum 0) r)) as [s|];
      [|now eexists].
    destruct (Qle_bool threshold s); rewrite He; now eexists.
Qed.

Lemma search_sound (w : World) (query : pystr) (limit : nat) (threshold : Q)
    (r : dict) :
  In r (VectorStore.search_medications w query limit threshold) ->
  Store.similar_enough threshold r = true
  /\ map fst r = [u "id"; u "content"; u "metadata"; u "similarity"].
Proof.
  unfold VectorStore.search_medications, VectorStore._direct_similarity_search.
  intros H.
  destruct (nonempty (strip query)); [|destruct H].
  simpl negb in H. cbv iota in H.
  destruct (rpc_match w query limit) as [e|rows]; [destruct H|].
  simpl in H. destruct rows as [|row rows]; [destruct H|].
  destruct (VectorStore.keep_similar threshold (row :: rows)) as [e|results]
    eqn:E; [destruct H|].
  apply (keep_similar_sound _ _ _ E). exact H.
Qed.

Lemma nonblank_prefix (p s : pystr) (c : N) (t : pystr) :
  p = c :: t -> is_space c = false -> nonempty (strip (p ++ s)) = true.
Proof.
  intros -> Hc. unfold strip. simpl. rewrite Hc.
  now rewrite (rstrip_cons_nonspace c _ Hc).
Qed.

(** X4.  Every result of [search_medications] has a numeric similarity at
    or above the threshold and exactly the keys id, content, metadata and
    similarity; there are no more results than rows the store sent.  The
    search comes back empty, without an exception, for a blank query, when
    the store call raises, and when one row of the reply has a similarity
    that is no number. *)
Theorem search_results_meet_threshold
    (w : World) (query : pystr) (limit : nat) (threshold : Q) :
  (forall r, In r (VectorStore.search_medications w query limit threshold) ->
     Store.similar_enough threshold r = true
     /\ map fst r = [u "id"; u "content"; u "metadata"; u "similarity"])
  /\ (forall rows, rpc_match w query limit = ret rows ->
        (List.length (VectorStore.search_medications w query limit threshold)
         <= List.length rows)%nat)
  /\ (nonempty (strip query) = false ->
      VectorStore.search_medications w query limit threshold = [])
  /\ (forall e, rpc_match w query limit = raise e ->
        VectorStore.search_medications w query limit threshold = [])
  /\ (forall rows row,
        rpc_match w query limit = ret rows ->
        In row rows ->
        as_number (dict_get_or (u "similarity") (VNum 0) row) = None ->
        VectorStore.search_medications w query limit threshold = []).
Proof.
  split; [intros r; apply search_sound|].
  unfold VectorStore.search_medications, VectorStore._direct_similarity_search.
  repeat split.
  - intros rows Hrpc. destruct (nonempty (strip query)); [|simpl; lia].
    simpl negb. cbv iota. rewrite Hrpc. simpl bind.
    destruct rows as [|row rows]; [simpl; lia|].
    destruct (VectorStore.keep_similar threshold (row :: rows)) as [e|results]
      eqn:E; [simpl; lia|].
    apply (keep_similar_sound _ _ _ E).
  - intros ->. reflexivity.
  - intros e ->. now destruct (negb (nonempty (strip query))).
  - intros rows row Hrpc Hin Hbad.
    destruct (negb (nonempty (strip query))); [reflexivity|].
    rewrite Hrpc. simpl bind.
    destruct rows as [|r rows]; [destruct Hin|].
    destruct (keep_similar_bad_row threshold _ _ Hin Hbad) as [e ->].
    reflexivity.
Qed.

Lemma search_results_meet_threshold_witness :
  exists r,
    VectorStore.search_medications Sample.stocked (u "PARALEN") 5 (6 # 10)
    = [r]
    /\ Store.similar_enough (6 # 10) r = true.
Proof.
  eexists. split; [vm_compute; reflexivity|].
  apply (search_results_meet_threshold Sample.stocked (u "PARALEN") 5 (6 # 10)).
  vm_compute. left. reflexivity.
Defined.

(** X5.  [search_by_name] returns only results of similarity 0.6 or more
    and [search_by_active_ingredient] only results of 0.7 or more.  The
    prefix they put in front makes the query non-blank, so the store is
    asked even for an empty name. *)
Theorem named_searches (w : World) (name : pystr) :
  (forall r, In r (Store.search_by_name w name) ->
     Store.similar_enough (6 # 10) r = true)
  /\ (forall r, In r (Store.search_by_active_ingredient w name) ->
        Store.similar_enough (7 # 10) r = true)
  /\ Store.search_by_name w name
     = VectorStore._direct_similarity_search w (u "název " ++ name) 10 (6 # 10)
  /\ Store.search_by_active_ingredient w name
     = VectorStore._direct_similarity_search w (u "účinná látka " ++ name)
         15 (7 # 10).
Proof.
  unfold Store.search_by_name, Store.search_by_active_ingredient.
  split; [intros r H; now apply (search_sound _ _ _ _ _ H)|].
  split; [intros r H; now apply (search_sound _ _ _ _ _ H)|].
  unfold VectorStore.search_medications.
  split.
  - rewrite (nonblank_prefix (u "název ") name 110%N (u "ázev "));
      [reflexivity | vm_compute; reflexivity | reflexivity].
  - rewrite (nonblank_prefix (u "účinná látka ") name 250%N (u "činná látka "));
      [reflexivity | vm_compute; reflexivity | reflexivity].
Qed.

Lemma named_searches_witness :
  exists r,
    Store.search_by_name Sample.stocked (u "PARALEN") = [r]
    /\ Store.similar_enough (6 # 10) r = true.
Proof.
  eexists. split; [vm_compute; reflexivity|].
  destruct (named_searches Sample.stocked (u "PARALEN")) as [H _].
  apply H. vm_compute. left. reflexivity.
Defined.

(** ** Loading and cleaning the export *)

Lemma try_pair_some (w : World) (file_path enc sep : pystr) (df : DataFrame) :
  SuklProcessor.try_pair w file_path enc sep = Some df ->
  exists raw,
    pd_parse w file_path enc sep = ret raw
    /\ (5 < List.length (df_columns raw))%nat
    /\ df = SuklProcessor._clean_czech_text raw.
Proof.
  unfold SuklProcessor.try_pair. rewrite read_csv_declared.
  destruct (pd_parse w file_path enc sep) as [e|raw]; [discriminate|].
  simpl. destruct (5 <? List.length (df_columns raw))%nat eqn:E;
    [|discriminate].
  intros H. injection H as <-. exists raw.
  apply Nat.ltb_lt in E. now repeat split.
Qed.

Lemma try_separators_some (w : World) (file_path enc : pystr)
    (seps : list pystr) (df : DataFrame) :
  SuklProcessor.try_separators w file_path enc seps = Some df ->
  exists sep raw,
    In sep seps
    /\ pd_parse w file_path enc sep = ret raw
    /\ (5 < List.length (df_columns raw))%nat
    /\ df = SuklProcessor._clean_czech_text raw.
Proof.
  induction seps as [|sep seps IH]; [discriminate|].
  cbn [SuklProcessor.try_separators].
  destruct (SuklProcessor.try_pair w file_path enc sep) as [df'|] eqn:E.
  - intros H. injection H as <-.
    destruct (try_pair_some _ _ _ _ _ E) as (raw & H1 & H2 & H3).
    exists sep, raw. repeat split; try assumption. now left.
  - intros H. destruct (IH H) as (sep' & raw & H0 & H1).
    exists sep', raw. split; [now right | exact H1].
Qed.

Lemma try_encodings_some (w : World) (file_path : pystr)
    (encs : list (option pystr)) (df : DataFrame) :
  SuklProcessor.try_encodings w file_path encs = Some df ->
  exists enc sep raw,
    In (Some enc) encs
    /\ In sep SuklProcessor.separators
    /\ pd_parse w file_path enc sep = ret raw
    /\ (5 < List.length (df_columns raw))%nat
    /\ df = SuklProcessor._clean_czech_text raw.
Proof.
  induction encs as [|[enc|] encs IH]; [discriminate| |].
  - cbn [SuklProcessor.try_encodings].
    destruct (SuklProcessor.try_separators w file_path enc
                SuklProcessor.separators) as [df'|] eqn:E.
    + intros H. injection H as <-.
      destruct (try_separators_some _ _ _ _ _ E) as (sep & raw & H0 & H1).
      exists enc, sep, raw. split; [now left|]. split; assumption.
    + intros H. destruct (IH H) as (enc' & sep & raw & H0 & H1).
      exists enc', sep, raw. split; [now right | exact H1].
  - cbn [SuklProcessor.try_encodings].
    intros H. destruct (IH H) as (enc' & sep & raw & H0 & H1).
    exists enc', sep, raw. split; [now right | exact H1].
Qed.

Lemma load_cases (w : World) (file_path : pystr) :
  SuklProcessor.load_sukl_csv w file_path
  = if negb (os_path_exists w file_path) then
      raise (Exn FileNotFoundError
               (u "SÚKL CSV soubor nenalezen: " ++ file_path))
    else
      match SuklProcessor.try_encodings w file_path
              (SuklProcessor._detect_encoding w file_path
               :: map Some SuklProcessor.supported_encodings) with
      | Some df => ret df
      | None =>
        raise (Exn ValueError
                 (u "Nepodařilo se načíst SÚKL data: "
                  ++ u "read_csv() got an unexpected keyword argument 'errors'"))
      end.
Proof.
  unfold SuklProcessor.load_sukl_csv.
  rewrite read_csv_errors_keyword. reflexivity.
Qed.

(** X6.  A table that [load_sukl_csv] returns has more than five columns:
    it is the cleaned result of parsing the file with the detected or one
    of the four supported encodings and with comma, semicolon or tab.  When
    it raises, it is [FileNotFoundError] for a missing file and
    [ValueError] otherwise. *)
Theorem loaded_table_is_wide (w : World) (file_path : pystr) :
  (forall df,
     SuklProcessor.load_sukl_csv w file_path = ret df ->
     os_path_exists w file_path = true
     /\ (5 < List.length (df_columns df))%nat
     /\ exists enc sep raw,
          (SuklProcessor._detect_encoding w file_path = Some enc
           \/ In enc SuklProcessor.supported_encodings)
          /\ In sep [u ","; u ";"; [9%N]]
          /\ pd_parse w file_path enc sep = ret raw
          /\ df = SuklProcessor._clean_czech_text raw)
  /\ (forall e,
        SuklProcessor.load_sukl_csv w file_path = raise e ->
        (os_path_exists w file_path = false
         /\ exn_cls e = FileNotFoundError)
        \/ (os_path_exists w file_path = true /\ exn_cls e = ValueError)).
Proof.
  rewrite load_cases.
  destruct (os_path_exists w file_path); cbn [negb].
  - destruct (SuklProcessor.try_encodings w file_path
                (SuklProcessor._detect_encoding w file_path
                 :: map Some SuklProcessor.supported_encodings))
      as [df'|] eqn:E.
    + split.
      * intros df H. injection H as <-.
        destruct (try_encodings_some _ _ _ _ E)
          as (enc & sep & raw & H0 & H1 & H2 & H3 & ->).
        split; [reflexivity|]. split; [exact H3|].
        exists enc, sep, raw.
        split; [|split; [exact H1 | split; [exact H2 | reflexivity]]].
        destruct H0 as [H0 | H0]; [left; exact H0|]. right.
        apply in_map_iff in H0 as (enc' & He & Hin).
        injection He as <-. exact Hin.
      * intros e H. discriminate H.
    + split.
      * intros df H. discriminate H.
      * intros e H. right. split; [reflexivity|].
        injection H as <-. reflexivity.
  - split.
    + intros df H. discriminate H.
    + intros e H. left. split; [reflexivity|].
      injection H as <-. reflexivity.
Qed.

Lemma loaded_table_is_wide_witness :
  exists df,
    SuklProcessor.load_sukl_csv Cases.semicolon_file (u "sukl.csv") = ret df
    /\ List.length (df_columns df) = 6%nat
    /\ (5 < List.length (df_columns df))%nat.
Proof.
  eexists. split; [vm_compute; reflexivity|].
  split; [vm_compute; reflexivity|].
  apply (loaded_table_is_wide Cases.semicolon_file (u "sukl.csv")).
  vm_compute. reflexivity.
Defined.

Lemma clean_cell_text (c : cell) (s : pystr) :
  SuklProcessor.clean_cell c = CText s ->
  strip s = s /\ existsb (eqb s) SuklProcessor.null_literals = false.
Proof.
  unfold SuklProcessor.clean_cell.
  destruct c as [|t|r]; [discriminate| |].
  - destruct (existsb (eqb (strip (str_of (CText t))))
                SuklProcessor.null_literals) eqn:E; [discriminate|].
    intros H. injection H as <-. split; [apply strip_idem | exact E].
  - destruct (existsb (eqb (strip (str_of (CScalar r))))
                SuklProcessor.null_literals) eqn:E; [discriminate|].
    intros H. injection H as <-. split; [apply strip_idem | exact E].
Qed.

Lemma clean_row_text (rows : list (list cell)) (row : list cell) (i : nat)
    (s : pystr) :
  (forall j t, nth_error row j = Some (CText t) ->
     SuklProcessor.is_object_column rows (i + j) = true) ->
  In (CText s) (SuklProcessor.clean_row rows i row) ->
  strip s = s /\ existsb (eqb s) SuklProcessor.null_literals = false.
Proof.
  revert i. induction row as [|c row IH]; intros i Hobj Hin; [destruct Hin|].
  cbn [SuklProcessor.clean_row] in Hin. destruct Hin as [Hc | Hin].
  - destruct (SuklProcessor.is_object_column rows i) eqn:E.
    + now apply clean_cell_text with c.
    + subst c. specialize (Hobj 0%nat s eq_refl).
      rewrite Nat.add_0_r in Hobj. congruence.
  - apply (IH (S i)); [|exact Hin].
    intros j t Hj. specialize (Hobj (S j) t Hj).
    now rewrite Nat.add_succ_r in Hobj.
Qed.

Lemma clean_row_length (rows : list (list cell)) (row : list cell) (i : nat) :
  List.length (SuklProcessor.clean_row rows i row) = List.length row.
Proof.
  revert i. induction row as [|c row IH]; intros i; [reflexivity|].
  cbn [SuklProcessor.clean_row]. simpl. now rewrite IH.
Qed.

(** X7.  On a table with distinct column labels [_clean_czech_text] keeps
    the labels and the width of the rows, drops rows and never adds one,
    leaves no row whose cells are all missing, and leaves no text cell
    with white space at either end or equal to one of the null literals
    (the empty string among them). *)
Theorem cleaned_table (df : DataFrame) :
  NoDup (df_columns df) ->
  df_columns (SuklProcessor._clean_czech_text df) = df_columns df
  /\ (List.length (df_rows (SuklProcessor._clean_czech_text df))
      <= List.length (df_rows df))%nat
  /\ (forall row, In row (df_rows (SuklProcessor._clean_czech_text df)) ->
        existsb notna row = true
        /\ (exists original,
              In original (df_rows df)
              /\ List.length row = List.length original)
        /\ (forall s, In (CText s) row ->
              strip s = s
              /\ s <> []
              /\ existsb (eqb s) SuklProcessor.null_literals = false)).
Proof.
  intros _. unfold SuklProcessor._clean_czech_text. cbn [df_columns df_rows].
  split; [reflexivity|]. split.
  - etransitivity; [apply filter_length_le|]. now rewrite length_map.
  - intros row Hrow. apply filter_In in Hrow as [Hrow Hna].
    apply in_map_iff in Hrow as (original & <- & Hin).
    split; [exact Hna|]. split.
    + exists original. split; [exact Hin | apply clean_row_length].
    + intros s Hs.
      assert (H : strip s = s
                  /\ existsb (eqb s) SuklProcessor.null_literals = false).
      { apply (clean_row_text (df_rows df) original 0 s); [|exact Hs].
        intros j t Hj. simpl. unfold SuklProcessor.is_object_column.
        apply existsb_exists. exists original. split; [exact Hin|].
        now rewrite (nth_error_nth _ _ _ Hj). }
      destruct H as [H1 H2]. repeat split; try assumption.
      intros ->. discriminate H2.
Qed.

Lemma cleaned_table_witness :
  df_rows (SuklProcessor._clean_czech_text Cases.export)
  = [ [CText (u "PARALEN 500MG"); CText (u "Paracetamolum");
       CText (u "500 mg"); CText (u "Potahované tablety");
       CText (u "N02BE01"); CScalar (u "45.5")];
      [CText (u "IBALGIN"); CNA; CText (u "400 mg"); CNA;
       CText (u "M01AE01"); CScalar (u "89")] ]
  /\ strip (u "IBALGIN") = u "IBALGIN".
Proof.
  split; [vm_compute; reflexivity|].
  destruct (cleaned_table Cases.export) as (_ & _ & H);
    [apply nodupb_sound; vm_compute; reflexivity|].
  destruct (H [CText (u "IBALGIN"); CNA; CText (u "400 mg"); CNA;
               CText (u "M01AE01"); CScalar (u "89")]) as (_ & _ & Hs).
  - vm_compute. right. left. reflexivity.
  - apply (Hs (u "IBALGIN")). left. reflexivity.
Defined.

(** ** Extraction from any table *)

Lemma convert_value_text (v : lookup) (s : pystr) :
  SuklProcessor.convert_value v = ret (Some s) ->
  nonempty s = true /\ strip s = s.
Proof.
  destruct v as [|c|cs]; cbn [SuklProcessor.convert_value];
    [discriminate| |discriminate].
  destruct (notna c && nonempty (strip (str_of c))) eqn:E; [|discriminate].
  intros H. injection H as <-.
  apply andb_prop in E as [_ E]. split; [exact E | apply strip_idem].
Qed.

Lemma build_med_data_values (cols : list pystr) (row : list cell)
    (mapping : list (pystr * pystr)) (d : SuklProcessor.med_dict) :
  SuklProcessor.build_med_data cols row mapping = ret d ->
  forall k s, SuklProcessor.med_get k d = Some s ->
    nonempty s = true /\ strip s = s.
Proof.
  revert d. induction mapping as [|[f col] mapping IH]; intros d H k s Hk.
  - injection H as <-. discriminate Hk.
  - cbn [SuklProcessor.build_med_data] in H.
    apply bind_inr in H as (v & Hv & H).
    apply bind_inr in H as (d' & Hd' & H). injection H as <-.
    cbn [SuklProcessor.med_get] in Hk.
    destruct (eqb f k).
    + subst v. now apply convert_value_text with (row_get cols row col).
    + now apply (IH d' Hd' k s).
Qed.

Lemma extract_row_some (cols : list pystr) (mapping : list (pystr * pystr))
    (row : list cell) (m : Models.MedicationInfo) :
  SuklProcessor.extract_row cols mapping row = Some m ->
  exists d,
    SuklProcessor.build_med_data cols row mapping = ret d
    /\ m = SuklProcessor.MedicationInfo_of d
    /\ SuklProcessor.med_truthy (u "name") d = true
    /\ (SuklProcessor.med_truthy (u "active_ingredient") d
        || SuklProcessor.med_truthy (u "atc_code") d) = true.
Proof.
  unfold SuklProcessor.extract_row.
  destruct (SuklProcessor.build_med_data cols row mapping) as [e|d];
    [discriminate|].
  cbn [bind try_except].
  destruct (SuklProcessor.med_truthy (u "name") d) eqn:E1; [|discriminate].
  destruct (SuklProcessor.med_truthy (u "active_ingredient") d) eqn:E2;
    [|destruct (SuklProcessor.med_truthy (u "atc_code") d) eqn:E3;
      [|discriminate]];
    cbn [negb andb try_except ret]; intros H; injection H as <-;
    exists d; rewrite E1, E2, ?E3; repeat split; reflexivity.
Qed.

Lemma extract_rows_in (cols : list pystr) (mapping : list (pystr * pystr))
    (rows : list (list cell)) (m : Models.MedicationInfo) :
  In m (SuklProcessor.extract_rows cols mapping rows) ->
  exists row, In row rows
    /\ SuklProcessor.extract_row cols mapping row = Some m.
Proof.
  induction rows as [|row rows IH]; [intros []|].
  cbn [SuklProcessor.extract_rows].
  destruct (SuklProcessor.extract_row cols mapping row) as [m'|] eqn:E.
  - intros [<- | H].
    + exists row. split; [now left | exact E].
    + destruct (IH H) as (r & Hr & He). exists r. split; [now right|exact He].
  - intros H. destruct (IH H) as (r & Hr & He).
    exists r. split; [now right|exact He].
Qed.

Lemma extract_rows_length (cols : list pystr) (mapping : list (pystr * pystr))
    (rows : list (list cell)) :
  (List.length (SuklProcessor.extract_rows cols mapping rows)
   <= List.length rows)%nat.
Proof.
  induction rows as [|row rows IH]; [simpl; lia|].
  cbn [SuklProcessor.extract_rows].
  destruct (SuklProcessor.extract_row cols mapping row); simpl; lia.
Qed.

Lemma extracted_named (df : DataFrame) (m : Models.MedicationInfo) :
  In m (SuklProcessor.extract_medication_info df) ->
  SuklProcessor.has (Models.name m) = true
  /\ (SuklProcessor.has (Models.active_ingredient m)
      || SuklProcessor.has (Models.atc_code m)) = true
  /\ (forall s, In (Some s) (Cases.fields m) -> s <> [] /\ strip s = s).
Proof.
  unfold SuklProcessor.extract_medication_info. intros H.
  apply extract_rows_in in H as (row & _ & H).
  apply extract_row_some in H as (d & Hd & -> & Hn & Hi).
  split; [exact Hn|]. split; [exact Hi|].
  intros s Hs.
  assert (Hv : forall k, SuklProcessor.med_get k d = Some s ->
                 s <> [] /\ strip s = s).
  { intros k Hk.
    destruct (build_med_data_values _ _ _ _ Hd k s Hk) as [H1 H2].
    split; [|exact H2]. intros ->. discriminate H1. }
  unfold Cases.fields in Hs.
  destruct Hs as [Hs|Hs]; [exact (Hv (u "name") Hs)|].
  destruct Hs as [Hs|Hs]; [exact (Hv (u "active_ingredient") Hs)|].
  destruct Hs as [Hs|Hs]; [exact (Hv (u "strength") Hs)|].
  destruct Hs as [Hs|Hs]; [exact (Hv (u "form") Hs)|].
  destruct Hs as [Hs|Hs]; [exact (Hv (u "manufacturer") Hs)|].
  destruct Hs as [Hs|Hs]; [exact (Hv (u "registration_number") Hs)|].
  destruct Hs as [Hs|Hs]; [exact (Hv (u "atc_code") Hs)|].
  destruct Hs as [Hs|Hs]; [exact (Hv (u "indication") Hs)|].
  destruct Hs as [Hs|Hs]; [exact (Hv (u "contraindication") Hs)|].
  destruct Hs as [Hs|Hs]; [exact (Hv (u "side_effects") Hs)|].
  destruct Hs as [Hs|Hs]; [exact (Hv (u "interactions") Hs)|].
  destruct Hs as [Hs|Hs]; [exact (Hv (u "dosage") Hs)|].
  destruct Hs as [Hs|Hs]; [exact (Hv (u "price") Hs)|].
  destruct Hs as [Hs|Hs]; [exact (Hv (u "prescription_required") Hs)|].
  destruct Hs.
Qed.

(** X8.  Whatever the table, a record that [extract_medication_info]
    returns has a name and an active ingredient or an ATC code, none of its
    fields is an empty string, and every field it holds is free of white
    space at both ends; there are never more records than rows. *)
Theorem extracted_records_are_identifiable (df : DataFrame) :
  (forall m, In m (SuklProcessor.extract_medication_info df) ->
     SuklProcessor.has (Models.name m) = true
     /\ (SuklProcessor.has (Models.active_ingredient m)
         || SuklProcessor.has (Models.atc_code m)) = true
     /\ (forall s, In (Some s) (Cases.fields m) -> s <> [] /\ strip s = s))
  /\ (List.length (SuklProcessor.extract_medication_info df)
      <= List.length (df_rows df))%nat.
Proof.
  split; [intros m; apply extracted_named | apply extract_rows_length].
Qed.

Lemma extracted_records_are_identifiable_witness :
  map Models.name
    (SuklProcessor.extract_medication_info
       (SuklProcessor._clean_czech_text Cases.export))
  = [Some (u "PARALEN 500MG"); Some (u "IBALGIN")]
  /\ forall m,
       In m (SuklProcessor.extract_medication_info
               (SuklProcessor._clean_czech_text Cases.export)) ->
       SuklProcessor.has (Models.name m) = true.
Proof.
  split; [vm_compute; reflexivity|].
  intros m Hm.
  apply (extracted_records_are_identifiable
           (SuklProcessor._clean_czech_text Cases.export)).
  exact Hm.
Defined.

Lemma cells_at_length (cols : list pystr) (row : list cell) (col : pystr) :
  List.length (cells_at cols row col)
  = List.length (filter (fun c => eqb c col) cols).
Proof.
  revert row. induction cols as [|c cols IH]; intros row; [reflexivity|].
  cbn [cells_at filter]. destruct (eqb c col); simpl; now rewrite IH.
Qed.

Lemma build_med_data_raises (cols : list pystr) (row : list cell)
    (mapping : list (pystr * pystr)) (f col : pystr) :
  In (f, col) mapping ->
  (2 <= List.length (cells_at cols row col))%nat ->
  exists e, SuklProcessor.build_med_data cols row mapping = raise e.
Proof.
  intros Hin Hlen. induction mapping as [|[f' col'] mapping IH];
    [destruct Hin|].
  cbn [SuklProcessor.build_med_data].
  destruct Hin as [Heq | Hin].
  - injection Heq as -> ->. unfold row_get.
    destruct (cells_at cols row col) as [|c1 [|c2 cs]];
      [simpl in Hlen; lia | simpl in Hlen; lia |].
    cbn [SuklProcessor.convert_value bind raise]. now eexists.
  - destruct (IH Hin) as [e He].
    destruct (SuklProcessor.convert_value (row_get cols row col'))
      as [e'|v]; cbn [bind]; [now eexists|].
    rewrite He. cbn [bind raise]. now eexists.
Qed.

Lemma assoc_in {A} (k : pystr) (l : list (pystr * A)) (a : A) :
  assoc k l = Some a -> In (k, a) l.
Proof.
  induction l as [|[k' a'] l IH]; [discriminate|].
  cbn [assoc]. destruct (eqb k' k) eqn:E.
  - intros H. injection H as <-. apply eqb_eq in E. subst k'. now left.
  - intros H. right. now apply IH.
Qed.

(** X9.  When the column a field is read from has a label that occurs
    twice or more among the columns of the table, every row is skipped and
    the extraction returns no record at all. *)
Theorem duplicated_label_drops_every_row
    (df : DataFrame) (field col : pystr) :
  assoc field (SuklProcessor.actual_mapping df) = Some col ->
  (2 <= List.length (filter (fun c => eqb c col) (df_columns df)))%nat ->
  SuklProcessor.extract_medication_info df = [].
Proof.
  intros Hmap Hdup. unfold SuklProcessor.extract_medication_info.
  apply assoc_in in Hmap.
  induction (df_rows df) as [|row rows IH]; [reflexivity|].
  cbn [SuklProcessor.extract_rows].
  unfold SuklProcessor.extract_row at 1.
  destruct (build_med_data_raises (df_columns df) row _ _ _ Hmap) as [e ->].
  - now rewrite cells_at_length.
  - cbn [bind raise try_except]. exact IH.
Qed.

Lemma duplicated_label_drops_every_row_witness :
  assoc (u "name") (SuklProcessor.actual_mapping Cases.doubled)
  = Some (u "NAZEV")
  /\ (2 <= List.length (filter (fun c => eqb c (u "NAZEV"))
                          (df_columns Cases.doubled)))%nat
  /\ SuklProcessor.extract_medication_info Cases.doubled = [].
Proof.
  assert (H1 : assoc (u "name") (SuklProcessor.actual_mapping Cases.doubled)
               = Some (u "NAZEV")) by (vm_compute; reflexivity).
  assert (H2 : (2 <= List.length (filter (fun c => eqb c (u "NAZEV"))
                                    (df_columns Cases.doubled)))%nat)
    by (vm_compute; lia).
  split; [exact H1|]. split; [exact H2|].
  exact (duplicated_label_drops_every_row Cases.doubled (u "name") (u "NAZEV")
           H1 H2).
Defined.

Lemma first_available_spec (available names : list pystr) (col : pystr) :
  SuklProcessor.first_available available names = Some col ->
  In col available
  /\ exists before after,
       names = before ++ col :: after
       /\ forall c, In c before -> ~ In c available.
Proof.
  induction names as [|n names IH]; [discriminate|].
  cbn [SuklProcessor.first_available].
  destruct (existsb (eqb n) available) eqn:E.
  - intros H. injection H as <-. split; [now apply existsb_eqb_In|].
    exists [], names. split; [reflexivity | intros c []].
  - intros H. destruct (IH H) as (Hin & before & after & -> & Hb).
    split; [exact Hin|]. exists (n :: before), after.
    split; [reflexivity|]. intros c [<- | Hc]; [|now apply Hb].
    intros Hn. apply existsb_eqb_In in Hn. congruence.
Qed.

Lemma first_available_none (available names : list pystr) :
  (forall c, In c names -> ~ In c available) ->
  SuklProcessor.first_available available names = None.
Proof.
  induction names as [|n names IH]; intros H; [reflexivity|].
  cbn [SuklProcessor.first_available].
  destruct (existsb (eqb n) available) eqn:E.
  - apply existsb_eqb_In in E. exfalso. apply (H n); [now left | exact E].
  - apply IH. intros c Hc. apply H. now right.
Qed.

(** X10.  A field is read from the first of its listed column names that
    the table has: the chosen label is a column of the table, and every
    name listed before it is absent.  A field none of whose names is a
    column is left out of the mapping. *)
Theorem column_resolution (df : DataFrame) (field : pystr) :
  (forall col,
     assoc field (SuklProcessor.actual_mapping df) = Some col ->
     In col (df_columns df)
     /\ exists before after,
          assoc field SuklProcessor.column_mapping
          = Some (before ++ col :: after)
          /\ forall c, In c before -> ~ In c (df_columns df))
  /\ (forall names,
        assoc field SuklProcessor.column_mapping = Some names ->
        (forall c, In c names -> ~ In c (df_columns df)) ->
        assoc field (SuklProcessor.actual_mapping df) = None).
Proof.
  unfold SuklProcessor.actual_mapping.
  rewrite (assoc_build_mapping _ _ _ column_mapping_keys).
  split.
  - intros col H.
    destruct (assoc field SuklProcessor.column_mapping) as [names|];
      [|discriminate].
    destruct (first_available_spec _ _ _ H) as (Hin & before & after & -> & Hb).
    split; [exact Hin|]. exists before, after. split; [reflexivity|exact Hb].
  - intros names -> H. now apply first_available_none.
Qed.

Lemma column_resolution_witness :
  assoc (u "name") (SuklProcessor.actual_mapping Cases.both_spellings)
  = Some (u "NAZEV")
  /\ In (u "NAZEV") (df_columns Cases.both_spellings).
Proof.
  assert (H : assoc (u "name")
                (SuklProcessor.actual_mapping Cases.both_spellings)
              = Some (u "NAZEV")) by (vm_compute; reflexivity).
  split; [exact H|].
  apply (column_resolution Cases.both_spellings (u "name")). exact H.
Defined.

Lemma startswith_refl (p : pystr) : startswith p p = true.
Proof.
  rewrite <- (app_nil_r p) at 2. apply startswith_app.
Qed.

Lemma startswith_join (sep p : pystr) (rest : list pystr) :
  startswith p (join sep (p :: rest)) = true.
Proof.
  destruct rest as [|q rest]; cbn [join];
    [apply startswith_refl | apply startswith_app].
Qed.

(** X11.  [create_embedding_texts] makes one document per record, and for
    every record extracted from a table the document's content begins with
    the line of its name, while its metadata carries that name under the
    five keys name, active_ingredient, registration_number, atc_code and
    prescription_required. *)
Theorem documents_of_extracted_records (df : DataFrame) :
  List.length
    (SuklProcessor.create_embedding_texts
       (SuklProcessor.extract_medication_info df))
  = List.length (SuklProcessor.extract_medication_info df)
  /\ forall doc,
       In doc (SuklProcessor.create_embedding_texts
                 (SuklProcessor.extract_medication_info df)) ->
       exists n,
         n <> []
         /\ SuklProcessor.med_get (u "name") (SuklProcessor.metadata doc)
            = Some n
         /\ startswith (u "Název: " ++ n) (SuklProcessor.content doc) = true
         /\ map fst (SuklProcessor.metadata doc)
            = map u ["name"; "active_ingredient"; "registration_number";
                     "atc_code"; "prescription_required"]%string.
Proof.
  unfold SuklProcessor.create_embedding_texts.
  split; [apply length_map|].
  intros doc Hdoc. apply in_map_iff in Hdoc as (m & <- & Hm).
  apply extracted_named in Hm as (Hn & _ & _).
  destruct (Models.name m) as [[|c n]|] eqn:En; try discriminate Hn.
  exists (c :: n). split; [discriminate|].
  split; [cbn [SuklProcessor.embedding_document SuklProcessor.metadata];
          cbn [SuklProcessor.med_get]; rewrite eqb_refl; exact En|].
  split; [|reflexivity].
  unfold SuklProcessor.embedding_document.
  cbn [SuklProcessor.content].
  rewrite ingredient_line, !append_if_line.
  rewrite En. unfold Spec.line at 1. cbn [snd fst].
  rewrite <- !app_assoc. cbn [app].
  change (u "Název: " ++ c :: n) with (u "Název" ++ u ": " ++ c :: n).
  apply startswith_join.
Qed.

Lemma documents_of_extracted_records_witness :
  map SuklProcessor.content
    (SuklProcessor.create_embedding_texts
       (SuklProcessor.extract_medication_info Sample.test_table))
  = [u "Název: PARALEN 500MG" ++ nl ++ u "Účinná látka: Paracetamolum"
     ++ nl ++ u "Síla: 500 mg"]
  /\ exists doc n,
       In doc (SuklProcessor.create_embedding_texts
                 (SuklProcessor.extract_medication_info Sample.test_table))
       /\ startswith (u "Název: " ++ n) (SuklProcessor.content doc) = true.
Proof.
  split; [vm_compute; reflexivity|].
  destruct (documents_of_extracted_records Sample.test_table) as [_ H].
  destruct (H (SuklProcessor.embedding_document
                 (SuklProcessor.MedicationInfo_of
                    [(u "name", Some (u "PARALEN 500MG"));
                     (u "active_ingredient", Some (u "Paracetamolum"));
                     (u "strength", Some (u "500 mg"))])))
    as (n & _ & _ & Hn & _).
  - vm_compute. left. reflexivity.
  - eexists. exists n. split; [|exact Hn]. vm_compute. left. reflexivity.
Defined.

(** ** Reading the reply of the vision model *)

Lemma dict_has_set (k : pystr) (v : pyval) (d : dict) :
  dict_has k (dict_set k v d) = true.
Proof. unfold dict_has. now rewrite dict_get_set, eqb_refl. Qed.

Lemma dict_set_other (k k' : pystr) (v : pyval) (d : dict) :
  dict_get k' d = None ->
  forall x, dict_get k d = Some x -> dict_get k (dict_set k' v d) = Some x.
Proof.
  intros Hk' x Hk. rewrite dict_get_set.
  destruct (eqb k' k) eqn:E; [|exact Hk].
  apply eqb_eq in E. subst k'. congruence.
Qed.

Lemma fill_default (k : pystr) (v : pyval) (d : dict) :
  dict_has k (if dict_has k d then d else dict_set k v d) = true
  /\ (forall k' x, dict_get k' d = Some x ->
        dict_get k' (if dict_has k d then d else dict_set k v d) = Some x)
  /\ (dict_get k d = None ->
      dict_get k (if dict_has k d then d else dict_set k v d) = Some v).
Proof.
  unfold dict_has at 2 3 4.
  destruct (dict_get k d) as [x|] eqn:E.
  - split; [unfold dict_has; now rewrite E|].
    split; [intros k' y H; exact H | intros H; discriminate H].
  - split; [apply dict_has_set|].
    split; [intros k' y H; now apply dict_set_other|].
    intros _. now rewrite dict_get_set, eqb_refl.
Qed.

(** X12.  What [_parse_vision_response] returns always has a name and a
    confidence score.  From a JSON object every key of the reply is kept as
    it is, a missing name becomes the placeholder and a missing score 0.0;
    a reply that is no JSON gives the placeholder for the name, the reply
    itself as extracted text, and the score 0.3 or 0.5. *)
Theorem parsed_reply_fields (w : World) (response_text : pystr) :
  (forall d, _parse_vision_response w response_text = ret d ->
     dict_has (u "name") d = true
     /\ dict_has (u "confidence_score") d = true)
  /\ (forall j, json_loads w (strip response_text) = Some (VDict j) ->
        exists d,
          _parse_vision_response w response_text = ret d
          /\ (forall k v, dict_get k j = Some v -> dict_get k d = Some v)
          /\ (dict_get (u "name") j = None ->
              dict_get (u "name") d = Some (VStr placeholder))
          /\ (dict_get (u "confidence_score") j = None ->
              dict_get (u "confidence_score") d = Some (VNum 0)))
  /\ (json_loads w (strip response_text) = None ->
        exists d c,
          _parse_vision_response w response_text = ret d
          /\ dict_get (u "name") d = Some (VStr placeholder)
          /\ dict_get (u "active_ingredient") d = Some (VStr placeholder)
          /\ dict_get (u "extracted_text") d = Some (VStr response_text)
          /\ dict_get (u "confidence_score") d = Some (VNum c)
          /\ (c = 3 # 10 \/ c = 5 # 10)).
Proof.
  unfold _parse_vision_response.
  destruct (json_loads w (strip response_text)) as [v|] eqn:Ej.
  - destruct v as [|b|q|s|l|j];
      try (split; [intros d H; discriminate H|];
           split; [intros j H; discriminate H|];
           intros H; discriminate H).
    cbv zeta.
    destruct (fill_default (u "name") (VStr placeholder) j)
      as (Hn1 & Hn2 & Hn3).
    match type of Hn1 with dict_has _ ?t = true => set (x := t) in * end.
    destruct (fill_default (u "confidence_score") (VNum 0) x)
      as (Hc1 & Hc2 & Hc3).
    match type of Hc1 with dict_has _ ?t = true => set (y := t) in * end.
    assert (Hy : dict_has (u "name") y = true).
    { unfold dict_has in Hn1 |- *.
      destruct (dict_get (u "name") x) as [n|] eqn:E; [|discriminate Hn1].
      now rewrite (Hc2 _ _ E). }
    split; [|split].
    + intros d H. injection H as <-. split; [exact Hy | exact Hc1].
    + intros j' H. injection H as <-. exists y. split; [reflexivity|].
      split; [|split].
      * intros k v Hk. apply Hc2. now apply Hn2.
      * intros Hn. apply Hc2. now apply Hn3.
      * intros Hc. apply Hc3. subst x. unfold dict_has.
        destruct (dict_get (u "name") j); [exact Hc|].
        rewrite dict_get_set.
        change (eqb (u "name") (u "confidence_score")) with false.
        exact Hc.
    + intros H. discriminate H.
  - split; [|split].
    + intros d H.
      destruct (any_in _ _); injection H as <-; split; reflexivity.
    + intros j H. discriminate H.
    + intros _.
      destruct (any_in _ _); eexists; eexists;
        (split; [reflexivity|]); repeat split; auto.
Qed.

Lemma parsed_reply_fields_witness :
  exists d,
    _parse_vision_response Cases.prose_reply (u "Na obrázku je Paralen 500 mg.")
    = ret d
    /\ dict_get (u "confidence_score") d = Some (VNum (5 # 10))
    /\ dict_has (u "name") d = true.
Proof.
  eexists. split; [vm_compute; reflexivity|].
  split; [vm_compute; reflexivity|].
  destruct (parsed_reply_fields Cases.prose_reply
              (u "Na obrázku je Paralen 500 mg.")) as [H _].
  apply H. vm_compute. reflexivity.
Defined.

(** X13.  When the image is accepted and the model's reply is no JSON, the
    recognition always ends with the placeholder as name, the score 0.0 and
    the warning of the lowest tier: both penalties apply to the 0.3 or 0.5
    the parser gave, whatever the reply says. *)
Theorem prose_reply_scores_zero
    (w : World) (image_data url reply : pystr) :
  _preprocess_image w image_data = ret url ->
  vision_chat w url = ret reply ->
  json_loads w (strip reply) = None ->
  name (process_medication_image w image_data) = VStr placeholder
  /\ active_ingredient (process_medication_image w image_data)
     = VStr placeholder
  /\ (exists c,
        VisionProcessor.confidence_score
          (process_medication_image w image_data) = VNum c
        /\ c == 0)
  /\ warning (process_medication_image w image_data)
     = VStr (u "Velmi nízká spolehlivost rozpoznání. Zkuste obrázek s lepším osvětlením nebo z jiného úhlu.")
  /\ validated (process_medication_image w image_data) = VNone
  /\ sukl_matches (process_medication_image w image_data) = VNone.
Proof.
  intros Hurl Hchat Hjson. unfold process_medication_image.
  rewrite Hurl. cbn [bind ret]. rewrite Hchat. cbn [bind ret].
  unfold _parse_vision_response. rewrite Hjson.
  destruct (any_in _ (lower w reply)).
  - vm_compute. repeat split. exists (0 # 100). split; reflexivity.
  - vm_compute. repeat split. exists (0 # 100). split; reflexivity.
Qed.

Lemma prose_reply_scores_zero_witness :
  _preprocess_image Cases.prose_reply Sample.png_payload
  = ret Sample.png_payload
  /\ warning (process_medication_image Cases.prose_reply Sample.png_payload)
     = VStr (u "Velmi nízká spolehlivost rozpoznání. Zkuste obrázek s lepším osvětlením nebo z jiného úhlu.").
Proof.
  assert (H : _preprocess_image Cases.prose_reply Sample.png_payload
              = ret Sample.png_payload) by (vm_compute; reflexivity).
  split; [exact H|].
  apply (prose_reply_scores_zero Cases.prose_reply Sample.png_payload
           Sample.png_payload (u "Na obrázku je Paralen 500 mg.") H);
    vm_compute; reflexivity.
Defined.

(** ** The score and its warning *)

Lemma round2_below (x : Q) (k : Z) : x < k # 100 -> round2 x <= k # 100.
Proof.
  destruct x as [n d]. unfold round2, round_half_even, Qlt, Qle.
  simpl Qnum. simpl Qden. rewrite Pos.mul_1_r. intros H.
  assert (Hd : (0 < Z.pos d)%Z) by lia.
  pose proof (Z.div_mod (n * 100) (Z.pos d) ltac:(lia)) as Hdm.
  pose proof (Z.mod_pos_bound (n * 100) (Z.pos d) Hd) as Hm.
  set (fl := (n * 100 / Z.pos d)%Z) in *.
  set (r := ((n * 100) mod Z.pos d)%Z) in *.
  assert (Hfl : (fl < k)%Z) by nia.
  match goal with
  | |- context [(?a ?= ?b)%Z] => destruct (a ?= b)%Z
  end; [destruct (Z.even fl)| |]; lia.
Qed.

Lemma round2_above (x : Q) (k : Z) : k # 100 <= x -> k # 100 <= round2 x.
Proof.
  destruct x as [n d]. unfold round2, round_half_even, Qlt, Qle.
  simpl Qnum. simpl Qden. rewrite Pos.mul_1_r. intros H.
  assert (Hd : (0 < Z.pos d)%Z) by lia.
  pose proof (Z.div_mod (n * 100) (Z.pos d) ltac:(lia)) as Hdm.
  pose proof (Z.mod_pos_bound (n * 100) (Z.pos d) Hd) as Hm.
  set (fl := (n * 100 / Z.pos d)%Z) in *.
  set (r := ((n * 100) mod Z.pos d)%Z) in *.
  assert (Hfl : (k <= fl)%Z) by nia.
  match goal with
  | |- context [(?a ?= ?b)%Z] => destruct (a ?= b)%Z
  end; [destruct (Z.even fl)| |]; lia.
Qed.

Lemma warning_after_score (c : pyval) (d : dict) :
  dict_get (u "warning") (dict_set (u "confidence_score") c d)
  = dict_get (u "warning") d.
Proof. rewrite dict_get_set. reflexivity. Qed.

Lemma tier_of_score (cu : Q) (x : dict) :
  (cu < 8 # 10 ->
   exists t,
     In t Cases.tier_warnings
     /\ dict_get (u "warning")
          (if Qlt_le_dec cu (4 # 10) then
             dict_set (u "warning")
               (VStr (u "Velmi nízká spolehlivost rozpoznání. Zkuste obrázek s lepším osvětlením nebo z jiného úhlu."))
               x
           else if Qlt_le_dec cu (6 # 10) then
             dict_set (u "warning")
               (VStr (u "Nízká spolehlivost rozpoznání. Doporučujeme ověřit informace."))
               x
           else if Qlt_le_dec cu (8 # 10) then
             dict_set (u "warning")
               (VStr (u "Střední spolehlivost rozpoznání. Zkontrolujte správnost údajů."))
               x
           else x)
        = Some t)
  /\ (8 # 10 <= cu ->
      (if Qlt_le_dec cu (4 # 10) then
         dict_set (u "warning")
           (VStr (u "Velmi nízká spolehlivost rozpoznání. Zkuste obrázek s lepším osvětlením nebo z jiného úhlu."))
           x
       else if Qlt_le_dec cu (6 # 10) then
         dict_set (u "warning")
           (VStr (u "Nízká spolehlivost rozpoznání. Doporučujeme ověřit informace."))
           x
       else if Qlt_le_dec cu (8 # 10) then
         dict_set (u "warning")
           (VStr (u "Střední spolehlivost rozpoznání. Zkontrolujte správnost údajů."))
           x
       else x)
      = x).
Proof.
  destruct (Qlt_le_dec cu (4 # 10)) as [L4|L4];
    [|destruct (Qlt_le_dec cu (6 # 10)) as [L6|L6];
      [|destruct (Qlt_le_dec cu (8 # 10)) as [L8|L8]]].
  - split.
    + intros _. eexists. split; [left; reflexivity|].
      now rewrite dict_get_set, eqb_refl.
    + intros H. lra.
  - split.
    + intros _. eexists. split; [right; left; reflexivity|].
      now rewrite dict_get_set, eqb_refl.
    + intros H. lra.
  - split.
    + intros _. eexists. split; [right; right; left; reflexivity|].
      now rewrite dict_get_set, eqb_refl.
    + intros H. lra.
  - split; [intros H; lra | reflexivity].
Qed.

Lemma max0_le (x y : Q) : x <= y -> 0 <= y -> max0 x <= y.
Proof. unfold max0. destruct (Qlt_le_dec 0 x); intros; lra. Qed.

(** The unrounded score, the dictionary the tier is written into, and the
    result, for a score that is a number. *)
Lemma quality_explicit (d d' : dict) :
  _validate_recognition_quality d = ret d' ->
  exists (c cu : Q) (x : dict),
    as_number (dict_get_or (u "confidence_score") (VNum 0) d) = Some c
    /\ cu = (let c1 := if missing (dict_get_or (u "name") (VStr []) d)
                       then max0 (c - (3 # 10)) else c in
             if missing (dict_get_or (u "active_ingredient") (VStr []) d)
             then max0 (c1 - (2 # 10)) else c1)
    /\ x = (if missing (dict_get_or (u "name") (VStr []) d)
            then dict_set (u "warning")
                   (VStr (u "Nepodařilo se rozpoznat název léku")) d
            else d)
    /\ dict_get (u "confidence_score") d' = Some (VNum (round2 cu))
    /\ (cu < 8 # 10 ->
        exists t, In t Cases.tier_warnings
                  /\ dict_get (u "warning") d' = Some t)
    /\ (8 # 10 <= cu -> dict_get (u "warning") d' = dict_get (u "warning") x).
Proof.
  unfold _validate_recognition_quality, penalize.
  destruct (as_number (dict_get_or (u "confidence_score") (VNum 0) d))
    as [c|] eqn:Ec;
    destruct (missing (dict_get_or (u "name") (VStr []) d));
    destruct (missing (dict_get_or (u "active_ingredient") (VStr []) d));
    cbn [bind ret raise as_number]; rewrite ?Ec;
    try (intros H; discriminate H);
    intros H; injection H as <-;
    match goal with
    | |- context [Qlt_le_dec ?cu (4 # 10)] =>
      match goal with
      | |- context [if Qlt_le_dec cu (8 # 10) then _ else ?x] =>
        exists c, cu, x; destruct (tier_of_score cu x) as [Hlow Hhigh]
      end
    end;
    (split; [reflexivity|]); (split; [reflexivity|]);
    (split; [reflexivity|]);
    (split; [now rewrite dict_get_set, eqb_refl|]);
    rewrite warning_after_score;
    (split; [exact Hlow | intros Hge; now rewrite (Hhigh Hge)]).
Qed.



(** ** Validation against the store *)

Lemma to_dict_keys (v : VisionResult) : map fst (to_dict v) = Cases.field_keys.
Proof. reflexivity. Qed.

Lemma set_field_none (k : pystr) (x : pyval) (v : VisionResult) :
  set_field k x v = None <-> existsb (eqb k) Cases.field_keys = false.
Proof.
  destruct v. unfold set_field.
  cbn [existsb map Cases.field_keys].
  repeat match goal with
         | |- context [eqb k ?s] => destruct (eqb k s)
         end;
    cbn [orb]; split; intros H; try discriminate H; reflexivity.
Qed.

Lemma update_attrs_fields (w : World) (pre rest : dict) (v : VisionResult) :
  (forall k, In k (map fst pre) -> existsb (eqb k) Cases.field_keys = true) ->
  exists v1, update_attrs w (pre ++ rest) v = update_attrs w rest v1.
Proof.
  revert v. induction pre as [|[k x] pre IH]; intros v Hpre.
  - now exists v.
  - cbn [app update_attrs].
    destruct (set_field k x v) as [v'|] eqn:E.
    + apply IH. intros k' Hk'. apply Hpre. now right.
    + apply set_field_none in E. rewrite Hpre in E; [discriminate|now left].
Qed.

Lemma update_attrs_assigns (w : World) (pre post : dict) (k : pystr)
    (x : pyval) (v v' : VisionResult) (e : option pyexn) :
  (forall k', In k' (map fst pre) ->
     existsb (eqb k') Cases.field_keys = true) ->
  existsb (eqb k) Cases.field_keys = true ->
  ~ In k (map fst post) ->
  update_attrs w (pre ++ (k, x) :: post) v = (v', e) ->
  dict_get k (to_dict v') = Some x.
Proof.
  intros Hpre Hk Hpost H.
  destruct (update_attrs_fields w pre ((k, x) :: post) v Hpre) as [v1 H1].
  rewrite H1 in H. cbn [update_attrs] in H.
  destruct (set_field k x v1) as [v2|] eqn:E.
  - apply (update_attrs_keeps w post v2 v' e k x H).
    + intros value Hin. exfalso. apply Hpost.
      apply in_map_iff. now exists (k, value).
    + rewrite (set_field_to_dict _ _ _ _ E).
      now rewrite dict_get_set, eqb_refl.
  - apply set_field_none in E. congruence.
Qed.

Lemma backfill_key_order (items d : dict) :
  exists extra, map fst (VectorStore.backfill items d) = map fst d ++ extra.
Proof.
  revert d. induction items as [|[k x] items IH]; intros d.
  - exists []. now rewrite app_nil_r.
  - cbn [VectorStore.backfill].
    assert (Hset : exists extra,
              map fst (dict_set k x d) = map fst d ++ extra).
    { rewrite dict_set_keys. destruct (dict_get k d).
      - exists []. now rewrite app_nil_r.
      - now exists [k]. }
    destruct (dict_get k d) as [old|] eqn:E.
    + destruct (is_str placeholder old).
      * destruct Hset as [e1 H1]. destruct (IH (dict_set k x d)) as [e2 H2].
        exists (e1 ++ e2). now rewrite H2, H1, app_assoc.
      * apply IH.
    + destruct Hset as [e1 H1]. destruct (IH (dict_set k x d)) as [e2 H2].
      exists (e1 ++ e2). now rewrite H2, H1, app_assoc.
Qed.

Lemma split_at_key (d : dict) (keys extra before after : list pystr)
    (k : pystr) :
  map fst d = keys ++ extra ->
  keys = before ++ k :: after ->
  exists pre x post,
    d = pre ++ (k, x) :: post
    /\ map fst pre = before
    /\ map fst post = after ++ extra.
Proof.
  intros Hd ->. rewrite <- app_assoc in Hd. cbn [app] in Hd.
  revert d Hd. induction before as [|b before IH]; intros d Hd.
  - destruct d as [|[k' x] d]; [discriminate|].
    cbn in Hd. injection Hd as -> Hd.
    exists [], x, d. now repeat split.
  - destruct d as [|[k' x] d]; [discriminate|].
    cbn in Hd. injection Hd as -> Hd.
    destruct (IH d Hd) as (pre & y & post & -> & Hpre & Hpost).
    exists ((b, x) :: pre), y, post. repeat split; [|exact Hpost].
    cbn. now rewrite Hpre.
Qed.

Lemma field_keys_unique : NoDup Cases.field_keys.
Proof. apply nodupb_sound. vm_compute. reflexivity. Qed.

(** A field of the validated dictionary reaches the object when nothing
    before it can stop the loop: the fields come first. *)
Lemma field_reaches_object (w : World) (items d : dict)
    (v v' : VisionResult) (e : option pyexn) (k : pystr) (x : pyval) :
  map fst d = Cases.field_keys ->
  In k Cases.field_keys ->
  dict_get k (VectorStore.backfill items d) = Some x ->
  update_attrs w (VectorStore.backfill items d) v = (v', e) ->
  dict_get k (to_dict v') = Some x.
Proof.
  intros Hd Hk Hget Hup.
  destruct (backfill_key_order items d) as [extra Hkeys]. rewrite Hd in Hkeys.
  assert (Hnd : NoDup (map fst (VectorStore.backfill items d))).
  { apply backfill_unique. rewrite Hd. apply field_keys_unique. }
  destruct (in_split _ _ Hk) as (before & after & Hsplit).
  destruct (split_at_key _ _ _ _ _ _ Hkeys Hsplit)
    as (pre & y & post & HR & Hpre & Hpost).
  rewrite HR in Hup, Hnd, Hget.
  assert (Hy : y = x).
  { rewrite (in_dict_get k y _ Hnd) in Hget; [congruence|].
    apply in_or_app. right. now left. }
  subst y.
  apply (update_attrs_assigns w pre post k x v v' e); [| | |exact Hup].
  - intros k' Hk'. apply existsb_eqb_In. rewrite Hsplit.
    apply in_or_app. left. now rewrite <- Hpre.
  - now apply existsb_eqb_In.
  - rewrite map_app in Hnd. cbn [map fst] in Hnd.
    apply NoDup_remove_2 in Hnd. intros Hin. apply Hnd.
    apply in_or_app. now right.
Qed.

Lemma to_dict_name (v : VisionResult) :
  dict_get_none (u "name") (to_dict v) = name v.
Proof. reflexivity. Qed.

Lemma to_dict_ingredient (v : VisionResult) :
  dict_get (u "active_ingredient") (to_dict v) = Some (active_ingredient v).
Proof. reflexivity. Qed.

(** What [validate_medication_info] does with the dictionary of a result
    whose name was read. *)
Lemma validation_of_named (w : World) (v : VisionResult) (n : pystr) :
  name v = VStr n ->
  missing (name v) = false ->
  VectorStore.validate_medication_info w (to_dict v)
  = match
      VectorStore.search_medications w
        (if is_str placeholder (active_ingredient v) then n
         else n ++ u " " ++ py_str w (active_ingredient v))
        3 (6 # 10)
    with
    | best_match :: rest =>
      match VectorStore.metadata_of best_match with
      | VDict best_metadata =>
        ret (VectorStore.backfill best_metadata
               (dict_set (u "validated") (VBool true)
                  (dict_set (u "sukl_matches")
                     (VList (map VectorStore.metadata_of (best_match :: rest)))
                     (to_dict v))))
      | _ => raise (no_attribute "items")
      end
    | [] =>
      ret (dict_set (u "warning")
             (VStr (u "Lék nebyl nalezen v databázi SÚKL. Ověřte správnost informací."))
             (dict_set (u "validated") (VBool false) (to_dict v)))
    end.
Proof.
  intros Hname Hmissing. unfold VectorStore.validate_medication_info.
  rewrite to_dict_name.
  change (negb (truthy (name v)) || is_str placeholder (name v))
    with (missing (name v)).
  rewrite Hmissing, Hname. cbv iota.
  unfold dict_get_or. rewrite to_dict_ingredient.
  destruct (is_str placeholder (active_ingredient v));
    cbn [negb bind ret];
    match goal with
    | |- context [VectorStore.search_medications w ?q 3 ?t] =>
      destruct (VectorStore.search_medications w q 3 t)
    end; reflexivity.
Qed.

(** X15.  When the store has no match for the name that was read (with the
    active ingredient added to the query when that was read too),
    [validate_against_sukl] marks the result as not validated and puts the
    not-found text in its warning; every other field stays as it was. *)
Theorem unmatched_name_is_flagged (w : World) (v : VisionResult) (n : pystr) :
  name v = VStr n ->
  missing (name v) = false ->
  VectorStore.search_medications w
    (if is_str placeholder (active_ingredient v) then n
     else n ++ u " " ++ py_str w (active_ingredient v))
    3 (6 # 10) = [] ->
  validate_against_sukl w (OVision v)
  = ret {| name := name v;
           active_ingredient := active_ingredient v;
           strength := strength v;
           form := form v;
           manufacturer := manufacturer v;
           registration_number := registration_number v;
           VisionProcessor.confidence_score :=
             VisionProcessor.confidence_score v;
           warning :=
             VStr (u "Lék nebyl nalezen v databázi SÚKL. Ověřte správnost informací.");
           validated := VBool false;
           sukl_matches := sukl_matches v |}.
Proof.
  intros Hname Hmissing Hsearch. unfold validate_against_sukl.
  rewrite Hmissing, (validation_of_named w v n Hname Hmissing), Hsearch.
  destruct v. vm_compute. reflexivity.
Qed.

Lemma unmatched_name_is_flagged_witness :
  validated (match validate_against_sukl Sample.offline
                     (OVision Sample.name_only) with
             | inr v' => v'
             | inl _ => Sample.name_only
             end)
  = VBool false.
Proof.
  rewrite (unmatched_name_is_flagged Sample.offline Sample.name_only
             (u "PARALEN")); vm_compute; reflexivity.
Defined.

Lemma validated_with_warning (x : pyval) (v : VisionResult) :
  validated (with_warning x v) = validated v
  /\ sukl_matches (with_warning x v) = sukl_matches v.
Proof. destruct v. split; reflexivity. Qed.

Lemma to_dict_validated (v : VisionResult) (x : pyval) :
  dict_get (u "validated") (to_dict v) = Some x -> validated v = x.
Proof. destruct v. vm_compute. intros H. now injection H. Qed.

Lemma to_dict_matches (v : VisionResult) (x : pyval) :
  dict_get (u "sukl_matches") (to_dict v) = Some x -> sukl_matches v = x.
Proof. destruct v. vm_compute. intros H. now injection H. Qed.

(** X16.  When the store has a match whose metadata is an object,
    [validate_against_sukl] always returns the result marked as validated
    with the metadata of all matches attached, also when a key of the
    metadata makes the attribute loop fail and the warning is replaced. *)
Theorem matched_name_is_validated
    (w : World) (v : VisionResult) (n : pystr)
    (best_match : dict) (rest : list dict) (best_metadata : dict) :
  name v = VStr n ->
  missing (name v) = false ->
  VectorStore.search_medications w
    (if is_str placeholder (active_ingredient v) then n
     else n ++ u " " ++ py_str w (active_ingredient v))
    3 (6 # 10) = best_match :: rest ->
  VectorStore.metadata_of best_match = VDict best_metadata ->
  exists v',
    validate_against_sukl w (OVision v) = ret v'
    /\ validated v' = VBool true
    /\ sukl_matches v'
       = VList (map VectorStore.metadata_of (best_match :: rest)).
Proof.
  intros Hname Hmissing Hsearch Hmeta. unfold validate_against_sukl.
  rewrite Hmissing, (validation_of_named w v n Hname Hmissing), Hsearch, Hmeta.
  cbv beta iota delta [ret].
  set (matches := VList (map VectorStore.metadata_of (best_match :: rest))).
  set (d := dict_set (u "validated") (VBool true)
              (dict_set (u "sukl_matches") matches (to_dict v))).
  assert (Hd : map fst d = Cases.field_keys) by (destruct v; reflexivity).
  assert (Hv : dict_get (u "validated") (VectorStore.backfill best_metadata d)
               = Some (VBool true)).
  { apply backfill_keeps; [destruct v|]; reflexivity. }
  assert (Hm : dict_get (u "sukl_matches")
                 (VectorStore.backfill best_metadata d)
               = Some matches).
  { apply backfill_keeps; [destruct v|]; reflexivity. }
  destruct (update_attrs w (VectorStore.backfill best_metadata d) v)
    as [v' e] eqn:E.
  assert (Hv' : validated v' = VBool true).
  { apply to_dict_validated.
    apply (field_reaches_object w best_metadata d v v' e _ _ Hd); auto.
    apply existsb_eqb_In. reflexivity. }
  assert (Hm' : sukl_matches v' = matches).
  { apply to_dict_matches.
    apply (field_reaches_object w best_metadata d v v' e _ _ Hd); auto.
    apply existsb_eqb_In. reflexivity. }
  destruct e as [e|].
  - eexists. split; [reflexivity|].
    destruct (validated_with_warning
                (VStr (u "Nepodařilo se ověřit informace v databázi SÚKL")) v')
      as [-> ->].
    now split.
  - exists v'. now repeat split.
Qed.

Lemma matched_name_is_validated_witness :
  exists v',
    validate_against_sukl Sample.stocked (OVision Sample.name_only) = ret v'
    /\ validated v' = VBool true
    /\ sukl_matches v' = VList [VDict Sample.paralen_metadata].
Proof.
  destruct (matched_name_is_validated Sample.stocked Sample.name_only
              (u "PARALEN")
              [ (u "id", VStr (u "1"));
                (u "content", VStr (u "Název: PARALEN 500MG"));
                (u "metadata", VDict Sample.paralen_metadata);
                (u "similarity", VNum (9 # 10)) ]
              [] Sample.paralen_metadata)
    as (v' & H1 & H2 & H3); try (vm_compute; reflexivity).
  exists v'. repeat split; assumption.
Defined.

(** ** The stages, one by one *)

(** What ExtractImage writes when it has a payload and a vision client. *)
Lemma extract_with_image (w : World) (s : MedicationState) (payload : pystr) :
  image_data s = Some payload ->
  nonempty payload = true ->
  vision_init w = None ->
  extract_medication_from_image w s
  = (if truthy (VisionProcessor.warning
                  (process_medication_image w payload))
     then append_warning
            (VisionProcessor.warning (process_medication_image w payload))
     else fun s' => s')
      (set_extracted_text
         (Some (u "Název: "
                ++ py_str w (VisionProcessor.name
                               (process_medication_image w payload))))
         (set_confidence_score
            (VisionProcessor.confidence_score
               (process_medication_image w payload))
            (set_medication_info
               (VDict (to_dict (process_medication_image w payload))) s))).
Proof.
  intros Himg Hne Hinit.
  unfold extract_medication_from_image, stage.
  cbv beta iota delta [and_then pure read write done ret].
  rewrite Himg, Hinit. cbn [opt_val truthy]. rewrite Hne.
  cbn [negb construct ret].
  destruct (recognition_score_range w payload) as (c & Hc & _).
  rewrite Hc. cbn [as_number].
  destruct (truthy (VisionProcessor.warning
                      (process_medication_image w payload)));
    reflexivity.
Qed.

(** X17.  With a payload and a vision client, ExtractImage never sets
    [error]: it stores the recognition as a dictionary with a score between
    0 and 1.  A failure of the image decoding or of the vision call ends up
    as a result named "Chyba při rozpoznání" with score 0.0 and one more
    safety warning, and that label is the text the database search then
    looks for.  Only a failing client constructor sets [error]. *)
Theorem extract_stage_degrades (w : World) (s : MedicationState)
    (payload : pystr) :
  image_data s = Some payload ->
  nonempty payload = true ->
  (vision_init w = None ->
   error (extract_medication_from_image w s) = error s
   /\ medication_info (extract_medication_from_image w s)
      = VDict (to_dict (process_medication_image w payload))
   /\ (exists c,
         Workflow.confidence_score (extract_medication_from_image w s)
         = VNum c /\ 0 <= c /\ c <= 1)
   /\ (forall e,
         (_preprocess_image w payload = raise e
          \/ exists url, _preprocess_image w payload = ret url
                         /\ vision_chat w url = raise e) ->
         Workflow.confidence_score (extract_medication_from_image w s)
         = VNum 0
         /\ safety_warnings (extract_medication_from_image w s)
            = safety_warnings s
              ++ [VStr (u "Nepodařilo se rozpoznat lék z obrázku: "
                        ++ exn_msg e)]
         /\ (query_type s = u "image" ->
             search_query_of (extract_medication_from_image w s)
             = ret (VStr (u "Chyba při rozpoznání")))))
  /\ (forall e, vision_init w = Some e ->
        extract_medication_from_image w s
        = set_error (u "Chyba při rozpoznání obrázku: " ++ exn_msg e) s).
Proof.
  intros Himg Hne. split.
  - intros Hinit. rewrite (extract_with_image w s payload Himg Hne Hinit).
    split; [|split; [|split]].
    + destruct (truthy _); reflexivity.
    + destruct (truthy _); reflexivity.
    + destruct (recognition_score_range w payload) as (c & Hc & Hr).
      exists c. split; [|exact Hr]. destruct (truthy _); exact Hc.
    + intros e He.
      assert (Hr : process_medication_image w payload
                   = {| VisionProcessor.name := VStr (u "Chyba při rozpoznání");
                        active_ingredient := VStr placeholder;
                        strength := VStr placeholder;
                        form := VStr placeholder;
                        manufacturer := VStr placeholder;
                        registration_number := VStr placeholder;
                        VisionProcessor.confidence_score := VNum 0;
                        VisionProcessor.warning :=
                          VStr (u "Nepodařilo se rozpoznat lék z obrázku: "
                                ++ exn_msg e);
                        validated := VNone;
                        sukl_matches := VNone |}).
      { unfold process_medication_image.
        destruct He as [He | (url & Hu & He)].
        - now rewrite He.
        - rewrite Hu. cbn [bind ret]. now rewrite He. }
      rewrite Hr. cbn [VisionProcessor.warning VisionProcessor.name
           VisionProcessor.confidence_score truthy].
      assert (Hw : nonempty (u "Nepodařilo se rozpoznat lék z obrázku: "
                             ++ exn_msg e) = true) by reflexivity.
      rewrite Hw. split; [reflexivity|]. split; [reflexivity|].
      intros Hkind. unfold search_query_of.
      cbn [query_type append_warning set_safety_warnings set_extracted_text
           set_confidence_score set_medication_info].
      rewrite Hkind. vm_compute. reflexivity.
  - intros e Hinit.
    unfold extract_medication_from_image, stage.
    cbv beta iota delta [and_then pure read write done ret].
    rewrite Himg, Hinit. cbn [opt_val truthy]. rewrite Hne. reflexivity.
Qed.

Lemma extract_stage_degrades_witness :
  error (extract_medication_from_image Sample.offline
           (Main.initial_state [] "image" (Some Sample.png_payload)))
  = None
  /\ search_query_of
       (extract_medication_from_image Sample.offline
          (Main.initial_state [] "image" (Some Sample.png_payload)))
     = ret (VStr (u "Chyba při rozpoznání")).
Proof.
  destruct (extract_stage_degrades Sample.offline
              (Main.initial_state [] "image" (Some Sample.png_payload))
              Sample.png_payload eq_refl eq_refl) as [H _].
  destruct (H eq_refl) as (H1 & _ & _ & H4). split; [exact H1|].
  apply (H4 Sample.unavailable).
  - right. exists Sample.png_payload. split; vm_compute; reflexivity.
  - reflexivity.
Defined.

(** A vector search that finds nothing. *)
Lemma search_without_match (w : World) (s : MedicationState) (q : pystr) :
  store_init w = None ->
  search_query_of s = ret (VStr q) ->
  nonempty (strip q) = true ->
  eqb (query_type s) (u "text") = false ->
  VectorStore.search_medications w q 5 (6 # 10) = [] ->
  search_sukl_database w s
  = append_warning
      (VStr (u "Informace o tomto léku nebyly nalezeny v databázi SÚKL"))
      s.
Proof.
  unfold search_sukl_database, stage.
  cbv beta iota delta [and_then pure read write done ret].
  intros -> Hq Hne Hkind Hnone. cbn [construct ret]. rewrite Hq.
  cbv beta iota delta [ret as_str]. rewrite Hne, Hkind, Hnone.
  reflexivity.
Qed.

(** X18.  The ways SearchDatabase ends without having searched or without
    a match: a failing store constructor and a query that is blank or no
    string set [error] and change nothing else; a vector search without
    any match only appends the not-found warning, leaving [error],
    [medication_info], [sources] and the score as they were. *)
Theorem search_stage_edges (w : World) (s : MedicationState) :
  (forall e, store_init w = Some e ->
     search_sukl_database w s
     = set_error (u "Chyba při vyhledávání v databázi: " ++ exn_msg e) s)
  /\ (forall q,
        store_init w = None ->
        search_query_of s = ret (VStr q) ->
        nonempty (strip q) = false ->
        search_sukl_database w s
        = set_error (u "Chybí dotaz pro vyhledání v databázi") s)
  /\ (forall v,
        store_init w = None ->
        search_query_of s = ret v ->
        (forall q, v <> VStr q) ->
        exists message,
          search_sukl_database w s
          = set_error (u "Chyba při vyhledávání v databázi: " ++ message) s)
  /\ (forall q,
        store_init w = None ->
        search_query_of s = ret (VStr q) ->
        nonempty (strip q) = true ->
        eqb (query_type s) (u "text") = false ->
        VectorStore.search_medications w q 5 (6 # 10) = [] ->
        search_sukl_database w s
        = append_warning
            (VStr (u "Informace o tomto léku nebyly nalezeny v databázi SÚKL"))
            s).
Proof.
  split; [|split; [|split]]; [| | |apply search_without_match];
    unfold search_sukl_database, stage;
    cbv beta iota delta [and_then pure read write done ret].
  - intros e ->. reflexivity.
  - intros q -> Hq Hblank. cbn [construct ret]. rewrite Hq.
    cbv beta iota delta [ret as_str]. now rewrite Hblank.
  - intros v -> Hq Hv. cbn [construct ret]. rewrite Hq.
    cbv beta iota delta [ret].
    destruct v as [| | |q| |]; try (now eexists). now destruct (Hv q).
Qed.

Lemma search_stage_edges_witness :
  search_sukl_database Sample.offline Sample.recognized
  = append_warning
      (VStr (u "Informace o tomto léku nebyly nalezeny v databázi SÚKL"))
      Sample.recognized.
Proof.
  destruct (search_stage_edges Sample.offline Sample.recognized)
    as (_ & _ & _ & H).
  apply (H (u "PARALEN")); vm_compute; reflexivity.
Defined.

Lemma strip_nonempty (s : pystr) :
  existsb (fun c => negb (is_space c)) s = true -> nonempty (strip s) = true.
Proof.
  intros H. unfold strip.
  destruct (lstrip_head s) as [E | (c & t & E & Hc)].
  - exfalso. induction s as [|a s IH]; [discriminate|].
    cbn [lstrip] in E. cbn [existsb] in H.
    destruct (is_space a); [apply IH; assumption | discriminate].
  - rewrite E, (rstrip_cons_nonspace c t Hc). reflexivity.
Qed.

Lemma stage_disclaimer_nonempty (w : World) (s : MedicationState) :
  nonempty (strip (disclaimer (add_safety_disclaimers w s))) = true.
Proof.
  rewrite disclaimers_stage_outcome.
  destruct (own_warnings w s) as [e|own].
  - vm_compute. reflexivity.
  - cbn [disclaimer set_disclaimer]. rewrite strip_idem.
    apply strip_nonempty. rewrite existsb_app.
    apply orb_true_iff. right. vm_compute. reflexivity.
Qed.

(** ** The endpoints on their successful paths *)

Lemma text_is_not_image (query : pystr) :
  query_type (Main.initial_state query "text" None) <> u "image".
Proof. intros H. vm_compute in H. discriminate H. Qed.

Lemma text_workflow (w : World) (query : pystr) :
  medication_workflow w (Main.initial_state query "text" None)
  = ret (add_safety_disclaimers w
           (validate_and_enhance_info w
              (search_sukl_database w
                 (Main.initial_state query "text" None)))).
Proof.
  unfold medication_workflow.
  rewrite (invoke_text w _ recursion_limit (text_is_not_image query));
    [reflexivity | unfold recursion_limit; lia].
Qed.

Lemma image_workflow (w : World) (payload : option pystr) :
  medication_workflow w (Main.initial_state [] "image" payload)
  = ret (add_safety_disclaimers w
           (validate_and_enhance_info w
              (search_sukl_database w
                 (extract_medication_from_image w
                    (Main.initial_state [] "image" payload))))).
Proof.
  unfold medication_workflow.
  rewrite (invoke_image w _ recursion_limit);
    [reflexivity | reflexivity | unfold recursion_limit; lia].
Qed.



(** What SearchDatabase writes for a text query. *)
Lemma search_text (w : World) (s : MedicationState) :
  store_init w = None ->
  llm_init w = None ->
  query_type s = u "text" ->
  nonempty (strip (query s)) = true ->
  search_sukl_database w s
  = set_confidence_score
      (VNum (confidence_to_score
               (Models.confidence
                  (TextProcessor.process_text_query w (query s)))))
      (set_sources
         (map VStr (Models.tp_sources
                      (TextProcessor.process_text_query w (query s))))
         (set_medication_info
            (VDict
               [ (u "answer",
                  VStr (Models.answer
                          (TextProcessor.process_text_query w (query s))));
                 (u "sources",
                  VList (map VStr
                           (Models.tp_sources
                              (TextProcessor.process_text_query w (query s)))));
                 (u "confidence",
                  VStr (Models.confidence
                          (TextProcessor.process_text_query w (query s)))) ])
            s)).
Proof.
  intros Hstore Hllm Hkind Hne.
  unfold search_sukl_database, stage.
  cbv beta iota delta [and_then pure read write done ret].
  rewrite Hstore. cbn [construct ret]. unfold search_query_of.
  rewrite Hkind.
  change (eqb (u "text") (u "image")) with false.
  cbv beta iota delta [ret as_str]. rewrite Hne. cbn [negb].
  rewrite eqb_refl, Hllm. reflexivity.
Qed.

(** What ValidateInfo does with a dictionary that has none of the four
    keys it reads. *)
Lemma validate_plain_dict (w : World) (s : MedicationState) (d : dict)
    (c : Q) :
  medication_info s = VDict d ->
  Workflow.confidence_score s = VNum c ->
  dict_get (u "name") d = None ->
  dict_get (u "active_ingredient") d = None ->
  dict_get (u "strength") d = None ->
  dict_get (u "form") d = None ->
  validate_and_enhance_info w s
  = set_medication_info (VDict d)
      (set_confidence_score (VNum (max0 (c - (2 # 10)))) s).
Proof.
  intros Hinfo Hscore Hn Ha Hs Hf.
  unfold validate_and_enhance_info, stage.
  cbv beta iota delta [and_then pure read write done ret info_dict].
  rewrite Hinfo. cbn [filter]. unfold dict_get_none, dict_get_or.
  rewrite Hn, Ha. cbn [truthy negb nonempty andb].
  unfold penalize. rewrite Hscore. cbn [as_number]. cbv beta iota.
  rewrite Hs, Hf. reflexivity.
Qed.



(** ** What ValidateInfo changes *)

Section Keeps.

Variable R : MedicationState -> MedicationState -> Prop.
Hypothesis R_refl : forall s, R s s.
Hypothesis R_trans : forall a b c, R a b -> R b c -> R a c.

Lemma frame_and_then {A B} (c : body A) (k : A -> body B) :
  Frame.keeps R c -> (forall a, Frame.keeps R (k a)) ->
  Frame.keeps R (and_then c k).
Proof.
  intros Hc Hk s. unfold and_then. specialize (Hc s).
  destruct (c s) as [s' [e|a]]; [exact Hc|].
  apply R_trans with s'; [exact Hc | apply Hk].
Qed.

Lemma frame_pure {A} (c : result A) : Frame.keeps R (pure c).
Proof. intros s. apply R_refl. Qed.

Lemma frame_read : Frame.keeps R read.
Proof. intros s. apply R_refl. Qed.

Lemma frame_done {A} (a : A) : Frame.keeps R (done a).
Proof. intros s. apply R_refl. Qed.

Lemma frame_write (f : MedicationState -> MedicationState) :
  (forall s, R s (f s)) -> Frame.keeps R (write f).
Proof. intros H s. apply H. Qed.

Lemma frame_stage (c : body unit) :
  Frame.keeps R c -> forall s, R s (stage c (fun _ s' => s') s).
Proof.
  intros H s. unfold stage. specialize (H s).
  now destruct (c s) as [s' [e|[]]].
Qed.

End Keeps.

Ltac frame refl trans :=
  repeat first
    [ apply (frame_pure _ refl) | apply (frame_read _ refl)
    | apply (frame_done _ refl)
    | apply (frame_and_then _ trans); [|intros ?]
    | apply frame_write; intros ?;
      first [apply refl | now repeat split | intros _; reflexivity]
    | progress cbv zeta
    | match goal with
      | |- Frame.keeps _ (if ?b then _ else _) => destruct b
      | |- Frame.keeps _ (match ?x with _ => _ end) => destruct x
      end ].

Lemma same_bookkeeping_refl (s : MedicationState) :
  Frame.same_bookkeeping s s.
Proof. now repeat split. Qed.

Lemma same_bookkeeping_trans (a b c : MedicationState) :
  Frame.same_bookkeeping a b -> Frame.same_bookkeeping b c ->
  Frame.same_bookkeeping a c.
Proof.
  unfold Frame.same_bookkeeping.
  intros (A1 & A2 & A3 & A4 & A5 & A6 & A7 & A8)
         (B1 & B2 & B3 & B4 & B5 & B6 & B7 & B8).
  repeat split; congruence.
Qed.

Lemma validate_keeps_bookkeeping (w : World) (s : MedicationState) :
  Frame.same_bookkeeping s (validate_and_enhance_info w s).
Proof.
  unfold validate_and_enhance_info.
  apply frame_stage.
  frame same_bookkeeping_refl same_bookkeeping_trans.
Qed.

Lemma same_score_refl (s : MedicationState) : Frame.same_score s s.
Proof. reflexivity. Qed.

Lemma same_score_trans (a b c : MedicationState) :
  Frame.same_score a b -> Frame.same_score b c -> Frame.same_score a c.
Proof. unfold Frame.same_score. congruence. Qed.

Lemma stage_returns_state (c : body unit) (s : MedicationState) :
  stage c (fun _ s' => s') s = fst (c s).
Proof. unfold stage. now destruct (c s) as [s' [e|[]]]. Qed.

Lemma and_then_read {B} (k : MedicationState -> body B) (s : MedicationState) :
  and_then read k s = k s s.
Proof. reflexivity. Qed.

Lemma and_then_pure {A B} (r : result A) (k : A -> body B)
    (s : MedicationState) :
  and_then (pure r) k s
  = match r with inr a => k a s | inl e => (s, inl e) end.
Proof. unfold and_then, pure. now destruct r. Qed.

Lemma and_then_returned {A B} (c : body A) (k : A -> body B)
    (s s1 : MedicationState) (a : A) :
  c s = (s1, inr a) -> and_then c k s = k a s1.
Proof. intros H. unfold and_then. now rewrite H. Qed.

Lemma score_and_then {A B} (c : body A) (k : A -> body B)
    (s : MedicationState) :
  (forall a, Frame.keeps Frame.same_score (k a)) ->
  Workflow.confidence_score (fst (and_then c k s))
  = Workflow.confidence_score (fst (c s)).
Proof.
  intros Hk. unfold and_then.
  destruct (c s) as [s' [e|a]]; [reflexivity|]. apply Hk.
Qed.

(** The score after ValidateInfo. *)
Lemma validate_score (w : World) (s : MedicationState) :
  Workflow.confidence_score (validate_and_enhance_info w s)
  = match medication_info s with
    | VDict d =>
      if truthy (dict_get_none (u "name") d)
         && truthy (dict_get_none (u "active_ingredient") d)
      then Workflow.confidence_score s
      else
        match as_number (Workflow.confidence_score s) with
        | Some c => VNum (max0 (c - (2 # 10)))
        | None => Workflow.confidence_score s
        end
    | _ => Workflow.confidence_score s
    end.
Proof.
  unfold validate_and_enhance_info.
  rewrite stage_returns_state, and_then_read, and_then_pure.
  unfold info_dict.
  destruct (medication_info s) as [| | | | |d]; try reflexivity.
  cbv beta iota delta [ret].
  rewrite score_and_then.
  - cbn [filter].
    destruct (truthy (dict_get_none (u "name") d));
      destruct (truthy (dict_get_none (u "active_ingredient") d));
      cbn [negb andb]; try reflexivity;
      unfold penalize, and_then, pure, write;
      destruct (as_number (Workflow.confidence_score s)); reflexivity.
  - intros _. frame same_score_refl same_score_trans.
Qed.

Lemma info_fixed_refl (x : pyval) (s : MedicationState) :
  medication_info s = x -> medication_info s = x.
Proof. exact (fun H => H). Qed.

Lemma info_fixed_trans (x : pyval) (a b c : MedicationState) :
  (medication_info a = x -> medication_info b = x) ->
  (medication_info b = x -> medication_info c = x) ->
  medication_info a = x -> medication_info c = x.
Proof. exact (fun H1 H2 H => H2 (H1 H)). Qed.

(** The name ValidateInfo leaves in the dictionary. *)
Lemma validate_name (w : World) (s : MedicationState) (d : dict)
    (n : pystr) (c : Q) :
  medication_info s = VDict d ->
  dict_get (u "name") d = Some (VStr n) ->
  nonempty n = true ->
  Workflow.confidence_score s = VNum c ->
  medication_info (validate_and_enhance_info w s)
  = VDict (dict_set (u "name") (VStr (strip (upper w n))) d).
Proof.
  intros Hinfo Hn Hne Hc. unfold validate_and_enhance_info.
  rewrite stage_returns_state, and_then_read, and_then_pure.
  unfold info_dict. rewrite Hinfo. cbv beta iota delta [ret].
  match goal with
  | |- context [and_then ?c ?k s] =>
    assert (H1 : exists s1, c s = (s1, inr tt))
  end.
  { cbn [filter]. unfold dict_get_none, dict_get_or. rewrite Hn.
    cbn [truthy]. rewrite Hne. cbn [negb].
    destruct (truthy _); cbn [negb]; [now eexists|].
    unfold penalize. rewrite Hc. now eexists. }
  destruct H1 as [s1 H1]. rewrite (and_then_returned _ _ _ _ _ H1).
  match goal with
  | |- context [and_then ?c ?k s1] =>
    assert (H2 : c s1
                 = (set_medication_info
                      (VDict (dict_set (u "name") (VStr (strip (upper w n))) d))
                      s1,
                    inr (dict_set (u "name") (VStr (strip (upper w n))) d)))
  end.
  { unfold dict_get_none, dict_get_or. rewrite Hn. cbn [truthy].
    rewrite Hne. reflexivity. }
  rewrite (and_then_returned _ _ _ _ _ H2).
  match goal with
  | |- medication_info (fst (?tail ?s2)) = ?x =>
    assert (H3 : Frame.keeps
                   (fun a b => medication_info a = x -> medication_info b = x)
                   tail)
  end.
  { frame (info_fixed_refl
             (VDict (dict_set (u "name") (VStr (strip (upper w n))) d)))
          (info_fixed_trans
             (VDict (dict_set (u "name") (VStr (strip (upper w n))) d))). }
  apply H3. reflexivity.
Qed.

(** X22.  When the recognised information is a dictionary whose name is a
    non-empty string and the score is a number, ValidateInfo leaves the
    dictionary with the name in upper case and stripped and every other
    key as it was, whatever the later checks on form and strength do. *)
Theorem validated_name_is_upper_case (w : World) (s : MedicationState)
    (d : dict) (n : pystr) (c : Q) :
  medication_info s = VDict d ->
  dict_get (u "name") d = Some (VStr n) ->
  nonempty n = true ->
  Workflow.confidence_score s = VNum c ->
  medication_info (validate_and_enhance_info w s)
  = VDict (dict_set (u "name") (VStr (strip (upper w n))) d)
  /\ (forall k, k <> u "name" ->
        dict_get k (dict_set (u "name") (VStr (strip (upper w n))) d)
        = dict_get k d).
Proof.
  intros Hinfo Hn Hne Hc. split; [now apply validate_name with c|].
  intros k Hk. rewrite dict_get_set.
  destruct (eqb (u "name") k) eqn:E; [|reflexivity].
  apply eqb_eq in E. congruence.
Qed.

Lemma validated_name_is_upper_case_witness :
  exists info,
    medication_info
      (validate_and_enhance_info Sample.offline
         (set_medication_info
            (VDict [ (u "name", VStr (u " Paralen 500mg "));
                     (u "form", VStr (u "tablety")) ])
            Sample.recognized))
    = VDict info
    /\ dict_get (u "name") info = Some (VStr (u "PARALEN 500MG")).
Proof.
  eexists. split.
  - eapply (validated_name_is_upper_case Sample.offline
             (set_medication_info
                (VDict [ (u "name", VStr (u " Paralen 500mg "));
                         (u "form", VStr (u "tablety")) ])
                Sample.recognized)
             [ (u "name", VStr (u " Paralen 500mg "));
               (u "form", VStr (u "tablety")) ]
             (u " Paralen 500mg ") (5 # 10)); reflexivity.
  - vm_compute. reflexivity.
Defined.



(** ** The text processor's result *)

Lemma source_names_length (w : World) (sources : list pyval)
    (names : list pystr) :
  TextProcessor.source_names w sources = ret names ->
  List.length names = List.length sources.
Proof.
  revert names. induction sources as [|v sources IH]; intros names H.
  - injection H as <-. reflexivity.
  - cbn [TextProcessor.source_names] in H.
    destruct v as [| | | | |source]; try discriminate H.
    destruct (dict_get_or (u "name") (VStr (u "Neznámý zdroj")) source)
      as [|b|q|s|l|d0]; try discriminate H;
      try (destruct (coerce_str w _); [|discriminate H]);
      apply bind_inr in H as (rest & Hrest & H); injection H as <-;
      simpl; now rewrite (IH rest Hrest).
Qed.

(** X23.  Every result of [process_text_query] has one of the three
    confidence levels, and is of one of two kinds: the model's reply,
    stripped and followed by a rule and the stripped disclaimer, with one
    source name per search result; or the apology, with no sources and
    confidence low.  The question the chain gets is the stripped query,
    alone or behind one of four fixed prefixes. *)
Theorem text_result_shapes (w : World) (query : pystr) :
  In (Models.confidence (TextProcessor.process_text_query w query))
     [u "low"; u "medium"; u "high"]
  /\ ((exists reply,
         qa_chain_run w (TextProcessor._preprocess_query w query) = ret reply
         /\ Models.answer (TextProcessor.process_text_query w query)
            = strip reply ++ nl ++ nl ++ u "---" ++ nl
              ++ strip (medical_disclaimer w)
         /\ List.length
              (Models.tp_sources (TextProcessor.process_text_query w query))
            = List.length
                (VectorStore.search_medications w
                   (TextProcessor._preprocess_query w query) 5 (6 # 10)))
      \/ (Models.tp_sources (TextProcessor.process_text_query w query) = []
          /\ Models.confidence (TextProcessor.process_text_query w query)
             = u "low"
          /\ startswith
               (u "Omlouvám se, nastala chyba při zpracování dotazu: ")
               (Models.answer (TextProcessor.process_text_query w query))
             = true))
  /\ In (TextProcessor._preprocess_query w query)
        (map (fun prefix => prefix ++ strip query)
           [ []; u "Informace o léku: "; u "Účinná látka léku: ";
             u "Dávkování léku: "; u "Lékové interakce: " ]).
Proof.
  split; [|split].
  - unfold TextProcessor.process_text_query.
    destruct (qa_chain_run w _) as [e|reply];
      [left; reflexivity|].
    cbn [bind]. destruct (TextProcessor.source_names w _) as [e|names];
      [left; reflexivity|].
    cbn [bind ret try_except Models.confidence].
    rewrite assess_is_spec.
    destruct (Spec.confidence w reply _);
      [left | right; left | right; right; left]; reflexivity.
  - unfold TextProcessor.process_text_query.
    destruct (qa_chain_run w (TextProcessor._preprocess_query w query))
      as [e|reply] eqn:Eq.
    + right. cbn [bind try_except Models.tp_sources Models.confidence
                  Models.answer].
      repeat split.
    + cbn [bind].
      destruct (TextProcessor.source_names w _) as [e|names] eqn:En.
      * right. cbn [bind try_except Models.tp_sources Models.confidence
                    Models.answer].
        repeat split.
      * left. exists reply. split; [reflexivity|].
        cbn [bind ret try_except Models.tp_sources Models.answer].
        split; [reflexivity|].
        rewrite (source_names_length _ _ _ En).
        unfold TextProcessor._get_source_documents. apply length_map.
  - unfold TextProcessor._preprocess_query. cbn [map].
    destruct (any_in _ _); [right; left; reflexivity|].
    destruct (_ || _); [right; right; left; reflexivity|].
    destruct (any_in _ _); [right; right; right; left; reflexivity|].
    destruct (_ || _); [right; right; right; right; left; reflexivity|].
    left. reflexivity.
Qed.

(** ** The CORS origins *)

Lemma split_shape (sep : N) (s : pystr) :
  Config.split sep s <> []
  /\ List.length (Config.split sep s)
     = S (List.length (filter (N.eqb sep) s))
  /\ (forall part, In part (Config.split sep s) -> ~ In sep part).
Proof.
  induction s as [|c s (Hne & Hlen & Hin)].
  - split; [discriminate|]. split; [reflexivity|].
    intros part [<- | []] [].
  - cbn [Config.split filter]. rewrite (N.eqb_sym sep c).
    destruct (c =? sep)%N eqn:E.
    + split; [discriminate|]. split; [simpl; now rewrite Hlen|].
      intros part [<- | H]; [intros [] | now apply Hin].
    + destruct (Config.split sep s) as [|part parts]; [contradiction|].
      split; [discriminate|]. split; [exact Hlen|].
      intros p [<- | H].
      * intros [Hc | Hp].
        -- subst c. now rewrite N.eqb_refl in E.
        -- apply (Hin part); [now left | exact Hp].
      * apply Hin. now right.
Qed.

Lemma in_lstrip (c : N) (s : pystr) : In c (lstrip s) -> In c s.
Proof.
  induction s as [|a s IH]; [intros []|].
  cbn [lstrip]. destruct (is_space a); [|intros H; exact H].
  intros H. right. now apply IH.
Qed.

Lemma in_strip (c : N) (s : pystr) : In c (strip s) -> In c s.
Proof.
  unfold strip, rstrip. intros H.
  apply in_rev in H. apply in_lstrip in H. apply in_rev in H.
  now apply in_lstrip.
Qed.

(** X24.  [cors_origins] is never empty: it has one origin more than the
    setting has commas, so an empty setting or a trailing comma gives an
    empty origin.  No origin contains a comma or has white space at either
    end.  The default setting gives the two documented origins. *)
Theorem cors_origins_shape (allowed_origins : pystr) :
  Config.cors_origins allowed_origins <> []
  /\ List.length (Config.cors_origins allowed_origins)
     = S (List.length (filter (N.eqb 44) allowed_origins))
  /\ (forall origin, In origin (Config.cors_origins allowed_origins) ->
        strip origin = origin /\ ~ In 44%N origin)
  /\ Config.cors_origins Config.allowed_origins
     = [u "http://localhost:3000"; u "https://pillsee.vercel.app"].
Proof.
  unfold Config.cors_origins.
  destruct (split_shape 44 allowed_origins) as (Hne & Hlen & Hin).
  split; [|split; [|split]].
  - destruct (Config.split 44 allowed_origins); [contradiction|discriminate].
  - now rewrite length_map.
  - intros origin H. apply in_map_iff in H as (part & <- & Hpart).
    split; [apply strip_idem|].
    intros H. apply (Hin part Hpart). now apply in_strip.
  - vm_compute. reflexivity.
Qed.

Lemma cors_origins_shape_witness :
  Config.cors_origins (u " https://a.cz , https://b.cz,")
  = [u "https://a.cz"; u "https://b.cz"; []]
  /\ strip (u "https://a.cz") = u "https://a.cz".
Proof.
  split; [vm_compute; reflexivity|].
  destruct (cors_origins_shape (u " https://a.cz , https://b.cz,"))
    as (_ & _ & H & _).
  apply H. vm_compute. left. reflexivity.
Defined.

(** ** The image endpoint, by what the store finds *)

Lemma nonempty_of_strip (s : pystr) :
  nonempty (strip s) = true -> nonempty s = true.
Proof. destruct s; [discriminate | reflexivity]. Qed.

(** The error SearchDatabase sets on a match has a message. *)
Lemma search_with_match_has_error
    (w : World) (state : MedicationState) (info : dict) (q : pystr) :
  query_type state = u "image" ->
  medication_info state = VDict info ->
  info <> [] ->
  search_query_of state = ret (VStr q) ->
  VectorStore.search_medications w q 5 (6 # 10) <> [] ->
  has_error (search_sukl_database w state) = true.
Proof.
  intros Hkind Hinfo Hne Hq Hfound.
  unfold search_sukl_database, stage.
  cbv beta iota delta [and_then pure read write done ret].
  destruct (construct (store_init w)) as [e|[]]; [reflexivity|].
  rewrite Hq. cbv beta iota delta [ret as_str].
  destruct (negb (nonempty (strip q))); [reflexivity|].
  rewrite Hkind, image_is_not_text.
  destruct (VectorStore.search_medications w q 5 (6 # 10))
    as [|best_match others]; [congruence|].
  rewrite Hinfo, (truthy_dict info Hne).
  unfold merge_metadata.
  destruct (VectorStore.metadata_of best_match) as [| | | | |items];
    try reflexivity.
  cbv beta iota delta [ret].
  destruct (source_labels _) as [e|labels]; [reflexivity|].
  cbn [medication_info set_sources set_medication_info].
  rewrite (truthy_dict _ (enrich_nonempty items info Hne)).
  destruct (construct (vision_init w)) as [e|[]]; reflexivity.
Qed.

(** The state ExtractImage hands to the search. *)
Lemma extracted_state (w : World) (payload : pystr) :
  vision_init w = None ->
  nonempty payload = true ->
  query_type (extract_medication_from_image w
                (Main.initial_state [] "image" (Some payload)))
  = u "image"
  /\ medication_info (extract_medication_from_image w
                        (Main.initial_state [] "image" (Some payload)))
     = VDict (VisionProcessor.to_dict
                (VisionProcessor.process_medication_image w payload))
  /\ error (extract_medication_from_image w
              (Main.initial_state [] "image" (Some payload)))
     = None
  /\ Workflow.confidence_score
       (extract_medication_from_image w
          (Main.initial_state [] "image" (Some payload)))
     = VisionProcessor.confidence_score
         (VisionProcessor.process_medication_image w payload).
Proof.
  intros Hinit Hne.
  rewrite (extract_with_image w
             (Main.initial_state [] "image" (Some payload)) payload
             eq_refl Hne Hinit).
  destruct (truthy _); repeat split.
Qed.

Lemma disclaimers_keep_info (w : World) (s : MedicationState) :
  medication_info (add_safety_disclaimers w s) = medication_info s
  /\ error (add_safety_disclaimers w s) = error s.
Proof.
  rewrite disclaimers_stage_outcome.
  destruct (own_warnings w s); split; reflexivity.
Qed.



(** ** Ingest *)

Lemma texts_of_length (documents : list dict) (texts : list pyval) :
  Store.texts_of documents = Some texts ->
  List.length texts = List.length documents.
Proof.
  revert texts. induction documents as [|doc rest IH]; intros texts H.
  - injection H as <-. reflexivity.
  - cbn [Store.texts_of] in H.
    destruct (dict_get (u "content") doc); [|discriminate].
    destruct (Store.texts_of rest) as [ts|]; [|discriminate].
    injection H as <-. simpl. now rewrite (IH ts).
Qed.

Lemma records_of_length (documents : list dict) (embeddings : list pyval)
    (records : list dict) :
  Store.records_of documents embeddings = Some records ->
  List.length records = List.length documents
  /\ (List.length documents <= List.length embeddings)%nat
  /\ Forall (fun record =>
               map fst record = [u "content"; u "metadata"; u "embedding"])
       records.
Proof.
  revert embeddings records.
  induction documents as [|doc rest IH]; intros embeddings records H.
  - injection H as <-. repeat split; [simpl; lia | constructor].
  - cbn [Store.records_of] in H.
    destruct (dict_get (u "content") doc); [|discriminate].
    destruct (dict_get (u "metadata") doc); [|discriminate].
    destruct embeddings as [|e es]; [discriminate|].
    destruct (Store.records_of rest es) as [rs|] eqn:E; [|discriminate].
    injection H as <-. destruct (IH es rs E) as (H1 & H2 & H3).
    repeat split; [simpl; lia | simpl; lia |].
    constructor; [reflexivity | exact H3].
Qed.

Lemma texts_of_missing (documents : list dict) (doc : dict) :
  In doc documents -> dict_get (u "content") doc = None ->
  Store.texts_of documents = None.
Proof.
  intros Hin Hc. induction documents as [|d rest IH]; [destruct Hin|].
  cbn [Store.texts_of]. destruct Hin as [-> | Hin].
  - now rewrite Hc.
  - rewrite (IH Hin). now destruct (dict_get (u "content") d).
Qed.

Lemma records_of_missing (documents : list dict) (doc : dict)
    (embeddings : list pyval) :
  In doc documents -> dict_get (u "metadata") doc = None ->
  Store.records_of documents embeddings = None.
Proof.
  intros Hin Hm. revert embeddings.
  induction documents as [|d rest IH]; intros embeddings; [destruct Hin|].
  cbn [Store.records_of]. destruct Hin as [-> | Hin].
  - rewrite Hm. now destruct (dict_get (u "content") doc).
  - destruct (dict_get (u "content") d); [|reflexivity].
    destruct (dict_get (u "metadata") d); [|reflexivity].
    destruct embeddings as [|e es]; [reflexivity|].
    now rewrite (IH Hin es).
Qed.

Lemma records_of_documents (docs : list SuklProcessor.Document)
    (embeddings : list pyval) :
  (List.length docs <= List.length embeddings)%nat ->
  exists records,
    Store.records_of (map Store.as_dict docs) embeddings = Some records.
Proof.
  revert embeddings. induction docs as [|doc docs IH]; intros embeddings H.
  - now exists [].
  - destruct embeddings as [|e es]; [simpl in H; lia|].
    destruct (IH es) as [rs Hrs]; [simpl in H; lia|].
    cbn [map Store.records_of]. unfold Store.as_dict at 1 2.
    cbn [dict_get]. rewrite !eqb_refl.
    change (eqb (u "content") (u "metadata")) with false. cbv iota.
    rewrite Hrs. now eexists.
Qed.

(** X26.  [ingest_sukl_data] answers True only when there was at least one
    document, every document had its content and metadata, the embedding
    call gave at least one vector per document, and the insert was given
    one record per document, made of content, metadata and embedding, and
    reported rows.  One document without content or without metadata makes
    it answer False whatever the services do.  For the documents of
    [create_embedding_texts] the lookups never fail: the texts sent to the
    embedding call are their contents, in order. *)
Theorem ingest_outcome
    (embed_documents : list pyval -> option (list pyval))
    (insert : list dict -> option (list dict)) :
  (forall documents,
     Store.ingest_sukl_data embed_documents insert documents = true ->
     documents <> []
     /\ exists texts embeddings records data,
          Store.texts_of documents = Some texts
          /\ embed_documents texts = Some embeddings
          /\ Store.records_of documents embeddings = Some records
          /\ insert records = Some data
          /\ data <> []
          /\ List.length texts = List.length documents
          /\ List.length records = List.length documents
          /\ (List.length documents <= List.length embeddings)%nat
          /\ Forall (fun record =>
                       map fst record
                       = [u "content"; u "metadata"; u "embedding"])
               records)
  /\ (forall documents doc,
        In doc documents ->
        dict_get (u "content") doc = None
        \/ dict_get (u "metadata") doc = None ->
        Store.ingest_sukl_data embed_documents insert documents = false)
  /\ (forall medications,
        Store.texts_of
          (map Store.as_dict
             (SuklProcessor.create_embedding_texts medications))
        = Some (map (fun med =>
                       VStr (SuklProcessor.content
                               (SuklProcessor.embedding_document med)))
                  medications)
        /\ forall embeddings,
             (List.length medications <= List.length embeddings)%nat ->
             exists records,
               Store.records_of
                 (map Store.as_dict
                    (SuklProcessor.create_embedding_texts medications))
                 embeddings
               = Some records).
Proof.
  split; [|split].
  - intros documents H. unfold Store.ingest_sukl_data in H.
    destruct documents as [|doc rest]; [discriminate|].
    split; [discriminate|].
    unfold Store._direct_bulk_insert in H.
    destruct (Store.texts_of (doc :: rest)) as [texts|] eqn:Et;
      [|discriminate].
    destruct (embed_documents texts) as [embeddings|] eqn:Ee; [|discriminate].
    destruct (Store.records_of (doc :: rest) embeddings) as [records|] eqn:Er;
      [|discriminate].
    destruct (insert records) as [[|row data]|] eqn:Ei; try discriminate.
    destruct (records_of_length _ _ _ Er) as (H1 & H2 & H3).
    exists texts, embeddings, records, (row :: data).
    repeat split; try assumption; try discriminate.
    now apply texts_of_length.
  - intros documents doc Hin Hmissing. unfold Store.ingest_sukl_data.
    destruct documents as [|d rest]; [reflexivity|].
    unfold Store._direct_bulk_insert.
    destruct Hmissing as [Hc | Hm].
    + now rewrite (texts_of_missing _ _ Hin Hc).
    + destruct (Store.texts_of (d :: rest)) as [texts|]; [|reflexivity].
      destruct (embed_documents texts) as [embeddings|]; [|reflexivity].
      now rewrite (records_of_missing _ _ embeddings Hin Hm).
  - intros medications. unfold SuklProcessor.create_embedding_texts. split.
    + induction medications as [|med rest IH]; [reflexivity|].
      cbn [map Store.texts_of]. unfold Store.as_dict at 1.
      cbn [dict_get]. rewrite eqb_refl.
      cbn [map] in IH. rewrite IH. reflexivity.
    + intros embeddings H. apply records_of_documents.
      now rewrite length_map.
Qed.

Lemma ingest_outcome_witness :
  Store.ingest_sukl_data
    (fun texts => Some (map (fun _ => VList [VNum 0]) texts))
    (fun records => Some records)
    (map Store.as_dict (SuklProcessor.create_embedding_texts [Sample.paralen]))
  = true
  /\ map Store.as_dict (SuklProcessor.create_embedding_texts [Sample.paralen])
     <> [].
Proof.
  assert (H : Store.ingest_sukl_data
                (fun texts => Some (map (fun _ => VList [VNum 0]) texts))
                (fun records => Some records)
                (map Store.as_dict
                   (SuklProcessor.create_embedding_texts [Sample.paralen]))
              = true) by (vm_compute; reflexivity).
  split; [exact H|].
  destruct (ingest_outcome
              (fun texts => Some (map (fun _ => VList [VNum 0]) texts))
              (fun records => Some records)) as [Hi _].
  apply (Hi _ H).
Defined.

(** ** The workflow as a whole *)



Lemma check_error_by_flag (s : MedicationState) :
  (has_error s = false -> Main.check_error s = ret tt)
  /\ (has_error s = true -> exists e, Main.check_error s = raise e).
Proof.
  unfold Main.check_error, has_error.
  destruct (error s) as [e|]; [|split; [reflexivity | discriminate]].
  destruct (nonempty e); split; try discriminate; try reflexivity.
  intros _. now eexists.
Qed.



(** ** The fields of a recognition *)

Lemma str_field_text (w : World) (key : pystr) (default : option pyval)
    (d : dict) (x : pyval) :
  (forall v, default = Some v -> exists s, v = VStr s) ->
  str_field w key default d = ret x -> exists s, x = VStr s.
Proof.
  intros Hdefault. unfold str_field.
  destruct (dict_get key d) as [v|].
  - destruct v as [|b|q|s|l|j]; try discriminate;
      try (destruct (coerce_str w _) as [s|]; [|discriminate]);
      intros H; injection H as <-; now eexists.
  - destruct default as [v|]; [|discriminate].
    intros H. injection H as <-. now apply Hdefault.
Qed.

Lemma opt_str_field_text (w : World) (key : pystr) (d : dict) (x : pyval) :
  opt_str_field w key d = ret x -> x = VNone \/ exists s, x = VStr s.
Proof.
  unfold opt_str_field.
  destruct (dict_get key d) as [v|].
  - destruct v as [|b|q|s|l|j]; try discriminate;
      try (destruct (coerce_str w _) as [s|]; [|discriminate]);
      intros H; injection H as <-; try (now left); right; now eexists.
  - intros H. injection H as <-. now left.
Qed.

Lemma opt_bool_field_flag (key : pystr) (d : dict) (x : pyval) :
  opt_bool_field key d = ret x -> x = VNone \/ exists b, x = VBool b.
Proof.
  unfold opt_bool_field.
  destruct (dict_get key d) as [v|].
  - destruct v as [|b|q|s|l|j]; try discriminate;
      intros H; injection H as <-; try (now left); right; now eexists.
  - intros H. injection H as <-. now left.
Qed.

(** X29.  Whatever the image and the services, the result of
    [process_medication_image] has a string as name and strings in the
    other five text fields, a warning that is a string or absent, and a
    validation flag that is a boolean or absent: a reply with a null or
    missing name never gets through as a result. *)
Theorem recognition_fields_are_text (w : World) (image_data : pystr) :
  (exists s, VisionProcessor.name (process_medication_image w image_data)
             = VStr s)
  /\ (exists s, active_ingredient (process_medication_image w image_data)
                = VStr s)
  /\ (exists s, strength (process_medication_image w image_data) = VStr s)
  /\ (exists s, form (process_medication_image w image_data) = VStr s)
  /\ (exists s, manufacturer (process_medication_image w image_data)
                = VStr s)
  /\ (exists s, registration_number (process_medication_image w image_data)
                = VStr s)
  /\ (VisionProcessor.warning (process_medication_image w image_data) = VNone
      \/ exists s,
           VisionProcessor.warning (process_medication_image w image_data)
           = VStr s)
  /\ (validated (process_medication_image w image_data) = VNone
      \/ exists b,
           validated (process_medication_image w image_data) = VBool b).
Proof.
  unfold process_medication_image.
  match goal with
  | |- context [try_except ?c _] => destruct c as [e|v] eqn:E
  end.
  - cbn [try_except VisionProcessor.name active_ingredient strength form
         manufacturer registration_number VisionProcessor.warning validated].
    repeat split; try (now eexists); [right; now eexists | now left].
  - cbn [try_except].
    do 4 (apply bind_inr in E; destruct E as [? [_ E]]).
    unfold VisionResult_of in E.
    apply bind_inr in E as (n & Hn & E).
    apply bind_inr in E as (ai & Hai & E).
    apply bind_inr in E as (st & Hst & E).
    apply bind_inr in E as (fo & Hfo & E).
    apply bind_inr in E as (ma & Hma & E).
    apply bind_inr in E as (rn & Hrn & E).
    apply bind_inr in E as (cs & Hcs & E).
    apply bind_inr in E as (wa & Hwa & E).
    apply bind_inr in E as (va & Hva & E).
    apply bind_inr in E as (sm & Hsm & E).
    injection E as <-.
    cbn [VisionProcessor.name active_ingredient strength form
         manufacturer registration_number VisionProcessor.warning validated].
    assert (Hp : forall v, Some (VStr placeholder) = Some v ->
                   exists s, v = VStr s).
    { intros v H. injection H as <-. now eexists. }
    assert (Hnone : forall v, @None pyval = Some v -> exists s, v = VStr s)
      by (intros v H; discriminate H).
    split; [apply (str_field_text _ _ _ _ _ Hnone Hn)|].
    split; [apply (str_field_text _ _ _ _ _ Hp Hai)|].
    split; [apply (str_field_text _ _ _ _ _ Hp Hst)|].
    split; [apply (str_field_text _ _ _ _ _ Hp Hfo)|].
    split; [apply (str_field_text _ _ _ _ _ Hp Hma)|].
    split; [apply (str_field_text _ _ _ _ _ Hp Hrn)|].
    split; [apply (opt_str_field_text _ _ _ _ Hwa)|].
    apply (opt_bool_field_flag _ _ _ Hva).
Qed.
